(** * Verification of the Dialogflow converter of jovo-model

    A shallow embedding of [JovoModelDialogflow] (the importer
    [toJovoModel] and the exporter [fromJovoModel]) and of the lodash and
    JavaScript operations it relies on.

    Modelling conventions.
    - JSON trees are the inductive [json]; [JUndef] is a JavaScript
      [undefined] stored in a tree (lodash [_set] can store one), [JNum]
      holds integer-valued numbers only.
    - JavaScript strings are Rocq strings; every character is one UTF-16
      code unit of the Latin-1 range U+0000 to U+00FF.
    - JavaScript objects are association lists kept in insertion order;
      assigning an existing key keeps its position (the special key
      [__proto__] is not modelled).
    - Exceptions are the [Throw] branch of [result], carrying the message. *)

From Stdlib Require Import String Ascii List ZArith Bool Lia.
From Stdlib Require Import Numbers.DecimalString.
Import ListNotations.
Open Scope string_scope.
Open Scope list_scope.
Set Warnings "-register-all".

(** ** JSON values *)

Inductive json : Type :=
| JUndef
| JNull
| JBool (b : bool)
| JNum (n : Z)
| JStr (s : string)
| JArr (xs : list json)
| JObj (fs : list (string * json)).

(** ** Strings *)

Definition dq : string := String "034"%char EmptyString.

Definition quoted (s : string) : string := (dq ++ s ++ dq)%string.

Definition Z_to_string (z : Z) : string := NilEmpty.string_of_int (Z.to_int z).

Definition nat_key (n : nat) : string := Z_to_string (Z.of_nat n).

(** [String.prototype.startsWith] *)
Definition startsWith (s pre : string) : bool := String.prefix pre s.

(** [s.indexOf(pat) > -1] *)
Fixpoint contains (pat s : string) : bool :=
  String.prefix pat s ||
  match s with
  | EmptyString => false
  | String _ s' => contains pat s'
  end.

(** [s.substr(1)] *)
Definition substr1 (s : string) : string :=
  match s with
  | EmptyString => EmptyString
  | String _ s' => s'
  end.

Definition is_empty_string (s : string) : bool :=
  match s with EmptyString => true | _ => false end.

(** ** Association lists (JavaScript objects) *)

Fixpoint assoc {A : Type} (k : string) (l : list (string * A)) : option A :=
  match l with
  | [] => None
  | (k', v) :: l' => if String.eqb k k' then Some v else assoc k l'
  end.

(** [obj[k] = v] *)
Fixpoint assoc_set {A : Type} (k : string) (v : A) (l : list (string * A))
  : list (string * A) :=
  match l with
  | [] => [(k, v)]
  | (k', v') :: l' =>
      if String.eqb k k' then (k, v) :: l' else (k', v') :: assoc_set k v l'
  end.

(** [delete obj[k]] *)
Fixpoint assoc_del {A : Type} (k : string) (l : list (string * A))
  : list (string * A) :=
  match l with
  | [] => []
  | (k', v') :: l' => if String.eqb k k' then assoc_del k l' else (k', v') :: assoc_del k l'
  end.

Definition default {A : Type} (d : A) (o : option A) : A :=
  match o with Some a => a | None => d end.

(** ** JavaScript semantics of values *)

(** Truthiness. *)
Definition truthy (x : json) : bool :=
  match x with
  | JUndef | JNull => false
  | JBool b => b
  | JNum n => negb (Z.eqb n 0)
  | JStr s => negb (is_empty_string s)
  | JArr _ | JObj _ => true
  end.

Definition truthy_opt (o : option json) : bool :=
  match o with Some x => truthy x | None => false end.

(** Strict equality [===].  Arrays and objects of a parsed JSON tree are
    distinct references, so they are never strictly equal. *)
Definition strict_eq (x y : json) : bool :=
  match x, y with
  | JUndef, JUndef => true
  | JNull, JNull => true
  | JBool a, JBool b => Bool.eqb a b
  | JNum a, JNum b => Z.eqb a b
  | JStr a, JStr b => String.eqb a b
  | _, _ => false
  end.

(** [String(x)], used by string concatenation and by object keys. *)
Fixpoint js_to_string (x : json) : string :=
  match x with
  | JUndef => "undefined"
  | JNull => "null"
  | JBool true => "true"
  | JBool false => "false"
  | JNum n => Z_to_string n
  | JStr s => s
  | JArr xs =>
      (fix join (xs : list json) : string :=
         match xs with
         | [] => EmptyString
         | y :: ys =>
             let e := match y with JUndef | JNull => EmptyString | _ => js_to_string y end in
             match ys with
             | [] => e
             | _ => (e ++ "," ++ join ys)%string
             end
         end) xs
  | JObj _ => "[object Object]"
  end.

Inductive result (A : Type) : Type :=
| Ok (a : A)
| Throw (msg : string).
Arguments Ok {A} a.
Arguments Throw {A} msg.

Definition rbind {A B : Type} (r : result A) (f : A -> result B) : result B :=
  match r with Ok a => f a | Throw e => Throw e end.

Notation "'let*' x ':=' r 'in' f" := (rbind r (fun x => f))
  (at level 200, x name, r at level 100, f at level 200).

Definition type_error {A : Type} : result A :=
  Throw "TypeError".

(** [for (const x of v)]: arrays and strings are iterable. *)
Definition js_iter (x : json) : result (list json) :=
  match x with
  | JArr xs => Ok xs
  | JStr s => Ok (map (fun c => JStr (String c EmptyString)) (list_ascii_of_string s))
  | _ => type_error
  end.

(** ** lodash paths: [_get], [_set] *)

Inductive seg : Type :=
| PKey (k : string)
| PIdx (n : nat).

Definition get1 (x : json) (s : seg) : json :=
  match x, s with
  | JObj fs, PKey k => default JUndef (assoc k fs)
  | JObj fs, PIdx n => default JUndef (assoc (nat_key n) fs)
  | JArr xs, PIdx n => nth n xs JUndef
  | JArr xs, PKey k => if String.eqb k "length" then JNum (Z.of_nat (length xs)) else JUndef
  | JStr t, PIdx n =>
      match String.get n t with Some c => JStr (String c EmptyString) | None => JUndef end
  | JStr t, PKey k => if String.eqb k "length" then JNum (Z.of_nat (String.length t)) else JUndef
  | _, _ => JUndef
  end.

(** [x.k]: reading a property of [null] or [undefined] throws. *)
Definition prop (x : json) (k : string) : result json :=
  match x with
  | JUndef | JNull => type_error
  | _ => Ok (get1 x (PKey k))
  end.

(** [_get(x, path)] ([undefined] when unresolved). *)
Definition get_path (x : json) (p : list seg) : json := fold_left get1 p x.

(** [_get(x, path, d)] *)
Definition get_or (x : json) (p : list seg) (d : json) : json :=
  match get_path x p with JUndef => d | v => v end.

Definition is_objlike (x : json) : bool :=
  match x with JArr _ | JObj _ => true | _ => false end.

Definition empty_for (s : seg) : json :=
  match s with PIdx _ => JArr [] | PKey _ => JObj [] end.

Fixpoint list_set (n : nat) (v : json) (xs : list json) : list json :=
  match n, xs with
  | O, [] => [v]
  | O, _ :: xs' => v :: xs'
  | S n', [] => JUndef :: list_set n' v []
  | S n', x :: xs' => x :: list_set n' v xs'
  end.

(** Assignment of one key; assigning a key of a primitive has no effect. *)
Definition assign (x : json) (s : seg) (v : json) : json :=
  match x, s with
  | JObj fs, PKey k => JObj (assoc_set k v fs)
  | JObj fs, PIdx n => JObj (assoc_set (nat_key n) v fs)
  | JArr xs, PIdx n => JArr (list_set n v xs)
  | _, _ => x
  end.

(** lodash [baseSet]: a missing or primitive intermediate value is replaced by
    an array when the next key is an index, by an object otherwise. *)
Fixpoint set_path (x : json) (p : list seg) (v : json) : json :=
  match p with
  | [] => v
  | [s] => assign x s v
  | s :: ((s' :: _) as rest) =>
      let old := get1 x s in
      assign x s (set_path (if is_objlike old then old else empty_for s') rest v)
  end.

(** [_get(rec, 'f.' ++ path)] and [_set(rec, 'f.' ++ path, v)] for a record
    field [f] holding an optional JSON tree. *)
Definition get_under (o : option json) (p : list seg) : json :=
  match o with Some x => get_path x p | None => JUndef end.

Definition set_under (o : option json) (p : list seg) (v : json) : json :=
  let base := match o with
              | Some x => if is_objlike x then x else JObj []
              | None => JObj []
              end in
  set_path base p v.

(** lodash [_isEqual] on JSON trees (objects compared key-wise). *)
Fixpoint json_eqb (a b : json) : bool :=
  match a, b with
  | JUndef, JUndef => true
  | JNull, JNull => true
  | JBool x, JBool y => Bool.eqb x y
  | JNum x, JNum y => Z.eqb x y
  | JStr x, JStr y => String.eqb x y
  | JArr xs, JArr ys =>
      (fix go (xs ys : list json) : bool :=
         match xs, ys with
         | [], [] => true
         | x :: xs', y :: ys' => json_eqb x y && go xs' ys'
         | _, _ => false
         end) xs ys
  | JObj xs, JObj ys =>
      Nat.eqb (length xs) (length ys) &&
      (fix go (xs : list (string * json)) : bool :=
         match xs with
         | [] => true
         | (k, x) :: xs' =>
             match assoc k ys with Some y => json_eqb x y | None => false end && go xs'
         end) xs
  | _, _ => false
  end.

(** lodash [_difference(a, b)]: a non-array first argument gives []. *)
Definition js_difference (a b : json) : list json :=
  match a with
  | JArr xs =>
      let bs := match b with JArr l => l | _ => [] end in
      filter (fun x => negb (existsb (strict_eq x) bs)) xs
  | _ => []
  end.

(** lodash [_merge(dst, src)] on JSON trees: objects are merged key-wise and
    arrays index-wise, recursively; a primitive source value replaces the
    destination value, an [undefined] source value only creates a missing
    key.  Merging a source of another shape than the destination leaves the
    destination unchanged (lodash would copy index keys onto objects). *)
Fixpoint merge_into (dst src : json) {struct src} : json :=
  match src with
  | JObj ss =>
      match dst with
      | JObj ds =>
          JObj ((fix go (ss : list (string * json)) (ds : list (string * json)) :=
                   match ss with
                   | [] => ds
                   | (k, v) :: ss' =>
                       let old := assoc k ds in
                       let ds' :=
                         match v with
                         | JUndef => match old with Some _ => ds | None => assoc_set k JUndef ds end
                         | JArr _ =>
                             assoc_set k (merge_into (match old with Some (JArr a) => JArr a | _ => JArr [] end) v) ds
                         | JObj _ =>
                             assoc_set k (merge_into (match old with
                                                      | Some (JObj o) => JObj o
                                                      | Some (JArr a) => JArr a
                                                      | _ => JObj [] end) v) ds
                         | _ => assoc_set k v ds
                         end in
                       go ss' ds'
                   end) ss ds)
      | _ => dst
      end
  | JArr ss =>
      match dst with
      | JArr ds =>
          JArr ((fix go (i : nat) (ss : list json) (ds : list json) :=
                   match ss with
                   | [] => ds
                   | v :: ss' =>
                       let old := nth_error ds i in
                       let ds' :=
                         match v with
                         | JUndef => match old with Some _ => ds | None => list_set i JUndef ds end
                         | JArr _ =>
                             list_set i (merge_into (match old with Some (JArr a) => JArr a | _ => JArr [] end) v) ds
                         | JObj _ =>
                             list_set i (merge_into (match old with
                                                     | Some (JObj o) => JObj o
                                                     | Some (JArr a) => JArr a
                                                     | _ => JObj [] end) v) ds
                         | _ => list_set i v ds
                         end in
                       go (S i) ss' ds'
                   end) O ss ds)
      | _ => dst
      end
  | _ => dst
  end.

(** ** The canonical model ([@jovotech/model]) *)

Inductive EntityTypeRef : Type :=
| TName (name : string)
| TObj (platforms : list (string * string)).

Record IntentEntity : Type := {
  ie_type : option EntityTypeRef;
  ie_text : option json;
  ie_dialogflow : option json }.

Record Intent : Type := {
  phrases : option (list string);
  entities : option (list (string * IntentEntity));
  intent_dialogflow : option json }.

Inductive EntityTypeValue : Type :=
| EVStr (value : string)
| EVObj (value : json) (synonyms : option (list json)).

Record EntityType : Type := {
  values : option (list EntityTypeValue);
  et_dialogflow : option json }.

(** [JovoModelData] (version 4) and [JovoModelDataV3] (legacy, [model_is_v3]);
    the legacy [inputTypes] are held in [entityTypes]. *)
Record JovoModelData : Type := {
  model_is_v3 : bool;
  version : option string;
  invocation : option string;
  intents : option (list (string * Intent));
  entityTypes : option (list (string * EntityType));
  model_dialogflow : option json }.

(** [NativeFileInformation] *)
Record NativeFile : Type := {
  path : list string;
  content : json }.

(** ** The importer [JovoModelDialogflow.toJovoModel] *)

Definition DEFAULT_INTENT : json :=
  JObj [("auto", JBool true);
        ("contexts", JArr []);
        ("responses", JArr [JObj [("resetContexts", JBool false);
                                  ("affectedContexts", JArr []);
                                  ("parameters", JArr []);
                                  ("defaultResponsePlatforms", JObj []);
                                  ("speech", JArr [])]]);
        ("priority", JNum 500000);
        ("webhookUsed", JBool false);
        ("webhookForSlotFilling", JBool false);
        ("fallbackIntent", JBool false);
        ("events", JArr [])].

Definition DEFAULT_ENTITY : json :=
  JObj [("isOverridable", JBool true);
        ("isEnum", JBool false);
        ("automatedExpansion", JBool false);
        ("isRegexp", JBool false);
        ("allowFuzzyExtraction", JBool false)].

Definition K (k : string) : list seg := [PKey k].
Definition R0 (k : string) : list seg := [PKey "responses"; PIdx 0; PKey k].

Definition empty_intent : Intent :=
  {| phrases := Some []; entities := None; intent_dialogflow := None |}.

(** [_set(jovoIntent, 'dialogflow.' ++ p, v)] *)
Definition set_intent_df (ji : Intent) (p : list seg) (v : json) : Intent :=
  {| phrases := phrases ji; entities := entities ji;
     intent_dialogflow := Some (set_under (intent_dialogflow ji) p v) |}.

(** [x.length > 0] for the value [_get(message, 'speech', '')]; for an object
    the numeric member [length] is compared (other members compare false). *)
Definition length_pos (x : json) : result bool :=
  match x with
  | JUndef | JNull => type_error
  | JStr s => Ok (negb (is_empty_string s))
  | JArr xs => Ok (match xs with [] => false | _ => true end)
  | JObj fs =>
      Ok (match assoc "length" fs with
          | Some (JNum n) => Z.ltb 0 n
          | Some (JBool b) => b
          | _ => false
          end)
  | _ => Ok false
  end.

(** The loop over [responses[0].messages] (lines 615-628). *)
Definition import_messages (locale : string) (ji : Intent) (ms : list json) : result Intent :=
  fold_left
    (fun acc message =>
       let* ji := acc in
       if strict_eq (get1 message (PKey "lang")) (JStr locale) then
         let cur := match get_under (intent_dialogflow ji) (R0 "messages") with
                    | JUndef => JArr []
                    | v => v
                    end in
         let* pos := length_pos (get_or message (K "speech") (JStr "")) in
         if pos then
           match cur with
           | JArr xs => Ok (set_intent_df ji (R0 "messages") (JArr (xs ++ [message])))
           | _ => type_error
           end
         else Ok ji
       else Ok ji)
    ms (Ok ji).

Definition skipDefaultIntentProps (ji : Intent) (dfi : json) (locale : string) : result Intent :=
  let ji := if negb (strict_eq (get_path dfi (K "auto")) (get_path DEFAULT_INTENT (K "auto")))
            then set_intent_df ji (K "auto") (get_path dfi (K "auto")) else ji in
  let ji := match js_difference (get_path dfi (K "contexts")) (get_path DEFAULT_INTENT (K "contexts")) with
            | [] => ji
            | _ => set_intent_df ji (K "contexts") (get_path dfi (K "contexts"))
            end in
  let opt_set (ji : Intent) (k : string) :=
    let v := get_path dfi (K k) in
    match v with
    | JUndef => ji
    | _ => if negb (strict_eq v (get_path DEFAULT_INTENT (K k))) then set_intent_df ji (K k) v else ji
    end in
  let ji := opt_set ji "priority" in
  let ji := opt_set ji "webhookUsed" in
  let ji := opt_set ji "webhookForSlotFilling" in
  let ji := opt_set ji "fallbackIntent" in
  let ji := match js_difference (get_path dfi (K "events")) (get_path DEFAULT_INTENT (K "events")) with
            | [] => ji
            | _ => set_intent_df ji (K "events") (get_path dfi (K "events"))
            end in
  let responses := get_path dfi (K "responses") in
  match responses with
  | JUndef => Ok ji
  | _ =>
    let* len := prop responses "length" in
    if negb (strict_eq len (JNum 0)) && negb (json_eqb responses (get_path DEFAULT_INTENT (K "responses"))) then
      let resp_set (ji : Intent) (k : string) :=
        let v := get_path dfi (R0 k) in
        match v with
        | JUndef => ji
        | _ => if negb (json_eqb v (get_path DEFAULT_INTENT (R0 k))) then set_intent_df ji (R0 k) v else ji
        end in
      let ji := resp_set ji "resetContexts" in
      let ji := resp_set ji "affectedContexts" in
      let ji := resp_set ji "defaultResponsePlatforms" in
      let* ji :=
        if negb (json_eqb (get_path dfi (R0 "messages")) (get_path DEFAULT_INTENT (R0 "messages")))
        then let* ms := js_iter (get_path dfi (R0 "messages")) in import_messages locale ji ms
        else Ok ji in
      Ok (resp_set ji "speech")
    else Ok ji
  end.

(** [_set(jovoInput, 'dialogflow.' ++ k, v)] on an entity type. *)
Definition set_entity_df (je : EntityType) (k : string) (v : json) : EntityType :=
  {| values := values je; et_dialogflow := Some (set_under (et_dialogflow je) (K k) v) |}.

Definition skipDefaultEntityProps (je : EntityType) (dfe : json) : EntityType :=
  fold_left
    (fun je k =>
       if negb (strict_eq (get_path dfe (K k)) (get_path DEFAULT_ENTITY (K k)))
       then set_entity_df je k (get_path dfe (K k)) else je)
    ["isOverridable"; "isEnum"; "automatedExpansion"; "isRegexp"; "allowFuzzyExtraction"] je.

Definition fold_result {A B : Type} (f : B -> A -> result B) (l : list A) (b : B) : result B :=
  fold_left (fun acc x => let* b := acc in f b x) l (Ok b).

Definition in_dir (d : string) (f : NativeFile) : bool :=
  match path f with
  | [] => false
  | d' :: _ => String.eqb d' d
  end.

Definition find_file (files : list NativeFile) (name : string) : option NativeFile :=
  find (fun f => match nth_error (path f) 1 with
                 | Some n => String.eqb n name
                 | None => false
                 end) files.

(** Entity declarations from the response parameters (lines 117-138). *)
Definition import_parameter (acc : list (string * IntentEntity)) (parameter : json)
  : result (list (string * IntentEntity)) :=
  let* dt := prop parameter "dataType" in
  if truthy dt then
    match dt with
    | JStr s =>
        let ty := if startsWith s "@sys." then TObj [("dialogflow", s)] else TName (substr1 s) in
        let entity := {| ie_type := Some ty; ie_text := None; ie_dialogflow := None |} in
        Ok (assoc_set (js_to_string (get1 parameter (PKey "name"))) entity acc)
    | _ => type_error
    end
  else Ok acc.

Definition import_entities (dfi : json) : result (list (string * IntentEntity)) :=
  let* responses := prop dfi "responses" in
  if truthy responses then
    let* rs := js_iter responses in
    fold_result
      (fun acc response =>
         let* ps := js_iter (get_or response (K "parameters") (JArr [])) in
         fold_result import_parameter ps acc)
      rs []
  else Ok [].

(** [entityData.text = data.text] for every entity keyed [data.alias]. *)
Definition backfill_text (al tx : json) (es : list (string * IntentEntity))
  : list (string * IntentEntity) :=
  map (fun '(k, e) =>
         if strict_eq (JStr k) al
         then (k, {| ie_type := ie_type e; ie_text := Some tx; ie_dialogflow := ie_dialogflow e |})
         else (k, e)) es.

(** One sample record of a usersays file (lines 151-165). *)
Definition import_usersay (ji : Intent) (us : json) : result Intent :=
  let* d := prop us "data" in
  let* ds := js_iter d in
  let* st :=
    fold_result
      (fun '(phrase, ents) data =>
         let* al := prop data "alias" in
         let tx := get1 data (PKey "text") in
         let phrase := (phrase ++ (if truthy al then "{" ++ js_to_string al ++ "}"
                                   else js_to_string tx))%string in
         let ents := if negb (strict_eq tx al)
                     then match ents with Some es => Some (backfill_text al tx es) | None => None end
                     else ents in
         Ok (phrase, ents))
      ds (EmptyString, entities ji) in
  let (phrase, ents) := st in
  Ok {| phrases := Some (default [] (phrases ji) ++ [phrase]); entities := ents;
        intent_dialogflow := intent_dialogflow ji |}.

(** [welcomeIntent.name = dialogFlowIntent.name] on [jovoIntent.dialogflow!]. *)
Definition set_name (o : option json) (name : json) : result json :=
  match o with
  | Some (JObj fs) => Ok (JObj (assoc_set "name" name fs))
  | _ => type_error
  end.

Definition with_model_df (jm : JovoModelData) (d : json) : JovoModelData :=
  {| model_is_v3 := model_is_v3 jm; version := version jm; invocation := invocation jm;
     intents := intents jm; entityTypes := entityTypes jm; model_dialogflow := Some d |}.

Definition with_intents (jm : JovoModelData) (l : list (string * Intent)) : JovoModelData :=
  {| model_is_v3 := model_is_v3 jm; version := version jm; invocation := invocation jm;
     intents := Some l; entityTypes := entityTypes jm; model_dialogflow := model_dialogflow jm |}.

Definition with_entityTypes (jm : JovoModelData) (l : list (string * EntityType)) : JovoModelData :=
  {| model_is_v3 := model_is_v3 jm; version := version jm; invocation := invocation jm;
     intents := intents jm; entityTypes := Some l; model_dialogflow := model_dialogflow jm |}.

(** One primary intent file (lines 83-169). *)
Definition import_intent_file (intentFiles : list NativeFile) (locale : string)
  (jm : JovoModelData) (f : NativeFile) : result JovoModelData :=
  match nth_error (path f) 1 with
  | None => type_error
  | Some file =>
    if contains "usersays" file then Ok jm else
    let dfi := content f in
    let* ji := skipDefaultIntentProps empty_intent dfi locale in
    let* fb := prop dfi "fallbackIntent" in
    if strict_eq fb (JBool true) then
      let* fallbackIntent := set_name (intent_dialogflow ji) (get1 dfi (PKey "name")) in
      Ok (with_model_df jm (set_under (model_dialogflow jm) (K "intents") (JArr [fallbackIntent])))
    else if strict_eq (get_path dfi [PKey "events"; PIdx 0; PKey "name"]) (JStr "WELCOME") then
      let* welcomeIntent := set_name (intent_dialogflow ji) (get1 dfi (PKey "name")) in
      if negb (truthy (get_under (model_dialogflow jm) (K "intents"))) then
        Ok (with_model_df jm (set_under (model_dialogflow jm) (K "intents") (JArr [welcomeIntent])))
      else
        match get_under (model_dialogflow jm) (K "intents") with
        | JArr xs => Ok (with_model_df jm (set_under (model_dialogflow jm) (K "intents")
                                             (JArr (xs ++ [welcomeIntent]))))
        | _ => type_error
        end
    else
      let* ents := import_entities dfi in
      let ji := {| phrases := phrases ji;
                   entities := match ents with [] => None | _ => Some ents end;
                   intent_dialogflow := intent_dialogflow ji |} in
      let name := js_to_string (get1 dfi (PKey "name")) in
      let* ji :=
        match find_file intentFiles (name ++ "_usersays_" ++ locale ++ ".json")%string with
        | Some usf => let* uss := js_iter (content usf) in fold_result import_usersay uss ji
        | None => Ok ji
        end in
      match intents jm with
      | Some l => Ok (with_intents jm (assoc_set name ji l))
      | None => type_error
      end
  end.

(** One entity entry (lines 207-224). *)
Definition import_entry (dfe : json) (acc : list EntityTypeValue) (entry : json)
  : result (list EntityTypeValue) :=
  let* v := prop entry "value" in
  let* isEnum := prop dfe "isEnum" in
  let* isRegexp := prop dfe "isRegexp" in
  if negb (truthy isEnum) && negb (truthy isRegexp) then
    let* syns := js_iter (get1 entry (PKey "synonyms")) in
    let temp := filter (fun s => negb (strict_eq s v)) syns in
    Ok (acc ++ [EVObj v (match temp with [] => None | _ => Some temp end)])
  else Ok (acc ++ [EVObj v None]).

(** One primary entity file (lines 185-228). *)
Definition import_entity_file (entityFiles : list NativeFile) (locale : string)
  (jm : JovoModelData) (f : NativeFile) : result JovoModelData :=
  match nth_error (path f) 1 with
  | None => type_error
  | Some file =>
    if contains "entries" file then Ok jm else
    let dfe := content f in
    let je := skipDefaultEntityProps {| values := Some []; et_dialogflow := None |} dfe in
    let* nm := prop dfe "name" in
    let name := js_to_string nm in
    let* vs :=
      match find_file entityFiles (name ++ "_entries_" ++ locale ++ ".json")%string with
      | Some ef => let* es := js_iter (content ef) in fold_result (import_entry dfe) es []
      | None => Ok []
      end in
    let je := {| values := Some vs; et_dialogflow := et_dialogflow je |} in
    match entityTypes jm with
    | Some l => Ok (with_entityTypes jm (assoc_set name je l))
    | None => type_error
    end
  end.

Definition toJovoModel (inputData : list NativeFile) (locale : string) : result JovoModelData :=
  let jovoModel := {| model_is_v3 := false; version := Some "4.0"; invocation := Some "";
                      intents := Some []; entityTypes := Some []; model_dialogflow := None |} in
  let intentFiles := filter (in_dir "intents") inputData in
  let* jm := fold_result (import_intent_file intentFiles locale) intentFiles jovoModel in
  let entityFiles := filter (in_dir "entities") inputData in
  fold_result (import_entity_file entityFiles locale) entityFiles jm.

(** ** The exporter [JovoModelDialogflow.fromJovoModel] *)

(** Modelled from the spec: [JovoModelHelper] of [@jovotech/model], the
    accessor layer that "reads/writes intents, entities, entity types
    irrespective of schema version" (section 2 and 9 of the spec); its code
    is not among the sources.  [hasEntities] holds when the intent declares a
    non-empty entity mapping, [hasEntityTypes] when the model has an
    entity-type mapping at all, [isJovoModelV3] tells the legacy schema. *)
Definition getIntents (m : JovoModelData) : list (string * Intent) :=
  default [] (intents m).

Definition getEntities (m : JovoModelData) (k : string) : list (string * IntentEntity) :=
  match assoc k (getIntents m) with
  | Some i => default [] (entities i)
  | None => []
  end.

Definition hasEntities (m : JovoModelData) (k : string) : bool :=
  match getEntities m k with [] => false | _ => true end.

Definition hasEntityTypes (m : JovoModelData) : bool :=
  match entityTypes m with Some _ => true | None => false end.

Definition getEntityTypeByName (m : JovoModelData) (n : string) : option EntityType :=
  match entityTypes m with Some l => assoc n l | None => None end.

Definition isJovoModelV3 (m : JovoModelData) : bool := model_is_v3 m.

(** Modelled from the spec: [DIALOGFLOW_LM_ENTITY] of [./utils] (not among
    the sources), "the platform entity-default template"; section 4.3 of the
    spec makes it the same default table as the one the importer diffs
    against ([DEFAULT_ENTITY]). *)
Definition DIALOGFLOW_LM_ENTITY : list (string * json) :=
  [("isOverridable", JBool true);
   ("isEnum", JBool false);
   ("automatedExpansion", JBool false);
   ("isRegexp", JBool false);
   ("allowFuzzyExtraction", JBool false)].

(** In-place write of an entity type's value list (the value objects the
    exporter mutates live in the model). *)
Definition setEntityTypeValues (m : JovoModelData) (n : string) (vs : list EntityTypeValue)
  : JovoModelData :=
  match entityTypes m with
  | Some l =>
      match assoc n l with
      | Some et => with_entityTypes m (assoc_set n {| values := Some vs; et_dialogflow := et_dialogflow et |} l)
      | None => m
      end
  | None => m
  end.

(** *** Synonym sanitisation: [s.replace(/[^0-9A-Za-zÀ-ÿ-_' ]/gi, '')] *)

(** The members of the character class, as code units: [0-9], [A-Z], [a-z],
    the range U+00C0 to U+00FF, and the literal [-], [_], ['] and space. *)
Definition class_members : list nat :=
  seq 48 10 ++ seq 65 26 ++ seq 97 26 ++ seq 192 64 ++ [45; 95; 39; 32].

(** ECMAScript [Canonicalize] for a case-insensitive, non-unicode pattern,
    on the Latin-1 range: the upper-case mapping, except that a character
    whose upper case is several code units ([ß]) or falls into ASCII from
    outside it keeps itself. *)
Definition canonicalize (c : nat) : nat :=
  if Nat.leb 97 c && Nat.leb c 122 then c - 32
  else if Nat.leb 224 c && Nat.leb c 254 && negb (Nat.eqb c 247) then c - 32
  else if Nat.eqb c 255 then 376
  else if Nat.eqb c 181 then 924
  else c.

Definition in_class (c : ascii) : bool :=
  existsb (fun d => Nat.eqb (canonicalize d) (canonicalize (nat_of_ascii c))) class_members.

Definition sanitize (s : string) : string :=
  string_of_list_ascii (filter in_class (list_ascii_of_string s)).

(** *** Phrase scanning with [/{(.*?)}/g] (lines 387-463) *)

Definition is_line_terminator (c : ascii) : bool :=
  (c =? "010"%char)%char || (c =? "013"%char)%char.

(** The lazy [(.*?)}]: the text up to the first [}], provided no line
    terminator comes first. *)
Fixpoint take_name (s : string) : option (string * string) :=
  match s with
  | EmptyString => None
  | String c s' =>
      if (c =? "}"%char)%char then Some (EmptyString, s')
      else if is_line_terminator c then None
      else match take_name s' with
           | Some (n, r) => Some (String c n, r)
           | None => None
           end
  end.

(** [re.exec]: the text before the first match, the captured name and the
    text after the match. *)
Fixpoint next_marker (s : string) : option (string * string * string) :=
  match s with
  | EmptyString => None
  | String c s' =>
      match (if (c =? "{"%char)%char then take_name s' else None) with
      | Some (n, r) => Some (EmptyString, n, r)
      | None =>
          match next_marker s' with
          | Some (pre, n, r) => Some (String c pre, n, r)
          | None => None
          end
      end
  end.

Inductive piece : Type :=
| Lit (text : string)
| Mark (name : string).

(** The [while] loop with its [text.length > 0] test and the trailing
    [pos < phrase.length] test; [fuel] bounds the number of matches. *)
Fixpoint scan_fuel (fuel : nat) (s : string) : list piece :=
  match fuel with
  | O => []
  | S f =>
      match next_marker s with
      | Some (pre, n, r) =>
          (if is_empty_string pre then [] else [Lit pre]) ++ Mark n :: scan_fuel f r
      | None => if is_empty_string s then [] else [Lit s]
      end
  end.

Definition scan_markers (s : string) : list piece := scan_fuel (S (String.length s)) s.

(** [if (data.length === 0) data = [{ text: phrase, ... }]] *)
Definition phrase_pieces (s : string) : list piece :=
  match scan_markers s with
  | [] => [Lit s]
  | ps => ps
  end.

(** *** State and errors of the exporter *)

Record ExportState : Type := {
  st_next : nat;
  st_model : JovoModelData;
  st_files : list NativeFile }.

Definition M (A : Type) : Type := ExportState -> result (A * ExportState).

Definition mret {A : Type} (a : A) : M A := fun s => Ok (a, s).

Definition mbind {A B : Type} (m : M A) (f : A -> M B) : M B :=
  fun s => match m s with Ok (a, s') => f a s' | Throw e => Throw e end.

Notation "x <- m ;; k" := (mbind m (fun x => k))
  (at level 61, m at next level, right associativity).

Definition mthrow {A : Type} (e : string) : M A := fun _ => Throw e.

Definition lift {A : Type} (r : result A) : M A :=
  fun s => match r with Ok a => Ok (a, s) | Throw e => Throw e end.

Definition get_model : M JovoModelData := fun s => Ok (st_model s, s).

Definition put_model (m : JovoModelData) : M unit :=
  fun s => Ok (tt, {| st_next := st_next s; st_model := m; st_files := st_files s |}).

Definition push_file (f : NativeFile) : M unit :=
  fun s => Ok (tt, {| st_next := st_next s; st_model := st_model s; st_files := st_files s ++ [f] |}).

Fixpoint mfold {A B : Type} (f : B -> A -> M B) (l : list A) (b : B) : M B :=
  match l with
  | [] => mret b
  | x :: l' => b' <- f b x ;; mfold f l' b'
  end.

Definition map_result {A B : Type} (f : A -> result B) (l : list A) : result (list B) :=
  fold_result (fun acc x => let* y := f x in Ok (acc ++ [y])) l [].

(** One entity-type value turned into an entry (lines 334-354); the second
    component is the value as the model holds it afterwards. *)
Definition export_value (isEnum isRegexp : json) (v : EntityTypeValue)
  : result (json * EntityTypeValue) :=
  match v with
  | EVStr s => Ok (JObj [("value", JStr s)], v)
  | EVObj val syns =>
      if negb (truthy isEnum) && negb (truthy isRegexp) then
        match val with
        | JStr s =>
            match syns with
            | Some l =>
                let* l' := map_result (fun x => match x with
                                                | JStr t => Ok (JStr (sanitize t))
                                                | _ => type_error
                                                end) l in
                Ok (JObj [("value", val); ("synonyms", JArr (JStr (sanitize s) :: l'))],
                    EVObj val (Some l'))
            | None => Ok (JObj [("value", val); ("synonyms", JArr [JStr (sanitize s)])], v)
            end
        | _ => type_error
        end
      else Ok (JObj [("value", val)], v)
  end.

Definition lit_json (t : string) : json :=
  JObj [("text", JStr t); ("userDefined", JBool false)].

(** The entity segment of a marker (lines 420-445). *)
Definition entity_piece (m : JovoModelData) (intentKey : string) (obj : json) (name : string)
  : result json :=
  let ents := if hasEntities m intentKey then getEntities m intentKey else [] in
  let text := fold_left (fun t '(ek, ed) =>
                           if String.eqb ek name && truthy_opt (ie_text ed)
                           then default JUndef (ie_text ed) else t) ents (JStr name) in
  let params := get_path obj (R0 "parameters") in
  let* am :=
    if truthy params then
      match params with
      | JArr items =>
          fold_result (fun am item =>
                         let* nm := prop item "name" in
                         if strict_eq nm (JStr name)
                         then Ok (Some (nm, get1 item (PKey "dataType"))) else Ok am) items None
      | _ => type_error
      end
    else Ok None in
  Ok (JObj ([("text", text); ("userDefined", JBool true)] ++
            match am with Some (a, mt) => [("alias", a); ("meta", mt)] | None => [] end)).

Definition piece_json (m : JovoModelData) (intentKey : string) (obj : json) (pc : piece)
  : result json :=
  match pc with
  | Lit t => Ok (lit_json t)
  | Mark n => entity_piece m intentKey obj n
  end.

Section Exporter.

Local Open Scope string_scope.

(** [uuidv4 n] is the identifier drawn the [n]-th time in one export call. *)
Variable uuidv4 : nat -> string.

Definition uuid : M string :=
  fun s => Ok (uuidv4 (st_next s),
               {| st_next := S (st_next s); st_model := st_model s; st_files := st_files s |}).

(** The parameter of one intent entity (lines 258-372). *)
Definition export_entity (locale intentKey : string) (acc : list json) (kv : string * IntentEntity)
  : M (list json) :=
  let (entityKey, entityData) := kv in
  dataType <-
    match ie_type entityData with
    | None => mthrow ("Invalid entity type in intent " ++ quoted intentKey)
    | Some (TName s) =>
        if is_empty_string s then mthrow ("Invalid entity type in intent " ++ quoted intentKey)
        else mret s
    | Some (TObj fs) =>
        match assoc "dialogflow" fs with
        | Some d => if is_empty_string d
                    then mthrow ("Please add a dialogflow property for entity " ++ quoted entityKey)
                    else mret d
        | None => mthrow ("Please add a dialogflow property for entity " ++ quoted entityKey)
        end
    end ;;
  dataType' <-
    (if startsWith dataType "@sys." then mret dataType else
     m <- get_model ;;
     if negb (hasEntityTypes m)
     then mthrow ("Input type " ++ quoted dataType ++ " must be defined in entityTypes") else
     match getEntityTypeByName m dataType with
     | None =>
         if isJovoModelV3 m
         then mthrow ("Input type " ++ quoted dataType ++ " must be defined in inputTypes")
         else mthrow ("Entity type " ++ quoted dataType ++ " must be defined in entityTypes")
     | Some et =>
         eid <- uuid ;;
         let obj0 := JObj (assoc_set "name" (JStr dataType)
                             (assoc_set "id" (JStr eid) DIALOGFLOW_LM_ENTITY)) in
         let obj := match et_dialogflow et with
                    | Some d => if truthy d then
                                  match d with
                                  | JStr s => JObj (assoc_set "name" (JStr s)
                                                     (assoc_set "id" (JStr eid) DIALOGFLOW_LM_ENTITY))
                                  | _ => merge_into obj0 d
                                  end
                                else obj0
                    | None => obj0
                    end in
         _ <- push_file {| path := ["entities"; dataType ++ ".json"]; content := obj |} ;;
         _ <- match values et with
              | Some ((_ :: _) as vs) =>
                  r <- lift (map_result (export_value (get1 obj (PKey "isEnum"))
                                                      (get1 obj (PKey "isRegexp"))) vs) ;;
                  m' <- get_model ;;
                  _ <- put_model (setEntityTypeValues m' dataType (map snd r)) ;;
                  push_file {| path := ["entities"; dataType ++ "_entries_" ++ locale ++ ".json"];
                               content := JArr (map fst r) |}
              | _ => mret tt
              end ;;
         mret ("@" ++ dataType)
     end) ;;
  let param := JObj [("isList", JBool false); ("name", JStr entityKey);
                     ("value", JStr ("$" ++ entityKey)); ("dataType", JStr dataType')] in
  let param := if truthy_opt (ie_dialogflow entityData)
               then merge_into param (default JUndef (ie_dialogflow entityData)) else param in
  mret (app acc [param]).

(** One sample record of the usersays file (lines 391-472). *)
Definition export_phrase (locale intentKey : string) (obj : json) (acc : list json) (phrase : string)
  : M (list json) :=
  m <- get_model ;;
  data <- lift (map_result (piece_json m intentKey obj) (phrase_pieces phrase)) ;;
  id <- uuid ;;
  mret (app acc [JObj [("id", JStr id); ("data", JArr data); ("isTemplate", JBool false);
                      ("count", JNum 0); ("lang", JStr locale)]]).

(** One canonical intent (lines 241-478). *)
Definition export_intent (locale : string) (u : unit) (kv : string * Intent) : M unit :=
  let (intentKey, intentData) := kv in
  id <- uuid ;;
  m <- get_model ;;
  params <-
    (if hasEntities m intentKey
     then ps <- mfold (export_entity locale intentKey) (getEntities m intentKey) [] ;; mret (Some ps)
     else mret None) ;;
  let base := JObj (app [("id", JStr id); ("name", JStr intentKey);
                     ("auto", JBool true); ("webhookUsed", JBool true)]
                    (match params with
                    | Some ps => [("responses", JArr [JObj [("parameters", JArr ps)]])]
                    | None => []
                    end)) in
  let obj := if truthy_opt (intent_dialogflow intentData)
             then merge_into base (default JUndef (intent_dialogflow intentData)) else base in
  _ <- push_file {| path := ["intents"; intentKey ++ ".json"]; content := obj |} ;;
  recs <- mfold (export_phrase locale intentKey obj) (default [] (phrases intentData)) [] ;;
  match recs with
  | [] => mret tt
  | _ => push_file {| path := ["intents"; intentKey ++ "_usersays_" ++ locale ++ ".json"];
                      content := JArr recs |}
  end.

(** One record of [dialogflow.intents] or [dialogflow.entities] (lines 482-516):
    its [sub] field is extracted into a companion file and deleted. *)
Definition export_df_record (locale dir sub infix : string) (acc : list json) (rec : json)
  : M (list json) :=
  sv <- lift (prop rec sub) ;;
  let name := js_to_string (get1 rec (PKey "name")) in
  rec' <-
    (if truthy sv then
       _ <- push_file {| path := [dir; name ++ infix ++ locale ++ ".json"]; content := sv |} ;;
       mret (match rec with JObj fs => JObj (assoc_del sub fs) | _ => rec end)
     else mret rec) ;;
  _ <- push_file {| path := [dir; name ++ ".json"]; content := rec' |} ;;
  mret (app acc [rec']).

Definition export_escape_hatch (locale key sub infix : string) : M unit :=
  m <- get_model ;;
  let coll := get_under (model_dialogflow m) (K key) in
  if truthy coll then
    items <- lift (js_iter coll) ;;
    items' <- mfold (export_df_record locale key sub infix) items [] ;;
    match coll with
    | JArr _ =>
        m' <- get_model ;;
        put_model (with_model_df m' (set_under (model_dialogflow m') (K key) (JArr items')))
    | _ => mret tt
    end
  else mret tt.

(** The exported files, and the caller's model as the call leaves it. *)
Definition fromJovoModel (model : JovoModelData) (locale : string)
  : result (list NativeFile * JovoModelData) :=
  let run :=
    (_ <- mfold (export_intent locale) (getIntents model) tt ;;
     _ <- export_escape_hatch locale "intents" "userSays" "_usersays_" ;;
     export_escape_hatch locale "entities" "entries" "_entries_") in
  match run {| st_next := 0; st_model := model; st_files := [] |} with
  | Ok (_, s) => Ok (st_files s, st_model s)
  | Throw e => Throw e
  end.

End Exporter.

(** ** Concrete inputs *)

Definition city_entity : IntentEntity :=
  {| ie_type := Some (TName "City"); ie_text := None; ie_dialogflow := None |}.

Definition city_intent : Intent :=
  {| phrases := Some ["{city}"]; entities := Some [("city", city_entity)]; intent_dialogflow := None |}.

(** An entity file and its entries file whose entry has no [synonyms]. *)
Definition entries_without_synonyms : list NativeFile :=
  [ {| path := ["entities"; "City.json"]; content := JObj [("name", JStr "City")] |};
    {| path := ["entities"; "City_entries_en-US.json"];
       content := JArr [JObj [("value", JStr "Berlin")]] |} ].

(** A model whose entity type has a plain string value. *)
Definition model_string_value : JovoModelData :=
  {| model_is_v3 := false; version := Some "4.0"; invocation := Some "";
     intents := Some [("CityIntent", city_intent)];
     entityTypes := Some [("City", {| values := Some [EVStr "Berlin"]; et_dialogflow := None |})];
     model_dialogflow := None |}.

(** A model without any entity-type mapping, legacy or current. *)
Definition model_without_types (v3 : bool) : JovoModelData :=
  {| model_is_v3 := v3; version := if v3 then None else Some "4.0"; invocation := Some "";
     intents := Some [("CityIntent", city_intent)];
     entityTypes := None; model_dialogflow := None |}.

Definition welcome_file : NativeFile :=
  {| path := ["intents"; "Default Welcome Intent.json"];
     content := JObj [("name", JStr "Default Welcome Intent");
                      ("events", JArr [JObj [("name", JStr "WELCOME")]])] |}.

Definition fallback_file : NativeFile :=
  {| path := ["intents"; "Default Fallback Intent.json"];
     content := JObj [("name", JStr "Default Fallback Intent"); ("fallbackIntent", JBool true)] |}.

(** A model whose entity-type value has a synonym with a full stop. *)
Definition model_dotted_synonym : JovoModelData :=
  {| model_is_v3 := false; version := Some "4.0"; invocation := Some "";
     intents := Some [("CityIntent", city_intent)];
     entityTypes := Some [("City", {| values := Some [EVObj (JStr "New York") (Some [JStr "N.Y."])];
                                      et_dialogflow := None |})];
     model_dialogflow := None |}.

(** ** Readings of the claims *)

(** The decomposition of a phrase around its markers with every literal
    segment kept, empty ones included: the literal before each marker, then
    the marker, and the literal after the last one. *)
Fixpoint segments_fuel (fuel : nat) (s : string) : list piece :=
  match fuel with
  | O => []
  | S f =>
      match next_marker s with
      | Some (pre, n, r) => Lit pre :: Mark n :: segments_fuel f r
      | None => [Lit s]
      end
  end.

Definition segments (s : string) : list piece := segments_fuel (S (String.length s)) s.

Definition nonempty_piece (pc : piece) : bool :=
  match pc with Lit t => negb (is_empty_string t) | Mark _ => true end.

(** The segments C6 describes: only an empty literal before the first marker
    is dropped; without markers, the phrase is one literal. *)
Definition claimed_pieces (s : string) : list piece :=
  match next_marker s with
  | None => [Lit s]
  | Some _ => match segments s with
              | Lit EmptyString :: rest => rest
              | l => l
              end
  end.

(** The characters C5 says sanitisation keeps: ASCII letters and digits,
    the apostrophe, and the accented Latin letters of U+00C0 to U+00FF
    (without the signs U+00D7 and U+00F7). *)
Definition claimed_kept (c : ascii) : bool :=
  let n := nat_of_ascii c in
  (Nat.leb 48 n && Nat.leb n 57) || (Nat.leb 65 n && Nat.leb n 90) ||
  (Nat.leb 97 n && Nat.leb n 122) || Nat.eqb n 39 ||
  (Nat.leb 192 n && negb (Nat.eqb n 215) && negb (Nat.eqb n 247)).

(** The characters sanitisation keeps, read off the class. *)
Definition latin1_kept (c : ascii) : bool :=
  let n := nat_of_ascii c in
  (Nat.leb 48 n && Nat.leb n 57) || (Nat.leb 65 n && Nat.leb n 90) ||
  (Nat.leb 97 n && Nat.leb n 122) || Nat.leb 192 n ||
  Nat.eqb n 45 || Nat.eqb n 95 || Nat.eqb n 39 || Nat.eqb n 32.

(** An imported entity-type value: an object whose synonyms are omitted or
    a non-empty list without a member strictly equal to the value. *)
Definition synonyms_ok (v : EntityTypeValue) : Prop :=
  match v with
  | EVObj val None => True
  | EVObj val (Some l) => l <> [] /\ Forall (fun s => strict_eq s val = false) l
  | EVStr _ => False
  end.

Definition entity_types_ok (jm : JovoModelData) : Prop :=
  forall n et, In (n, et) (default [] (entityTypes jm)) -> Forall synonyms_ok (default [] (values et)).

(** The synonyms C5 says an imported value keeps: those of the entry except
    the ones strictly equal to the value, in their order. *)
Fixpoint without_value (v : json) (syns : list json) : list json :=
  match syns with
  | [] => []
  | s :: r => if strict_eq s v then without_value v r else s :: without_value v r
  end.

(** The value C5 says an entry imports as: its synonyms field omitted when
    no synonym remains. *)
Definition imported_value (v : json) (syns : list json) : EntityTypeValue :=
  let rest := without_value v syns in
  EVObj v (match rest with [] => None | _ => Some rest end).

(** The entity declaration the importer derives from a [dataType]. *)
Definition entity_decl (dt : string) : EntityTypeRef :=
  if startsWith dt "@sys." then TObj [("dialogflow", dt)] else TName (substr1 dt).

(** The parameters [(name, dataType)] of all responses, in order, a later
    parameter replacing an earlier one of the same name, those with an empty
    [dataType] skipped. *)
Definition declared_parameters (ps : list (string * string)) : list (string * string) :=
  fold_left (fun acc '(n, dt) => if is_empty_string dt then acc else assoc_set n dt acc) ps [].

Definition param_with (p : json) (nd : string * string) : Prop :=
  exists fs, p = JObj fs /\ assoc "name" fs = Some (JStr (fst nd)) /\
             assoc "dataType" fs = Some (JStr (snd nd)).

Definition response_with (r : json) (ps : list (string * string)) : Prop :=
  exists fs params, r = JObj fs /\ assoc "parameters" fs = Some (JArr params) /\
                    Forall2 param_with params ps.

Definition entity_types_of (es : list (string * IntentEntity)) : list (string * option EntityTypeRef) :=
  map (fun '(k, e) => (k, ie_type e)) es.

(** An intent file with two responses, only the second with a parameter. *)
Definition two_responses_file : NativeFile :=
  {| path := ["intents"; "TwoResponses.json"];
     content := JObj [("name", JStr "TwoResponses");
                      ("responses", JArr [JObj [("parameters", JArr [])];
                                          JObj [("parameters",
                                                 JArr [JObj [("name", JStr "x");
                                                             ("dataType", JStr "@T")]])]])] |}.

(** An entity type whose entries list the value among its synonyms. *)
Definition city_entity_files : list NativeFile :=
  [{| path := ["entities"; "City.json"]; content := JObj [("name", JStr "City")] |};
   {| path := ["entities"; "City_entries_en-US.json"];
      content := JArr [JObj [("value", JStr "NY"); ("synonyms", JArr [JStr "NY"; JStr "New York"])]] |}].

(** The entity the importer records for a parameter of type [dt]. *)
Definition decl_entity (dt : string) : IntentEntity :=
  {| ie_type := Some (entity_decl dt); ie_text := None; ie_dialogflow := None |}.

Definition decls_entities (d : list (string * string)) : list (string * IntentEntity) :=
  map (fun '(n, dt) => (n, decl_entity dt)) d.

(** Structural induction on JSON trees, through arrays and objects. *)
Fixpoint json_ind_deep (P : json -> Prop)
  (fU : P JUndef) (fN : P JNull) (fB : forall b, P (JBool b)) (fZ : forall z, P (JNum z))
  (fS : forall s, P (JStr s))
  (fA : forall xs, Forall P xs -> P (JArr xs))
  (fO : forall fs, Forall (fun kv => P (snd kv)) fs -> P (JObj fs))
  (x : json) {struct x} : P x :=
  match x with
  | JUndef => fU
  | JNull => fN
  | JBool b => fB b
  | JNum z => fZ z
  | JStr s => fS s
  | JArr xs =>
      fA xs ((fix go (xs : list json) : Forall P xs :=
                match xs with
                | [] => Forall_nil P
                | y :: ys => Forall_cons y (json_ind_deep P fU fN fB fZ fS fA fO y) (go ys)
                end) xs)
  | JObj fs =>
      fO fs ((fix go (fs : list (string * json)) : Forall (fun kv => P (snd kv)) fs :=
                match fs with
                | [] => Forall_nil _
                | kv :: r => Forall_cons kv (json_ind_deep P fU fN fB fZ fS fA fO (snd kv)) (go r)
                end) fs)
  end.

(** A JSON tree with the string value of every [id] key blanked: what is
    left of an exported file once the generated identifiers are ignored. *)
Fixpoint erase_ids (x : json) : json :=
  match x with
  | JArr xs => JArr (map erase_ids xs)
  | JObj fs =>
      JObj (map (fun '(k, v) =>
                   (k, if String.eqb k "id"
                       then match v with JStr _ => JStr EmptyString | _ => erase_ids v end
                       else erase_ids v)) fs)
  | _ => x
  end.

Definition erase_field (k : string) (v : json) : json :=
  if String.eqb k "id" then match v with JStr _ => JStr EmptyString | _ => erase_ids v end
  else erase_ids v.

Definition file_rel (f1 f2 : NativeFile) : Prop :=
  path f1 = path f2 /\ erase_ids (content f1) = erase_ids (content f2).

(** Two states of two runs of the exporter that differ only in the
    identifiers written into the files. *)
Definition st_rel (s1 s2 : ExportState) : Prop :=
  st_next s1 = st_next s2 /\ st_model s1 = st_model s2 /\ Forall2 file_rel (st_files s1) (st_files s2).

Definition m_rel {A B : Type} (R : A -> B -> Prop) (m1 : M A) (m2 : M B) : Prop :=
  forall s1 s2, st_rel s1 s2 ->
    match m1 s1, m2 s2 with
    | Ok (a1, s1'), Ok (a2, s2') => R a1 a2 /\ st_rel s1' s2'
    | Throw e1, Throw e2 => e1 = e2
    | _, _ => False
    end.

(** Two JSON trees equal once their identifiers are blanked. *)
Definition same_but_ids (a b : json) : Prop := erase_ids a = erase_ids b.

(** Two outcomes of a fallible computation: both succeed with related
    values, or both fail with the same message. *)
Definition rrel {A B : Type} (R : A -> B -> Prop) (r1 : result A) (r2 : result B) : Prop :=
  match r1, r2 with
  | Ok a1, Ok a2 => R a1 a2
  | Throw e1, Throw e2 => e1 = e2
  | _, _ => False
  end.

(** A model with one intent whose phrase has no marker. *)
Definition hello_intents : list (string * Intent) :=
  [("HelloIntent", {| phrases := Some ["hi"]; entities := None; intent_dialogflow := None |})].

Definition hello_model : JovoModelData :=
  {| model_is_v3 := false; version := Some "4.0"; invocation := Some "";
     intents := Some hello_intents; entityTypes := None; model_dialogflow := None |}.

(** The model the importer starts from, with the given intents. *)
Definition imported_model (l : list (string * Intent)) : JovoModelData :=
  {| model_is_v3 := false; version := Some "4.0"; invocation := Some "";
     intents := Some l; entityTypes := Some []; model_dialogflow := None |}.

(** The fields the importer never touches after creating the model. *)
Definition import_shape (jm : JovoModelData) : Prop :=
  version jm = Some "4.0" /\ invocation jm = Some "" /\
  (exists l, intents jm = Some l) /\ (exists l, entityTypes jm = Some l).

(** ** Definitions for further properties of the code *)

(** The phrase text a piece stands for: a literal as is, a marker with its
    braces. *)
Definition piece_text (pc : piece) : string :=
  match pc with Lit t => t | Mark n => ("{" ++ n ++ "}")%string end.

Definition render_pieces (ps : list piece) : string :=
  fold_right (fun pc acc => (piece_text pc ++ acc)%string) "" ps.

(** Invariants of the exporter: [keeps Q R c] says that a successful run of
    [c] from a state whose model and files satisfy [Q] ends in a state whose
    model and files satisfy [R]. *)
Definition keeps {A : Type} (Q R : JovoModelData -> list NativeFile -> Prop) (c : M A) : Prop :=
  forall s a s', Q (st_model s) (st_files s) -> c s = Ok (a, s') -> R (st_model s') (st_files s').

(** A file two levels deep in one of the directories the importer reads. *)
Definition exported_path (f : NativeFile) : Prop :=
  exists d n, path f = [d; n] /\ (d = "intents" \/ d = "entities").

Definition files_ok (mo : JovoModelData) (fs : list NativeFile) : Prop := Forall exported_path fs.

(** The intents are those of [m0], and every entity type found is one of [m0]. *)
Definition names_kept (m0 mo : JovoModelData) (fs : list NativeFile) : Prop :=
  getIntents mo = getIntents m0 /\
  (forall n, getEntityTypeByName mo n <> None -> getEntityTypeByName m0 n <> None).

(** What an export may change of the caller's model: the entity-type values
    and the escape hatch [dialogflow]; everything else is kept. *)
Definition model_frame (m0 mo : JovoModelData) (fs : list NativeFile) : Prop :=
  model_is_v3 mo = model_is_v3 m0 /\ version mo = version m0 /\ invocation mo = invocation m0 /\
  intents mo = intents m0 /\
  option_map (map fst) (entityTypes mo) = option_map (map fst) (entityTypes m0).

(** The [dataType] the exporter accepts for an intent entity (lines 266-278). *)
Definition entity_type_name (t : option EntityTypeRef) : option string :=
  match t with
  | None => None
  | Some (TName s) => if is_empty_string s then None else Some s
  | Some (TObj fs) =>
      match assoc "dialogflow" fs with
      | Some d => if is_empty_string d then None else Some d
      | None => None
      end
  end.

Definition entity_type_ok (m0 : JovoModelData) (ed : IntentEntity) : Prop :=
  exists n, entity_type_name (ie_type ed) = Some n /\
            (startsWith n "@sys." = true \/ getEntityTypeByName m0 n <> None).

(** A model without intents, entity types or escape hatch. *)
Definition bare_model : JovoModelData :=
  {| model_is_v3 := false; version := Some "4.0"; invocation := Some "";
     intents := None; entityTypes := None; model_dialogflow := None |}.

(** The export of [model_string_value], with identifiers [0], [1], [2]. *)
Definition city_export : list NativeFile * JovoModelData :=
  Eval cbv in match fromJovoModel nat_key model_string_value "en-US" with
              | Ok r => r
              | Throw _ => ([], model_string_value)
              end.

(** An enum entity file and its entries file with a synonym. *)
Definition color_file : NativeFile :=
  {| path := ["entities"; "Color.json"];
     content := JObj [("name", JStr "Color"); ("isEnum", JBool true)] |}.

Definition color_entries_file : NativeFile :=
  {| path := ["entities"; "Color_entries_en-US.json"];
     content := JArr [JObj [("value", JStr "red"); ("synonyms", JArr [JStr "crimson"])]] |}.

(** The model imported from [color_file] into an empty model. *)
Definition color_model : JovoModelData :=
  Eval cbv in match import_entity_file [color_file; color_entries_file] "en-US" (imported_model []) color_file with
              | Ok jm => jm
              | Throw _ => imported_model []
              end.

(** *** Round trips of models with entities *)

(** The type name an intent entity is exported with ([""] if it has none). *)
Definition type_name (ed : IntentEntity) : string := default "" (entity_type_name (ie_type ed)).

Definition is_custom (ed : IntentEntity) : bool := negb (startsWith (type_name ed) "@sys.").

(** The [dataType] of the exported parameter: a custom type gets an [@]. *)
Definition data_type (ed : IntentEntity) : string :=
  if is_custom ed then ("@" ++ type_name ed)%string else type_name ed.

Definition param_json (ek dt : string) : json :=
  JObj [("isList", JBool false); ("name", JStr ek); ("value", JStr ("$" ++ ek)); ("dataType", JStr dt)].

Definition rt_params (es : list (string * IntentEntity)) : list json :=
  map (fun '(ek, ed) => param_json ek (data_type ed)) es.

(** The parameters [(name, dataType)] written for the entities [es]. *)
Definition typed_params (es : list (string * IntentEntity)) : list (string * string) :=
  map (fun '(ek, ed) => (ek, data_type ed)) es.

(** The values of the entity type [n] of [m] (none if it is missing). *)
Definition vals (m : JovoModelData) (n : string) : list EntityTypeValue :=
  match getEntityTypeByName m n with Some et => default [] (values et) | None => [] end.

(** The entry of a value whose value and synonyms sanitisation keeps. *)
Definition entry_json (v : EntityTypeValue) : json :=
  match v with
  | EVStr s => JObj [("value", JStr s)]
  | EVObj val syns => JObj [("value", val); ("synonyms", JArr (val :: default [] syns))]
  end.

Definition entity_file (n e : string) : NativeFile :=
  {| path := ["entities"; (n ++ ".json")%string];
     content := JObj (assoc_set "name" (JStr n) (assoc_set "id" (JStr e) DIALOGFLOW_LM_ENTITY)) |}.

Definition entries_file (locale n : string) (vs : list EntityTypeValue) : NativeFile :=
  {| path := ["entities"; (n ++ "_entries_" ++ locale ++ ".json")%string];
     content := JArr (map entry_json vs) |}.

(** The files of the entity type [n], written with identifier [e]. *)
Definition ent_block (locale : string) (m : JovoModelData) (n e : string) : list NativeFile :=
  entity_file n e :: match vals m n with [] => [] | vs => [entries_file locale n vs] end.

(** The entity files written for the entities [es] of one intent, drawing
    identifiers from the [c]-th on. *)
Fixpoint rt_entity_files (u : nat -> string) (locale : string) (m : JovoModelData) (c : nat)
  (es : list (string * IntentEntity)) : list NativeFile :=
  match es with
  | [] => []
  | (ek, ed) :: es' =>
      if is_custom ed
      then ent_block locale m (type_name ed) (u c) ++ rt_entity_files u locale m (S c) es'
      else rt_entity_files u locale m c es'
  end.

Definition n_custom (es : list (string * IntentEntity)) : nat :=
  length (filter (fun '(_, ed) => is_custom ed) es).

Definition intent_json (id k : string) (es : list (string * IntentEntity)) : json :=
  JObj ([("id", JStr id); ("name", JStr k); ("auto", JBool true); ("webhookUsed", JBool true)] ++
        match es with
        | [] => []
        | _ => [("responses", JArr [JObj [("parameters", JArr (rt_params es))]])]
        end).

(** The text written for the marker of entity [n]. *)
Definition entity_text (es : list (string * IntentEntity)) (n : string) : json :=
  match assoc n es with
  | Some ed => if truthy_opt (ie_text ed) then default JUndef (ie_text ed) else JStr n
  | None => JStr n
  end.

Definition piece_data (es : list (string * IntentEntity)) (pc : piece) : json :=
  match pc with
  | Lit t => lit_json t
  | Mark n =>
      JObj [("text", entity_text es n); ("userDefined", JBool true); ("alias", JStr n);
            ("meta", JStr (match assoc n es with Some ed => data_type ed | None => "" end))]
  end.

Definition usersay_json (locale id : string) (es : list (string * IntentEntity)) (p : string) : json :=
  JObj [("id", JStr id); ("data", JArr (map (piece_data es) (phrase_pieces p)));
        ("isTemplate", JBool false); ("count", JNum 0); ("lang", JStr locale)].

Fixpoint usersays_json (u : nat -> string) (locale : string) (es : list (string * IntentEntity))
  (c : nat) (ps : list string) : list json :=
  match ps with
  | [] => []
  | p :: ps' => usersay_json locale (u c) es p :: usersays_json u locale es (S c) ps'
  end.

(** The intent file and the usersays file of one intent. *)
Definition intent_block (u : nat -> string) (locale : string) (c : nat) (k : string) (i : Intent)
  : list NativeFile :=
  let es := default [] (entities i) in
  let ps := default [] (phrases i) in
  {| path := ["intents"; (k ++ ".json")%string]; content := intent_json (u c) k es |} ::
  match ps with
  | [] => []
  | _ => [{| path := ["intents"; (k ++ "_usersays_" ++ locale ++ ".json")%string];
             content := JArr (usersays_json u locale es (S c + n_custom es) ps) |}]
  end.

(** The identifiers one intent draws. *)
Definition intent_ids (i : Intent) : nat :=
  S (n_custom (default [] (entities i)) + length (default [] (phrases i))).

(** What the exporter writes for the intents [ints], from the [c]-th identifier on. *)
Fixpoint rt_export (u : nat -> string) (locale : string) (m : JovoModelData) (c : nat)
  (ints : list (string * Intent)) : list NativeFile :=
  match ints with
  | [] => []
  | (k, i) :: rest =>
      rt_entity_files u locale m (S c) (default [] (entities i)) ++ intent_block u locale c k i ++
      rt_export u locale m (c + intent_ids i) rest
  end.

Fixpoint rt_intent_blocks (u : nat -> string) (locale : string) (c : nat)
  (ints : list (string * Intent)) : list NativeFile :=
  match ints with
  | [] => []
  | (k, i) :: rest => intent_block u locale c k i ++ rt_intent_blocks u locale (c + intent_ids i) rest
  end.

Fixpoint rt_entity_blocks (u : nat -> string) (locale : string) (m : JovoModelData) (c : nat)
  (ints : list (string * Intent)) : list NativeFile :=
  match ints with
  | [] => []
  | (k, i) :: rest =>
      rt_entity_files u locale m (S c) (default [] (entities i)) ++
      rt_entity_blocks u locale m (c + intent_ids i) rest
  end.

(** The custom entity types the intents refer to, in order, repetitions
    included, and without repetitions in the order of first reference. *)
Definition custom_names (es : list (string * IntentEntity)) : list string :=
  map (fun '(_, ed) => type_name ed) (filter (fun '(_, ed) => is_custom ed) es).

Definition ref_names (ints : list (string * Intent)) : list string :=
  flat_map (fun '(_, i) => custom_names (default [] (entities i))) ints.

Definition dedup (ns : list string) : list string :=
  fold_left (fun acc n => if existsb (String.eqb n) acc then acc else acc ++ [n]) ns [].

(** The model read back: an entity keeps its text and gets the type the
    importer derives from the exported [dataType]; an intent gets the escape
    hatch [{webhookUsed: true}], its empty entity list omitted; the entity
    types are those referenced, with their values. *)
Definition rt_entity (kv : string * IntentEntity) : string * IntentEntity :=
  let (ek, ed) := kv in
  (ek, {| ie_type := Some (entity_decl (data_type ed)); ie_text := ie_text ed; ie_dialogflow := None |}).

Definition rt_intent (kv : string * Intent) : string * Intent :=
  let (k, i) := kv in
  (k, {| phrases := Some (default [] (phrases i));
         entities := match default [] (entities i) with [] => None | es => Some (map rt_entity es) end;
         intent_dialogflow := Some (JObj [("webhookUsed", JBool true)]) |}).

Definition rt_entity_type (m : JovoModelData) (n : string) : EntityType :=
  {| values := Some (vals m n); et_dialogflow := None |}.

Definition rt_model (m : JovoModelData) (ints : list (string * Intent)) : JovoModelData :=
  {| model_is_v3 := false; version := Some "4.0"; invocation := Some "";
     intents := Some (map rt_intent ints);
     entityTypes := Some (map (fun n => (n, rt_entity_type m n)) (dedup (ref_names ints)));
     model_dialogflow := None |}.

(** A value the export writes unchanged: an object with a string value,
    its synonyms omitted or a non-empty list of strings other than the
    value, every one of these strings kept whole by sanitisation. *)
Definition canonical_value (v : EntityTypeValue) : Prop :=
  exists s syns, v = EVObj (JStr s) syns /\ sanitize s = s /\
    match syns with
    | None => True
    | Some l => l <> [] /\ Forall (fun x => exists t, x = JStr t /\ sanitize t = t /\ t <> s) l
    end.

(** A marker names a declared entity, with a non-empty name: the marker of
    an undeclared entity is written without [alias] and read back as its
    bare name, and an empty marker [{}] is read back without its braces. *)
Definition marker_ok (es : list (string * IntentEntity)) (pc : piece) : Prop :=
  match pc with Lit _ => True | Mark n => n <> "" /\ In n (map fst es) end.

(** What the round trip needs of an entity [ek] of an intent with phrases
    [ps]. It has no escape hatch and it has a type, without which the export
    throws. A custom type is declared (the export throws otherwise) and has
    no escape hatch. Its file name does not contain [entries], or the import
    skips the file. Its values are [canonical_value]s: a string value makes
    the import throw (C2); a value or synonym that sanitisation changes, or
    a synonym equal to the value, comes back changed; an empty synonym list
    comes back omitted. A text, if any, is truthy, differs from the entity
    name and is marked in a phrase: the import reads texts only from the
    markers, and not when the text is the name. *)
Definition rt_entity_ok (m : JovoModelData) (ps : list string) (kv : string * IntentEntity) : Prop :=
  let (ek, ed) := kv in
  ie_dialogflow ed = None /\ entity_type_name (ie_type ed) <> None /\
  (is_custom ed = true ->
   exists et, getEntityTypeByName m (type_name ed) = Some et /\ et_dialogflow et = None /\
              contains "entries" (type_name ed ++ ".json") = false /\
              Forall canonical_value (default [] (values et))) /\
  (ie_text ed = None \/
   exists t, ie_text ed = Some t /\ truthy t = true /\ strict_eq t (JStr ek) = false /\
             Exists (fun p => In (Mark ek) (phrase_pieces p)) ps).

(** What the round trip needs of an intent [k]: its file name does not
    contain [usersays] (the import skips such files), it has no escape hatch,
    its entities have distinct names and the conditions above, and its
    markers are [marker_ok]. *)
Definition rt_intent_ok (m : JovoModelData) (kv : string * Intent) : Prop :=
  let (k, i) := kv in
  let es := default [] (entities i) in
  let ps := default [] (phrases i) in
  contains "usersays" (k ++ ".json") = false /\ intent_dialogflow i = None /\
  NoDup (map fst es) /\ Forall (rt_entity_ok m ps) es /\
  Forall (fun p => Forall (marker_ok es) (phrase_pieces p)) ps.

(** A model with a custom-typed and a built-in entity and an entity type
    whose value has a synonym. *)
Definition book_intents : list (string * Intent) :=
  [("BookIntent",
    {| phrases := Some ["book a {city} flight"; "fly to {city} on {date}"];
       entities := Some [("city", {| ie_type := Some (TName "location"); ie_text := Some (JStr "Berlin");
                                     ie_dialogflow := None |});
                         ("date", {| ie_type := Some (TObj [("dialogflow", "@sys.date")]);
                                     ie_text := None; ie_dialogflow := None |})];
       intent_dialogflow := None |})].

Definition book_model : JovoModelData :=
  {| model_is_v3 := false; version := Some "4.0"; invocation := Some "book";
     intents := Some book_intents;
     entityTypes := Some [("location", {| values := Some [EVObj (JStr "Berlin") (Some [JStr "Berlin City"])];
                                          et_dialogflow := None |})];
     model_dialogflow := None |}.

(** The text the importer copies from the markers of entity [ek] onto it. *)
Definition text_back (es : list (string * IntentEntity)) (ek : string) : option json :=
  if strict_eq (entity_text es ek) (JStr ek) then None else Some (entity_text es ek).

(** The entities of an intent while its usersays are read back, [seen]
    telling the entities whose marker has been read. *)
Definition ent_state (es : list (string * IntentEntity)) (seen : string -> bool)
  : list (string * IntentEntity) :=
  map (fun '(ek, ed) =>
         (ek, {| ie_type := Some (entity_decl (data_type ed));
                 ie_text := if seen ek then text_back es ek else None; ie_dialogflow := None |})) es.

Definition ents_opt (es : list (string * IntentEntity)) (seen : string -> bool)
  : option (list (string * IntentEntity)) :=
  match es with [] => None | _ => Some (ent_state es seen) end.

Definition marked (pcs : list piece) (x : string) : bool :=
  existsb (fun pc => match pc with Mark n => String.eqb x n | Lit _ => false end) pcs.

(** * Claims *)

(** C2 (code_bug): the importer raises on an entries file whose entry lacks
    the optional [synonyms] array, among them the exporter's own output for
    a string-valued entity type. *)
Theorem import_entry_without_synonyms_throws :
  toJovoModel entries_without_synonyms "en-US" = Throw "TypeError" /\
  forall uuidv4 : nat -> string,
    match fromJovoModel uuidv4 model_string_value "en-US" with
    | Ok (files, _) => toJovoModel files "en-US" = Throw "TypeError"
    | Throw _ => False
    end.
Proof.
  split.
  - vm_compute. reflexivity.
  - intros uuidv4. vm_compute. reflexivity.
Qed.

(** C3 (code_bug): when the model has no entity-type mapping at all, the
    legacy and the current model get the same message, which names
    [entityTypes]; the legacy terminology is used only when the mapping
    exists but lacks the name. *)
Theorem missing_mapping_message_ignores_version :
  forall uuidv4 : nat -> string,
    fromJovoModel uuidv4 (model_without_types true) "en-US"
      = Throw ("Input type " ++ quoted "City" ++ " must be defined in entityTypes") /\
    fromJovoModel uuidv4 (model_without_types false) "en-US"
      = Throw ("Input type " ++ quoted "City" ++ " must be defined in entityTypes").
Proof.
  intros uuidv4. split; vm_compute; reflexivity.
Qed.

(** C4 (code_bug): a fallback intent read after a welcome intent replaces the
    list [dialogflow.intents]; the welcome intent is lost. *)
Theorem fallback_overwrites_welcome :
  exists m,
    toJovoModel [welcome_file; fallback_file] "en-US" = Ok m /\
    intents m = Some [] /\
    get_under (model_dialogflow m) (K "intents")
      = JArr [JObj [("auto", JUndef); ("fallbackIntent", JBool true);
                    ("name", JStr "Default Fallback Intent")]].
Proof.
  eexists. split; [vm_compute; reflexivity | split; vm_compute; reflexivity].
Qed.

(** C7 (code_bug): exporting sanitises the synonyms of the caller's entity
    type in place: the model after the call holds [NY] where it held [N.Y.]. *)
Theorem export_mutates_entity_type_synonyms :
  forall uuidv4 : nat -> string,
    exists files m',
      fromJovoModel uuidv4 model_dotted_synonym "en-US" = Ok (files, m') /\
      getEntityTypeByName model_dotted_synonym "City"
        = Some {| values := Some [EVObj (JStr "New York") (Some [JStr "N.Y."])]; et_dialogflow := None |} /\
      getEntityTypeByName m' "City"
        = Some {| values := Some [EVObj (JStr "New York") (Some [JStr "NY"])]; et_dialogflow := None |}.
Proof.
  intros uuidv4. do 2 eexists. split; [vm_compute; reflexivity | split; reflexivity].
Qed.

(** ** Lemmas on the importer *)

Lemma fold_throw {A B : Type} (f : B -> A -> result B) (l : list A) (e : string) :
  fold_left (fun acc x => let* b := acc in f b x) l (Throw e) = Throw e.
Proof. induction l; simpl; auto. Qed.

Lemma fold_result_cons {A B : Type} (f : B -> A -> result B) (x : A) (l : list A) (b : B) :
  fold_result f (x :: l) b = match f b x with Ok b' => fold_result f l b' | Throw e => Throw e end.
Proof.
  unfold fold_result. simpl. destruct (f b x); simpl; [reflexivity | apply fold_throw].
Qed.

Lemma fold_result_inv {A B : Type} (P : B -> Prop) (f : B -> A -> result B) :
  (forall b x b', P b -> f b x = Ok b' -> P b') ->
  forall l b b', P b -> fold_result f l b = Ok b' -> P b'.
Proof.
  intros Hstep l. induction l as [|x l IH]; intros b b' Hb H.
  - injection H as <-. exact Hb.
  - rewrite fold_result_cons in H. destruct (f b x) as [b1|e] eqn:E; [|discriminate].
    exact (IH b1 b' (Hstep b x b1 Hb E) H).
Qed.

Ltac inv_ok :=
  repeat match goal with
  | H : Ok _ = Ok _ |- _ => injection H as H; subst
  | H : Throw _ = Ok _ |- _ => discriminate H
  | H : type_error = Ok _ |- _ => discriminate H
  | H : rbind ?r _ = Ok _ |- _ =>
      let E := fresh "E" in destruct r eqn:E; cbn [rbind] in H
  | H : (if ?b then _ else _) = Ok _ |- _ =>
      let E := fresh "E" in destruct b eqn:E
  | H : match ?x with _ => _ end = Ok _ |- _ =>
      let E := fresh "E" in destruct x eqn:E
  end.

Lemma assoc_set_In {A : Type} (k k' : string) (v v' : A) (l : list (string * A)) :
  In (k', v') (assoc_set k v l) -> (k' = k /\ v' = v) \/ In (k', v') l.
Proof.
  induction l as [|[k1 v1] l IH]; simpl.
  - intros [H|[]]. injection H as -> ->. auto.
  - destruct (String.eqb k k1) eqn:E; simpl.
    + intros [H|H]; [injection H as -> ->; auto | auto].
    + intros [H|H]; [auto | destruct (IH H) as [?|?]; auto].
Qed.

Lemma assoc_assoc_set {A : Type} (k : string) (v : A) (l : list (string * A)) :
  assoc k (assoc_set k v l) = Some v.
Proof.
  induction l as [|[k1 v1] l IH]; simpl.
  - rewrite String.eqb_refl. reflexivity.
  - destruct (String.eqb k k1) eqn:E; simpl.
    + rewrite String.eqb_refl. reflexivity.
    + rewrite E. exact IH.
Qed.

Lemma map_assoc_set {A B : Type} (g : A -> B) (k : string) (v : A) (l : list (string * A)) :
  map (fun '(n, a) => (n, g a)) (assoc_set k v l) = assoc_set k (g v) (map (fun '(n, a) => (n, g a)) l).
Proof.
  induction l as [|[k1 v1] l IH]; simpl; [reflexivity|].
  destruct (String.eqb k k1); simpl; [reflexivity | rewrite IH; reflexivity].
Qed.

Lemma import_intent_file_frame intentFiles locale jm f jm' :
  import_intent_file intentFiles locale jm f = Ok jm' ->
  version jm' = version jm /\ invocation jm' = invocation jm /\ entityTypes jm' = entityTypes jm /\
  ((exists l, intents jm = Some l) -> exists l, intents jm' = Some l).
Proof.
  unfold import_intent_file. intros H.
  destruct (nth_error (path f) 1) as [file|]; [|discriminate].
  destruct (contains "usersays" file); [injection H as <-; auto|].
  inv_ok; cbn; repeat split; eauto.
Qed.

Lemma import_entity_file_frame entityFiles locale jm f jm' :
  import_entity_file entityFiles locale jm f = Ok jm' ->
  version jm' = version jm /\ invocation jm' = invocation jm /\ intents jm' = intents jm /\
  ((exists l, entityTypes jm = Some l) -> exists l, entityTypes jm' = Some l).
Proof.
  unfold import_entity_file. intros H.
  destruct (nth_error (path f) 1) as [file|]; [|discriminate].
  destruct (contains "entries" file); [injection H as <-; auto|].
  inv_ok; cbn; repeat split; eauto.
Qed.

Lemma import_entry_ok dfe acc entry acc' :
  Forall synonyms_ok acc -> import_entry dfe acc entry = Ok acc' -> Forall synonyms_ok acc'.
Proof.
  unfold import_entry. intros Hacc H.
  destruct (prop entry "value") as [v|] eqn:E1; [|discriminate]; cbn [rbind] in H.
  destruct (prop dfe "isEnum") as [ie|]; [|discriminate]; cbn [rbind] in H.
  destruct (prop dfe "isRegexp") as [ir|]; [|discriminate]; cbn [rbind] in H.
  destruct (negb (truthy ie) && negb (truthy ir)).
  - destruct (js_iter (get1 entry (PKey "synonyms"))) as [syns|]; [|discriminate]; cbn [rbind] in H.
    injection H as <-. apply Forall_app. split; [exact Hacc|]. constructor; [|constructor].
    destruct (filter (fun s : json => negb (strict_eq s v)) syns) as [|x r] eqn:Et; cbn; [exact I|].
    split; [discriminate|].
    rewrite <- Et. apply Forall_forall. intros y Hy. apply filter_In in Hy.
    destruct Hy as [_ Hy]. destruct (strict_eq y v); [discriminate | reflexivity].
  - injection H as <-. apply Forall_app. split; [exact Hacc|]. repeat constructor.
Qed.


Lemma import_entity_file_ok entityFiles locale jm f jm' :
  entity_types_ok jm -> import_entity_file entityFiles locale jm f = Ok jm' -> entity_types_ok jm'.
Proof.
  unfold import_entity_file. intros Hok H.
  destruct (nth_error (path f) 1) as [file|]; [|discriminate].
  destruct (contains "entries" file); [injection H as <-; exact Hok|].
  destruct (prop (content f) "name") as [nm|]; [|discriminate]; cbn [rbind] in H.
  set (je := skipDefaultEntityProps _ _) in H.
  destruct (match find_file _ _ with Some _ => _ | None => _ end) as [vs|] eqn:Evs;
    [|discriminate]; cbn [rbind] in H.
  assert (Hvs : Forall synonyms_ok vs).
  { destruct (find_file _ _) as [ef|]; [|injection Evs as <-; constructor].
    destruct (js_iter (content ef)) as [es|]; [|discriminate]; cbn [rbind] in Evs.
    refine (fold_result_inv (Forall synonyms_ok) (import_entry (content f)) _ es [] vs _ Evs).
    - intros b x b'. apply import_entry_ok.
    - constructor. }
  destruct (entityTypes jm) as [l|] eqn:El; [|discriminate].
  injection H as <-. intros n et Hin. cbn in Hin.
  destruct (assoc_set_In _ _ _ _ _ Hin) as [[_ ->]|Hin'].
  - exact Hvs.
  - apply (Hok n et). rewrite El. exact Hin'.
Qed.

Lemma toJovoModel_inv (P : JovoModelData -> Prop) files locale m :
  P {| model_is_v3 := false; version := Some "4.0"; invocation := Some "";
       intents := Some []; entityTypes := Some []; model_dialogflow := None |} ->
  (forall intentFiles jm f jm', P jm -> import_intent_file intentFiles locale jm f = Ok jm' -> P jm') ->
  (forall entityFiles jm f jm', P jm -> import_entity_file entityFiles locale jm f = Ok jm' -> P jm') ->
  toJovoModel files locale = Ok m -> P m.
Proof.
  intros H0 Hi He H. unfold toJovoModel in H.
  destruct (fold_result _ _ _) as [jm|] eqn:E; [|discriminate]; cbn [rbind] in H.
  refine (fold_result_inv P _ _ _ jm m _ H); [intros; eapply He; eauto|].
  refine (fold_result_inv P _ _ _ _ jm _ E); [intros; eapply Hi; eauto|exact H0].
Qed.

Lemma in_class_latin1 (c : ascii) : in_class c = latin1_kept c.
Proof. destruct c as [[] [] [] [] [] [] [] []]; reflexivity. Qed.

Lemma sanitize_latin1 (s : string) :
  sanitize s = string_of_list_ascii (filter latin1_kept (list_ascii_of_string s)).
Proof.
  unfold sanitize. f_equal. apply filter_ext. exact in_class_latin1.
Qed.

Lemma map_result_map {A B : Type} (f : A -> result B) (g : A -> B) (l : list A) :
  (forall x, In x l -> f x = Ok (g x)) -> map_result f l = Ok (map g l).
Proof.
  intros Hf. unfold map_result.
  assert (forall acc, fold_result (fun acc x => let* y := f x in Ok (acc ++ [y])) l acc
                      = Ok (acc ++ map g l)) as H.
  { induction l as [|x l IH]; intros acc.
    - rewrite app_nil_r. reflexivity.
    - rewrite fold_result_cons, (Hf x (or_introl eq_refl)). cbn [rbind].
      rewrite IH, <- app_assoc; [reflexivity|].
      intros y Hy. apply Hf. right. exact Hy. }
  apply H.
Qed.

Lemma scan_fuel_segments (f : nat) (s : string) :
  scan_fuel f s = filter nonempty_piece (segments_fuel f s).
Proof.
  revert s. induction f as [|f IH]; intros s; [reflexivity|]. cbn.
  destruct (next_marker s) as [[[pre n] r]|].
  - rewrite IH. destruct (is_empty_string pre) eqn:E; cbn; rewrite ?E; reflexivity.
  - destruct (is_empty_string s) eqn:E; cbn; rewrite ?E; reflexivity.
Qed.

(** C10: whatever the files, an imported model has version ["4.0"], an
    empty invocation and both mappings [intents] and [entityTypes]. *)
Theorem toJovoModel_output_shape :
  forall (files : list NativeFile) (locale : string) (m : JovoModelData),
    toJovoModel files locale = Ok m -> import_shape m.
Proof.
  intros files locale m. apply toJovoModel_inv.
  - repeat split; eexists; reflexivity.
  - intros intentFiles jm f jm' (Hv & Hi & Hn & He) H.
    destruct (import_intent_file_frame _ _ _ _ _ H) as (Hv' & Hi' & He' & Hn').
    repeat split; [congruence | congruence | auto | rewrite He'; exact He].
  - intros entityFiles jm f jm' (Hv & Hi & Hn & He) H.
    destruct (import_entity_file_frame _ _ _ _ _ H) as (Hv' & Hi' & Hn' & He').
    repeat split; [congruence | congruence | rewrite Hn'; exact Hn | auto].
Qed.

Lemma toJovoModel_output_shape_witness :
  exists m, toJovoModel city_entity_files "en-US" = Ok m /\ import_shape m.
Proof.
  eexists. split.
  - vm_compute. reflexivity.
  - apply (toJovoModel_output_shape city_entity_files "en-US"). vm_compute. reflexivity.
Defined.

(** C6, counterexample: in [{a}{b}] the empty literal between the markers
    and the empty one after the last marker are not emitted. *)
Lemma empty_literals_between_markers_dropped :
  phrase_pieces "{a}{b}" = [Mark "a"; Mark "b"] /\
  claimed_pieces "{a}{b}" = [Mark "a"; Lit ""; Mark "b"; Lit ""].
Proof. split; vm_compute; reflexivity. Qed.

(** C6 (amended): a phrase without markers is one literal segment, even when
    empty; otherwise the segments are the literals and markers in order with
    every empty literal left out, wherever it stands. *)
Theorem phrase_pieces_drop_empty_literals :
  forall s : string,
    phrase_pieces s = match next_marker s with
                      | None => [Lit s]
                      | Some _ => filter nonempty_piece (segments s)
                      end.
Proof.
  intros s. unfold phrase_pieces, scan_markers, segments.
  rewrite scan_fuel_segments. cbn [segments_fuel].
  destruct (next_marker s) as [[[pre n] r]|].
  - cbn. destruct (is_empty_string pre); reflexivity.
  - cbn. destruct (is_empty_string s); reflexivity.
Qed.

Lemma filter_without_value (v : json) (syns : list json) :
  filter (fun s => negb (strict_eq s v)) syns = without_value v syns.
Proof.
  induction syns as [|x syns IH]; [reflexivity|]. cbn [filter without_value].
  destruct (strict_eq x v); cbn [negb]; rewrite IH; reflexivity.
Qed.

Lemma import_entries_values dfe isEnum isRegexp :
  prop dfe "isEnum" = Ok isEnum -> prop dfe "isRegexp" = Ok isRegexp ->
  truthy isEnum = false -> truthy isRegexp = false ->
  forall entries vsyns,
  Forall2 (fun e vs => prop e "value" = Ok (fst vs) /\ get1 e (PKey "synonyms") = JArr (snd vs))
    entries vsyns ->
  forall acc, fold_result (import_entry dfe) entries acc =
              Ok (acc ++ map (fun vs => imported_value (fst vs) (snd vs)) vsyns).
Proof.
  intros He Hr Hte Htr. induction 1 as [|e [v syns] entries vsyns [Hv Hs] _ IH]; intros acc.
  - cbn. rewrite app_nil_r. reflexivity.
  - rewrite fold_result_cons. unfold import_entry at 1. cbn [fst snd] in Hv, Hs.
    rewrite Hv. cbn [rbind]. rewrite He, Hr. cbn [rbind]. rewrite Hte, Htr. cbn [negb andb].
    rewrite Hs. cbn [js_iter rbind]. rewrite filter_without_value, IH, <- app_assoc. reflexivity.
Qed.

(** C5, counterexample: sanitisation keeps the space (and the hyphen and the
    underscore), which the claim says it strips. *)
Lemma sanitize_keeps_space :
  sanitize "New York" = "New York" /\
  string_of_list_ascii (filter claimed_kept (list_ascii_of_string "New York")) = "NewYork".
Proof. split; vm_compute; reflexivity. Qed.

(** C5 (amended): an imported entity-type value never lists itself among its
    synonyms, which are omitted when none remain. More precisely, importing
    an entity file of a type that is neither an enum nor a regexp gives, for
    each entry of its entries file, the value of the entry with the entry's
    synonyms except those strictly equal to the value ([imported_value]).
    Exporting a value of such a type seeds its synonyms with the sanitised
    value followed by the sanitised synonyms. On the code units U+0000 to
    U+00FF, sanitisation keeps exactly the ASCII letters and digits, the
    hyphen, the underscore, the apostrophe, the space and the code units
    U+00C0 to U+00FF, and removes all others. *)
Theorem synonyms_import_export :
  (forall files locale m, toJovoModel files locale = Ok m -> entity_types_ok m) /\
  (forall files locale jm l f file n isEnum isRegexp ef entries vsyns,
     nth_error (path f) 1 = Some file -> contains "entries" file = false ->
     prop (content f) "name" = Ok (JStr n) ->
     prop (content f) "isEnum" = Ok isEnum -> prop (content f) "isRegexp" = Ok isRegexp ->
     truthy isEnum = false -> truthy isRegexp = false ->
     find_file files (n ++ "_entries_" ++ locale ++ ".json") = Some ef ->
     content ef = JArr entries ->
     Forall2 (fun e vs => prop e "value" = Ok (fst vs) /\ get1 e (PKey "synonyms") = JArr (snd vs))
       entries vsyns ->
     entityTypes jm = Some l ->
     exists je, import_entity_file files locale jm f = Ok (with_entityTypes jm (assoc_set n je l)) /\
                values je = Some (map (fun vs => imported_value (fst vs) (snd vs)) vsyns)) /\
  (forall isEnum isRegexp s l, truthy isEnum = false -> truthy isRegexp = false ->
     export_value isEnum isRegexp (EVObj (JStr s) (Some (map JStr l)))
       = Ok (JObj [("value", JStr s); ("synonyms", JArr (map JStr (map sanitize (s :: l))))],
             EVObj (JStr s) (Some (map JStr (map sanitize l)))) /\
     export_value isEnum isRegexp (EVObj (JStr s) None)
       = Ok (JObj [("value", JStr s); ("synonyms", JArr [JStr (sanitize s)])],
             EVObj (JStr s) None)) /\
  (forall s, sanitize s = string_of_list_ascii (filter latin1_kept (list_ascii_of_string s))).
Proof.
  split; [|split; [|split]].
  - intros files locale m. apply toJovoModel_inv.
    + intros n et [].
    + intros intentFiles jm f jm' Hok H n et Hin.
      destruct (import_intent_file_frame _ _ _ _ _ H) as (_ & _ & He & _).
      apply (Hok n et). rewrite <- He. exact Hin.
    + intros entityFiles jm f jm'. apply import_entity_file_ok.
  - intros files locale jm l f file n isEnum isRegexp ef entries vsyns
      Hp Hc Hn He Hr Hte Htr Hf Hef Hes Hl.
    unfold import_entity_file. rewrite Hp, Hc. cbv zeta. rewrite Hn. cbn [rbind js_to_string].
    rewrite Hf, Hef. cbn [rbind js_iter].
    rewrite (import_entries_values _ _ _ He Hr Hte Htr _ _ Hes []). cbn [rbind app]. rewrite Hl.
    eexists. split; reflexivity.
  - intros isEnum isRegexp s l He Hr. unfold export_value. rewrite He, Hr. cbn.
    split; [|reflexivity].
    rewrite (map_result_map _ (fun x => match x with JStr t => JStr (sanitize t) | _ => x end));
      [|intros x Hx; apply in_map_iff in Hx; destruct Hx as (t & <- & _); reflexivity].
    cbn. rewrite !map_map. reflexivity.
  - exact sanitize_latin1.
Qed.

Lemma synonyms_import_export_witness :
  (exists m, toJovoModel city_entity_files "en-US" = Ok m /\ entity_types_ok m) /\
  (exists je, import_entity_file city_entity_files "en-US" (imported_model []) {| path := ["entities"; "City.json"]; content := JObj [("name", JStr "City")] |}
                = Ok (with_entityTypes (imported_model []) [("City", je)]) /\
              values je = Some [EVObj (JStr "NY") (Some [JStr "New York"])]) /\
  (truthy (JBool false) = false /\ truthy JUndef = false /\
   export_value (JBool false) JUndef (EVObj (JStr "NY") (Some (map JStr ["N.Y."])))
     = Ok (JObj [("value", JStr "NY"); ("synonyms", JArr (map JStr (map sanitize ["NY"; "N.Y."])))],
           EVObj (JStr "NY") (Some (map JStr (map sanitize ["N.Y."]))))).
Proof.
  destruct synonyms_import_export as (H1 & H3 & H2 & _). split; [|split].
  - eexists. split; [vm_compute; reflexivity|].
    apply (H1 city_entity_files "en-US"). vm_compute. reflexivity.
  - destruct (H3 city_entity_files "en-US" (imported_model []) [] {| path := ["entities"; "City.json"]; content := JObj [("name", JStr "City")] |}
                "City.json" "City" JUndef JUndef
                {| path := ["entities"; "City_entries_en-US.json"];
                   content := JArr [JObj [("value", JStr "NY"); ("synonyms", JArr [JStr "NY"; JStr "New York"])]] |}
                [JObj [("value", JStr "NY"); ("synonyms", JArr [JStr "NY"; JStr "New York"])]]
                [(JStr "NY", [JStr "NY"; JStr "New York"])])
      as (je & Hje & Hv); try reflexivity.
    + repeat constructor.
    + exists je. split; [exact Hje|]. rewrite Hv. reflexivity.
  - split; [reflexivity | split; [reflexivity|]].
    apply (H2 (JBool false) JUndef "NY" ["N.Y."]); reflexivity.
Defined.

Lemma import_parameters_decls (params : list json) (ps : list (string * string)) :
  Forall2 param_with params ps ->
  forall d, fold_result import_parameter params (decls_entities d)
            = Ok (decls_entities
                    (fold_left (fun acc '(n, dt) => if is_empty_string dt then acc
                                                   else assoc_set n dt acc) ps d)).
Proof.
  induction 1 as [|p [n dt] params ps (fs & -> & Hn & Hdt) _ IH]; intros d; [reflexivity|].
  rewrite fold_result_cons. cbn [fold_left].
  assert (Hstep : import_parameter (decls_entities d) (JObj fs)
                  = Ok (decls_entities (if is_empty_string dt then d else assoc_set n dt d))).
  { unfold import_parameter, prop, get1. cbn in Hn, Hdt. rewrite Hdt. cbn [default truthy rbind].
    destruct (is_empty_string dt) eqn:E; cbn [negb]; [reflexivity|].
    rewrite Hn. cbn [default js_to_string]. unfold decls_entities.
    rewrite map_assoc_set. reflexivity. }
  rewrite Hstep. apply IH.
Qed.

Lemma import_entities_decls (fs : list (string * json)) (rs : list json) pss :
  assoc "responses" fs = Some (JArr rs) -> Forall2 response_with rs pss ->
  import_entities (JObj fs) = Ok (decls_entities (declared_parameters (concat pss))).
Proof.
  intros Hr Hrs. unfold import_entities, declared_parameters. cbn. rewrite Hr. cbn. clear Hr.
  change (@nil (string * IntentEntity)) with (decls_entities []).
  generalize (@nil (string * string)) as d.
  induction Hrs as [|r ps rs pss (rfs & params & -> & Hp & Hps) _ IH]; intros d; [reflexivity|].
  rewrite fold_result_cons. unfold get_or, get_path. cbn. rewrite Hp. cbn.
  rewrite (import_parameters_decls params ps Hps). cbn [concat]. rewrite fold_left_app. apply IH.
Qed.

Lemma backfill_text_types al tx es :
  entity_types_of (backfill_text al tx es) = entity_types_of es.
Proof.
  unfold entity_types_of, backfill_text. rewrite map_map. apply map_ext.
  intros [k e]. destruct (strict_eq (JStr k) al); reflexivity.
Qed.

Lemma import_usersay_types ji us ji' :
  import_usersay ji us = Ok ji' ->
  option_map entity_types_of (entities ji') = option_map entity_types_of (entities ji).
Proof.
  unfold import_usersay. intros H.
  destruct (prop us "data") as [d|]; [|discriminate]; cbn [rbind] in H.
  destruct (js_iter d) as [ds|]; [|discriminate]; cbn [rbind] in H.
  destruct (fold_result _ ds _) as [[phrase ents]|] eqn:E; [|discriminate]; cbn [rbind] in H.
  injection H as <-. cbn.
  refine (fold_result_inv
            (fun st => option_map entity_types_of (snd st) = option_map entity_types_of (entities ji))
            _ _ ds (EmptyString, entities ji) (phrase, ents) eq_refl E).
  intros [ph es] data [ph' es'] Hes Hstep.
  destruct (prop data "alias") as [al|]; [|discriminate]; cbn [rbind] in Hstep.
  injection Hstep as _ <-. cbn in *.
  destruct (negb _); [|exact Hes].
  destruct es as [es|]; cbn in *; [rewrite backfill_text_types|]; exact Hes.
Qed.

Lemma entity_types_of_decls (ds : list (string * string)) :
  entity_types_of (decls_entities ds) = map (fun '(n, dt) => (n, Some (entity_decl dt))) ds.
Proof.
  unfold entity_types_of, decls_entities. rewrite map_map. apply map_ext.
  intros [n dt]. reflexivity.
Qed.

(** C8, counterexample: the parameter of the second response of an intent
    becomes an entity declaration, while the first response has none. *)
Lemma later_response_parameters_declared :
  exists m,
    toJovoModel [two_responses_file] "en-US" = Ok m /\
    option_map entities (assoc "TwoResponses" (default [] (intents m)))
      = Some (Some [("x", {| ie_type := Some (TName "T"); ie_text := None; ie_dialogflow := None |})]).
Proof. eexists. split; vm_compute; reflexivity. Qed.

(** C8 (amended): for an ordinary intent file (neither fallback nor welcome)
    whose responses carry parameter lists, the imported intent declares one
    entity per parameter name over ALL responses in order (a later parameter
    of the same name wins, an empty [dataType] is skipped); a [dataType]
    starting with [@sys.] gives [{dialogflow: dataType}], any other one the
    bare name without its first character; with no parameter, [entities] is
    left out. *)
Theorem import_intent_entities_all_responses :
  forall intentFiles locale jm f jm' file fs name rs pss,
    nth_error (path f) 1 = Some file -> contains "usersays" file = false ->
    content f = JObj fs -> assoc "name" fs = Some (JStr name) ->
    strict_eq (get1 (content f) (PKey "fallbackIntent")) (JBool true) = false ->
    strict_eq (get_path (content f) [PKey "events"; PIdx 0; PKey "name"]) (JStr "WELCOME") = false ->
    assoc "responses" fs = Some (JArr rs) -> Forall2 response_with rs pss ->
    import_intent_file intentFiles locale jm f = Ok jm' ->
    exists ji,
      assoc name (default [] (intents jm')) = Some ji /\
      option_map entity_types_of (entities ji) =
        match declared_parameters (concat pss) with
        | [] => None
        | ds => Some (map (fun '(n, dt) => (n, Some (entity_decl dt))) ds)
        end.
Proof.
  intros intentFiles locale jm f jm' file fs name rs pss Hf Hu Hc Hn Hfb Hw Hr Hrs H.
  unfold import_intent_file in H. rewrite Hf, Hu in H.
  destruct (skipDefaultIntentProps empty_intent (content f) locale) as [ji0|]; [|discriminate].
  cbn [rbind] in H. rewrite Hc in H, Hfb, Hw. cbn [prop rbind] in H.
  rewrite Hfb, Hw in H. rewrite (import_entities_decls fs rs pss Hr Hrs) in H. cbn [rbind] in H.
  replace (js_to_string (get1 (JObj fs) (PKey "name"))) with name in H
    by (cbn; rewrite Hn; reflexivity).
  set (ji1 := {| phrases := _; entities := _; intent_dialogflow := _ |}) in H.
  destruct (match find_file _ _ with Some _ => _ | None => _ end) as [ji|] eqn:Eji;
    [|discriminate]; cbn [rbind] in H.
  destruct (intents jm) as [l|]; [|discriminate]. injection H as <-.
  exists ji. split; [cbn; apply assoc_assoc_set|].
  assert (Hji : option_map entity_types_of (entities ji) = option_map entity_types_of (entities ji1)).
  { destruct (find_file _ _) as [usf|]; [|injection Eji as <-; reflexivity].
    destruct (js_iter (content usf)) as [uss|]; [|discriminate]; cbn [rbind] in Eji.
    refine (fold_result_inv
              (fun ji' => option_map entity_types_of (entities ji') = option_map entity_types_of (entities ji1))
              _ _ uss ji1 ji eq_refl Eji).
    intros b x b' Hb Hx. rewrite (import_usersay_types _ _ _ Hx). exact Hb. }
  rewrite Hji. subst ji1. cbn [entities].
  destruct (declared_parameters (concat pss)) as [|d ds]; [reflexivity|].
  cbn [option_map]. rewrite <- entity_types_of_decls. reflexivity.
Qed.

Lemma import_intent_entities_all_responses_witness :
  exists jm' ji,
    import_intent_file [two_responses_file] "en-US"
      {| model_is_v3 := false; version := Some "4.0"; invocation := Some "";
         intents := Some []; entityTypes := Some []; model_dialogflow := None |}
      two_responses_file = Ok jm' /\
    assoc "TwoResponses" (default [] (intents jm')) = Some ji /\
    option_map entity_types_of (entities ji) = Some [("x", Some (TName "T"))].
Proof.
  eexists. 
  assert (Hrs : Forall2 response_with
                  [JObj [("parameters", JArr [])];
                   JObj [("parameters", JArr [JObj [("name", JStr "x"); ("dataType", JStr "@T")]])]]
                  [[]; [("x", "@T")]]).
  { constructor; [|constructor; [|constructor]].
    - exists [("parameters", JArr [])], []. repeat split. constructor.
    - eexists _, _. split; [reflexivity | split; [reflexivity|]].
      constructor; [|constructor]. eexists. split; [reflexivity | split; reflexivity]. }
  assert (Himp : import_intent_file [two_responses_file] "en-US"
      {| model_is_v3 := false; version := Some "4.0"; invocation := Some "";
         intents := Some []; entityTypes := Some []; model_dialogflow := None |}
      two_responses_file = Ok _) by (vm_compute; reflexivity).
  destruct (import_intent_entities_all_responses _ _ _ two_responses_file _ "TwoResponses.json" _
              "TwoResponses" _ _ eq_refl eq_refl eq_refl eq_refl eq_refl eq_refl eq_refl Hrs Himp)
    as (ji & Hji & Hty).
  exists ji. split; [exact Himp|]. split; [exact Hji|]. rewrite Hty. vm_compute. reflexivity.
Defined.

(** ** Lemmas on identifiers in exported files *)

Lemma erase_obj (fs : list (string * json)) :
  erase_ids (JObj fs) = JObj (map (fun '(k, v) => (k, erase_field k v)) fs).
Proof. reflexivity. Qed.

Lemma assoc_map_field {B : Type} (g : string -> json -> B) (k : string) (l : list (string * json)) :
  assoc k (map (fun '(k', v) => (k', g k' v)) l) = option_map (g k) (assoc k l).
Proof.
  induction l as [|[k1 v1] l IH]; [reflexivity|]. cbn.
  destruct (String.eqb k k1) eqn:E; [apply String.eqb_eq in E; subst; reflexivity | exact IH].
Qed.

Lemma map_field_assoc_set {B : Type} (g : string -> json -> B) (k : string) (v : json)
  (l : list (string * json)) :
  map (fun '(k', w) => (k', g k' w)) (assoc_set k v l)
  = assoc_set k (g k v) (map (fun '(k', w) => (k', g k' w)) l).
Proof.
  induction l as [|[k1 v1] l IH]; [reflexivity|]. cbn.
  destruct (String.eqb k k1) eqn:E; cbn; [reflexivity | rewrite IH; reflexivity].
Qed.

Lemma erase_field_of (k : string) (w1 w2 : json) :
  erase_ids w1 = erase_ids w2 -> erase_field k w1 = erase_field k w2.
Proof.
  intros H. unfold erase_field. destruct (String.eqb k "id"); [|exact H].
  destruct w1, w2; cbn in H; try discriminate; try reflexivity; exact H.
Qed.

Lemma erase_list_set (i : nat) (w : json) (ds : list json) :
  map erase_ids (list_set i w ds) = list_set i (erase_ids w) (map erase_ids ds).
Proof.
  revert ds. induction i as [|i IH]; intros [|d ds]; cbn; try reflexivity;
    rewrite IH; reflexivity.
Qed.

Lemma erase_sel_field (k : string) (o1 o2 : option json) :
  option_map (erase_field k) o1 = option_map (erase_field k) o2 ->
  erase_ids (match o1 with Some (JArr a) => JArr a | _ => JArr [] end)
  = erase_ids (match o2 with Some (JArr a) => JArr a | _ => JArr [] end) /\
  erase_ids (match o1 with Some (JObj o) => JObj o | Some (JArr a) => JArr a | _ => JObj [] end)
  = erase_ids (match o2 with Some (JObj o) => JObj o | Some (JArr a) => JArr a | _ => JObj [] end).
Proof.
  intros H. destruct o1 as [w1|], o2 as [w2|]; cbn in H; try discriminate; [|split; reflexivity].
  injection H as H. unfold erase_field in H.
  destruct (String.eqb k "id");
    destruct w1, w2; cbn in H |- *; try discriminate; split; try reflexivity; congruence.
Qed.

Lemma erase_sel_idx (o1 o2 : option json) :
  option_map erase_ids o1 = option_map erase_ids o2 ->
  erase_ids (match o1 with Some (JArr a) => JArr a | _ => JArr [] end)
  = erase_ids (match o2 with Some (JArr a) => JArr a | _ => JArr [] end) /\
  erase_ids (match o1 with Some (JObj o) => JObj o | Some (JArr a) => JArr a | _ => JObj [] end)
  = erase_ids (match o2 with Some (JObj o) => JObj o | Some (JArr a) => JArr a | _ => JObj [] end).
Proof.
  intros H. destruct o1 as [w1|], o2 as [w2|]; cbn in H; try discriminate; [|split; reflexivity].
  injection H as H.
  destruct w1, w2; cbn in H |- *; try discriminate; split; try reflexivity; congruence.
Qed.

Lemma merge_erase (d : json) :
  forall x y, erase_ids x = erase_ids y -> erase_ids (merge_into x d) = erase_ids (merge_into y d).
Proof.
  induction d as [| | | | | ss IHs | ss IHs] using json_ind_deep; intros x y H;
    try exact H.
  - destruct x, y; cbn in H; try discriminate; try exact H.
    injection H as H. cbn [merge_into erase_ids]. f_equal.
    generalize 0. match goal with H : map _ ?a = map _ ?b |- _ => revert a b H end.
    induction IHs as [|v ss Hv Hss IH]; intros xs ys H i; [exact H|].
    cbn. apply IH.
    assert (Ho : option_map erase_ids (nth_error xs i) = option_map erase_ids (nth_error ys i))
      by (rewrite <- !nth_error_map, H; reflexivity).
    destruct (erase_sel_idx _ _ Ho) as [Ha Hb].
    destruct v; rewrite ?erase_list_set, ?H; try reflexivity.
    + destruct (nth_error xs i), (nth_error ys i); cbn in Ho; try discriminate; 
        rewrite ?erase_list_set, ?H; reflexivity.
    + rewrite (Hv _ _ Ha). reflexivity.
    + rewrite (Hv _ _ Hb). reflexivity.
  - destruct x as [| | | | | |xs], y as [| | | | | |ys]; cbn in H; try discriminate; try exact H.
    change (erase_ids (JObj xs) = erase_ids (JObj ys)) in H. rewrite !erase_obj in H.
    injection H as H. cbn [merge_into]. rewrite !erase_obj. f_equal.
    match goal with H : map _ ?a = map _ ?b |- _ => revert a b H end.
    induction IHs as [|[k v] ss Hv Hss IH]; intros xs ys H; [exact H|].
    cbn. apply IH. cbn in Hv.
    assert (Ho : option_map (erase_field k) (assoc k xs) = option_map (erase_field k) (assoc k ys))
      by (rewrite <- !(assoc_map_field erase_field), H; reflexivity).
    destruct (erase_sel_field _ _ _ Ho) as [Ha Hb].
    destruct v; rewrite ?map_field_assoc_set, ?H; try reflexivity.
    + destruct (assoc k xs), (assoc k ys); cbn in Ho; try discriminate;
        rewrite ?map_field_assoc_set, ?H; reflexivity.
    + rewrite (erase_field_of k _ _ (Hv _ _ Ha)). reflexivity.
    + rewrite (erase_field_of k _ _ (Hv _ _ Hb)). reflexivity.
Qed.

Lemma truthy_erase (x : json) : truthy (erase_ids x) = truthy x.
Proof. destruct x; reflexivity. Qed.

Lemma strict_eq_erase (a b : json) (s : string) :
  erase_ids a = erase_ids b -> strict_eq a (JStr s) = strict_eq b (JStr s).
Proof. intros H. destruct a, b; cbn in H; try discriminate; try congruence; reflexivity. Qed.

Lemma erase_field_neq (k : string) (v : json) : k <> "id" -> erase_field k v = erase_ids v.
Proof. intros Hk. unfold erase_field. apply String.eqb_neq in Hk. rewrite Hk. reflexivity. Qed.

Lemma get1_key_erase (x y : json) (k : string) :
  k <> "id" -> erase_ids x = erase_ids y -> erase_ids (get1 x (PKey k)) = erase_ids (get1 y (PKey k)).
Proof.
  intros Hk H.
  destruct x as [| | | | |xs|fs], y as [| | | | |ys|gs]; try (cbn in H; discriminate);
    try reflexivity; try (cbn in H; injection H as H; subst; reflexivity).
  - cbn in H. injection H as H. cbn.
    destruct (String.eqb k "length"); [|reflexivity].
    rewrite <- (length_map erase_ids xs), H, length_map. reflexivity.
  - rewrite !erase_obj in H. injection H as H. cbn.
    assert (Ho : option_map (erase_field k) (assoc k fs) = option_map (erase_field k) (assoc k gs))
      by (rewrite <- !(assoc_map_field erase_field), H; reflexivity).
    destruct (assoc k fs), (assoc k gs); cbn in Ho |- *; try discriminate; [|reflexivity].
    injection Ho as Ho. rewrite !erase_field_neq in Ho by exact Hk. exact Ho.
Qed.

Lemma get1_idx0_erase (x y : json) :
  erase_ids x = erase_ids y -> erase_ids (get1 x (PIdx 0)) = erase_ids (get1 y (PIdx 0)).
Proof.
  intros H.
  destruct x as [| | | | |xs|fs], y as [| | | | |ys|gs]; try (cbn in H; discriminate);
    try reflexivity; try (cbn in H; injection H as H; subst; reflexivity).
  - cbn in H. injection H as H. cbn.
    rewrite <- !(map_nth erase_ids), H. reflexivity.
  - apply (get1_key_erase (JObj fs) (JObj gs) "0"); [discriminate | exact H].
Qed.

Lemma get_path_R0_erase (x y : json) (k : string) :
  k <> "id" -> erase_ids x = erase_ids y -> erase_ids (get_path x (R0 k)) = erase_ids (get_path y (R0 k)).
Proof.
  intros Hk H. unfold R0, get_path. cbn [fold_left].
  apply get1_key_erase; [exact Hk|]. apply get1_idx0_erase.
  apply get1_key_erase; [discriminate | exact H].
Qed.

Lemma map_erase_Forall2 (l1 l2 : list json) :
  map erase_ids l1 = map erase_ids l2 -> Forall2 same_but_ids l1 l2.
Proof.
  revert l2. induction l1 as [|a l1 IH]; intros [|b l2] H; try discriminate; constructor;
    injection H as H1 H2; [exact H1 | exact (IH _ H2)].
Qed.

Lemma Forall2_map_erase (l1 l2 : list json) :
  Forall2 same_but_ids l1 l2 -> map erase_ids l1 = map erase_ids l2.
Proof. induction 1; cbn; congruence. Qed.

Lemma rrel_bind {A B C D : Type} (RA : A -> B -> Prop) (RB : C -> D -> Prop) r1 r2 f1 f2 :
  rrel RA r1 r2 -> (forall a1 a2, RA a1 a2 -> rrel RB (f1 a1) (f2 a2)) ->
  rrel RB (rbind r1 f1) (rbind r2 f2).
Proof. destruct r1, r2; cbn; intros H Hf; try contradiction; auto. Qed.

Lemma rrel_fold {A1 A2 B1 B2 : Type} (RX : A1 -> A2 -> Prop) (RB : B1 -> B2 -> Prop)
  (f1 : B1 -> A1 -> result B1) (f2 : B2 -> A2 -> result B2) :
  (forall b1 b2 x1 x2, RB b1 b2 -> RX x1 x2 -> rrel RB (f1 b1 x1) (f2 b2 x2)) ->
  forall l1 l2, Forall2 RX l1 l2 ->
  forall b1 b2, RB b1 b2 -> rrel RB (fold_result f1 l1 b1) (fold_result f2 l2 b2).
Proof.
  intros Hf l1 l2 Hl. induction Hl as [|x1 x2 l1 l2 Hx _ IH]; intros b1 b2 Hb; [exact Hb|].
  rewrite !fold_result_cons. specialize (Hf b1 b2 x1 x2 Hb Hx).
  destruct (f1 b1 x1), (f2 b2 x2); cbn in Hf |- *; try contradiction; auto.
Qed.

Lemma rrel_map_result {A1 A2 B1 B2 : Type} (RX : A1 -> A2 -> Prop) (RY : B1 -> B2 -> Prop)
  (f1 : A1 -> result B1) (f2 : A2 -> result B2) l1 l2 :
  Forall2 RX l1 l2 -> (forall x1 x2, RX x1 x2 -> rrel RY (f1 x1) (f2 x2)) ->
  rrel (Forall2 RY) (map_result f1 l1) (map_result f2 l2).
Proof.
  intros Hl Hf. unfold map_result. apply (rrel_fold RX); [|exact Hl|constructor].
  intros b1 b2 x1 x2 Hb Hx. apply (rrel_bind RY); [exact (Hf _ _ Hx)|].
  intros a1 a2 Ha. cbn. apply Forall2_app; [exact Hb | constructor; [exact Ha | constructor]].
Qed.

Lemma prop_rel (x1 x2 : json) (k : string) :
  k <> "id" -> same_but_ids x1 x2 -> rrel same_but_ids (prop x1 k) (prop x2 k).
Proof.
  intros Hk H. unfold same_but_ids in H.
  destruct x1, x2; cbn in H; try discriminate; try reflexivity;
    cbn [prop rrel]; apply get1_key_erase; assumption.
Qed.

Lemma entity_piece_rel (m : JovoModelData) (ik : string) (obj1 obj2 : json) (name : string) :
  same_but_ids obj1 obj2 -> rrel same_but_ids (entity_piece m ik obj1 name) (entity_piece m ik obj2 name).
Proof.
  intros H. unfold entity_piece.
  pose proof (get_path_R0_erase obj1 obj2 "parameters" ltac:(discriminate) H) as Hp.
  apply (rrel_bind (fun a1 a2 => match a1, a2 with
                                 | None, None => True
                                 | Some (x1, y1), Some (x2, y2) => same_but_ids x1 x2 /\ same_but_ids y1 y2
                                 | _, _ => False
                                 end)).
  - rewrite <- (truthy_erase (get_path obj1 (R0 "parameters"))), Hp, truthy_erase.
    destruct (truthy (get_path obj2 (R0 "parameters"))); [|exact I].
    destruct (get_path obj1 (R0 "parameters")) as [| | | | |it1|],
             (get_path obj2 (R0 "parameters")) as [| | | | |it2|];
      cbn in Hp; try discriminate; try reflexivity.
    injection Hp as Hp. apply (rrel_fold same_but_ids); [|exact (map_erase_Forall2 _ _ Hp)|exact I].
    intros b1 b2 x1 x2 Hb Hx. apply (rrel_bind same_but_ids); [apply prop_rel; [discriminate|exact Hx]|].
    intros nm1 nm2 Hnm. rewrite (strict_eq_erase nm1 nm2 name Hnm).
    destruct (strict_eq nm2 (JStr name)); cbn; [|exact Hb].
    split; [exact Hnm | apply get1_key_erase; [discriminate | exact Hx]].
  - intros a1 a2 Ha. cbn. unfold same_but_ids. rewrite !erase_obj.
    destruct a1 as [[x1 y1]|], a2 as [[x2 y2]|]; try contradiction; [|reflexivity].
    destruct Ha as [Hx Hy]. unfold same_but_ids in Hx, Hy. cbn.
    rewrite ?(erase_field_neq "alias"), ?(erase_field_neq "meta") by discriminate.
    rewrite Hx, Hy. reflexivity.
Qed.

Lemma m_rel_ret {A B : Type} (R : A -> B -> Prop) a1 a2 : R a1 a2 -> m_rel R (mret a1) (mret a2).
Proof. intros H s1 s2 Hs. cbn. auto. Qed.

Lemma m_rel_bind {A1 A2 B1 B2 : Type} (RA : A1 -> A2 -> Prop) (RB : B1 -> B2 -> Prop)
  (m1 : M A1) (m2 : M A2) (f1 : A1 -> M B1) (f2 : A2 -> M B2) :
  m_rel RA m1 m2 -> (forall a1 a2, RA a1 a2 -> m_rel RB (f1 a1) (f2 a2)) ->
  m_rel RB (mbind m1 f1) (mbind m2 f2).
Proof.
  intros Hm Hf s1 s2 Hs. unfold mbind. specialize (Hm s1 s2 Hs).
  destruct (m1 s1) as [[a1 s1']|], (m2 s2) as [[a2 s2']|]; try contradiction; [|exact Hm].
  destruct Hm as [Ha Hs']. exact (Hf a1 a2 Ha s1' s2' Hs').
Qed.

Lemma m_rel_throw {A B : Type} (R : A -> B -> Prop) e : m_rel R (mthrow e) (mthrow e).
Proof. intros s1 s2 _. reflexivity. Qed.

Lemma m_rel_lift {A B : Type} (R : A -> B -> Prop) r1 r2 : rrel R r1 r2 -> m_rel R (lift r1) (lift r2).
Proof. intros H s1 s2 Hs. destruct r1, r2; cbn in *; auto; contradiction. Qed.

Lemma m_rel_get_model : m_rel eq get_model get_model.
Proof. intros s1 s2 Hs. cbn. split; [apply Hs | exact Hs]. Qed.

Lemma m_rel_put_model m : m_rel eq (put_model m) (put_model m).
Proof. intros s1 s2 (Hn & Hm & Hf). cbn. repeat split; auto. Qed.

Lemma m_rel_push f1 f2 : file_rel f1 f2 -> m_rel eq (push_file f1) (push_file f2).
Proof.
  intros Hf s1 s2 (Hn & Hm & Hfs). cbn. repeat split; auto.
  apply Forall2_app; [exact Hfs | constructor; [exact Hf | constructor]].
Qed.

Lemma m_rel_uuid u1 u2 : m_rel (fun _ _ => True) (uuid u1) (uuid u2).
Proof. intros s1 s2 (Hn & Hm & Hf). cbn. repeat split; cbn; auto. Qed.

Lemma m_rel_mfold {A B1 B2 : Type} (RB : B1 -> B2 -> Prop) (f1 : B1 -> A -> M B1) (f2 : B2 -> A -> M B2) :
  (forall b1 b2 x, RB b1 b2 -> m_rel RB (f1 b1 x) (f2 b2 x)) ->
  forall l b1 b2, RB b1 b2 -> m_rel RB (mfold f1 l b1) (mfold f2 l b2).
Proof.
  intros Hf l. induction l as [|x l IH]; intros b1 b2 Hb; cbn.
  - apply m_rel_ret. exact Hb.
  - apply (m_rel_bind RB); [apply Hf; exact Hb | exact IH].
Qed.

Lemma file_rel_refl f : file_rel f f.
Proof. split; reflexivity. Qed.

Lemma rrel_eq_refl {A : Type} (r : result A) : rrel eq r r.
Proof. destruct r; reflexivity. Qed.

Lemma map_result_ext {A B : Type} (f g : A -> result B) (l : list A) :
  (forall x, f x = g x) -> map_result f l = map_result g l.
Proof.
  intros H. unfold map_result, fold_result. generalize (@Ok (list B) []).
  induction l as [|x l IH]; intros r; [reflexivity|]. cbn.
  rewrite H.
  apply IH.
Qed.

Lemma export_value_truthy (a1 a2 b1 b2 : json) (v : EntityTypeValue) :
  truthy a1 = truthy a2 -> truthy b1 = truthy b2 -> export_value a1 b1 v = export_value a2 b2 v.
Proof. intros Ha Hb. unfold export_value. rewrite Ha, Hb. reflexivity. Qed.

Lemma truthy_key_erase (x y : json) (k : string) :
  k <> "id" -> same_but_ids x y -> truthy (get1 x (PKey k)) = truthy (get1 y (PKey k)).
Proof.
  intros Hk H. rewrite <- (truthy_erase (get1 x _)), (get1_key_erase x y k Hk H), truthy_erase.
  reflexivity.
Qed.

Lemma entity_obj_erase (n e1 e2 : string) (l : list (string * json)) :
  same_but_ids (JObj (assoc_set "name" (JStr n) (assoc_set "id" (JStr e1) l)))
               (JObj (assoc_set "name" (JStr n) (assoc_set "id" (JStr e2) l))).
Proof. unfold same_but_ids. rewrite !erase_obj, !map_field_assoc_set. reflexivity. Qed.

Lemma export_entity_rel u1 u2 locale ik acc kv :
  m_rel eq (export_entity u1 locale ik acc kv) (export_entity u2 locale ik acc kv).
Proof.
  destruct kv as [ek ed]. unfold export_entity.
  apply (m_rel_bind eq).
  { destruct (ie_type ed) as [[s|fs]|];
      [destruct (is_empty_string s) | destruct (assoc "dialogflow" fs) as [d|]; [destruct (is_empty_string d)|] |];
      first [apply m_rel_throw | apply m_rel_ret; reflexivity]. }
  intros dt _ <-.
  apply (m_rel_bind eq); [| intros dt' _ <-; apply m_rel_ret; reflexivity].
  destruct (startsWith dt "@sys."); [apply m_rel_ret; reflexivity|].
  apply (m_rel_bind eq); [apply m_rel_get_model|]. intros m _ <-.
  destruct (negb (hasEntityTypes m)); [apply m_rel_throw|].
  destruct (getEntityTypeByName m dt) as [et|]; [|destruct (isJovoModelV3 m); apply m_rel_throw].
  apply (m_rel_bind (fun _ _ => True)); [apply m_rel_uuid|]. intros e1 e2 _.
  cbv zeta.
  match goal with
  | |- m_rel _ (mbind (push_file {| path := _; content := ?o1 |}) _)
               (mbind (push_file {| path := _; content := ?o2 |}) _) =>
      set (obj1 := o1); set (obj2 := o2); assert (Ho : same_but_ids obj1 obj2)
  end.
  { subst obj1 obj2. destruct (et_dialogflow et) as [d|]; [|apply entity_obj_erase].
    destruct (truthy d); [|apply entity_obj_erase].
    destruct d; try apply entity_obj_erase; apply merge_erase, entity_obj_erase. }
  apply (m_rel_bind eq); [apply m_rel_push; split; [reflexivity | exact Ho]|]. intros _ _ _.
  apply (m_rel_bind eq); [|intros _ _ _; apply m_rel_ret; reflexivity].
  destruct (values et) as [[|v vs]|]; try (apply m_rel_ret; reflexivity).
  rewrite (map_result_ext (export_value (get1 obj1 (PKey "isEnum")) (get1 obj1 (PKey "isRegexp")))
                          (export_value (get1 obj2 (PKey "isEnum")) (get1 obj2 (PKey "isRegexp"))))
    by (intros; apply export_value_truthy; apply truthy_key_erase; (discriminate || exact Ho)).
  apply (m_rel_bind eq); [apply m_rel_lift, rrel_eq_refl|]. intros r _ <-.
  apply (m_rel_bind eq); [apply m_rel_get_model|]. intros m' _ <-.
  apply (m_rel_bind eq); [apply m_rel_put_model|]. intros _ _ _.
  apply m_rel_push, file_rel_refl.
Qed.

Lemma Forall2_eq_refl {A : Type} (l : list A) : Forall2 eq l l.
Proof. induction l; constructor; auto. Qed.

Lemma export_phrase_rel u1 u2 locale ik obj1 obj2 acc1 acc2 ph :
  same_but_ids obj1 obj2 -> Forall2 same_but_ids acc1 acc2 ->
  m_rel (Forall2 same_but_ids) (export_phrase u1 locale ik obj1 acc1 ph)
                                (export_phrase u2 locale ik obj2 acc2 ph).
Proof.
  intros Ho Hacc. unfold export_phrase.
  apply (m_rel_bind eq); [apply m_rel_get_model|]. intros m _ <-.
  apply (m_rel_bind (Forall2 same_but_ids)).
  { apply m_rel_lift. apply (rrel_map_result eq); [apply Forall2_eq_refl|].
    intros x1 x2 <-. destruct x1 as [t|n]; [reflexivity | apply entity_piece_rel; exact Ho]. }
  intros d1 d2 Hd. apply (m_rel_bind (fun _ _ => True)); [apply m_rel_uuid|]. intros i1 i2 _.
  apply m_rel_ret. apply Forall2_app; [exact Hacc|]. constructor; [|constructor].
  unfold same_but_ids. rewrite !erase_obj. cbn. rewrite (Forall2_map_erase _ _ Hd). reflexivity.
Qed.

Lemma export_intent_rel u1 u2 locale kv :
  m_rel eq (export_intent u1 locale tt kv) (export_intent u2 locale tt kv).
Proof.
  destruct kv as [ik idata]. unfold export_intent.
  apply (m_rel_bind (fun _ _ => True)); [apply m_rel_uuid|]. intros i1 i2 _.
  apply (m_rel_bind eq); [apply m_rel_get_model|]. intros m _ <-.
  apply (m_rel_bind eq).
  { destruct (hasEntities m ik); [|apply m_rel_ret; reflexivity].
    apply (m_rel_bind eq); [apply (m_rel_mfold eq); [intros b1 b2 x <-; apply export_entity_rel | reflexivity]|].
    intros ps _ <-. apply m_rel_ret. reflexivity. }
  intros params _ <-. cbv zeta.
  match goal with
  | |- m_rel _ (mbind (push_file {| path := _; content := ?o1 |}) _)
               (mbind (push_file {| path := _; content := ?o2 |}) _) =>
      set (obj1 := o1); set (obj2 := o2); assert (Ho : same_but_ids obj1 obj2)
  end.
  { subst obj1 obj2. destruct (truthy_opt (intent_dialogflow idata)); [apply merge_erase|];
      unfold same_but_ids; rewrite !erase_obj; reflexivity. }
  apply (m_rel_bind eq); [apply m_rel_push; split; [reflexivity | exact Ho]|]. intros _ _ _.
  apply (m_rel_bind (Forall2 same_but_ids)).
  { apply (m_rel_mfold (Forall2 same_but_ids)); [|constructor].
    intros b1 b2 x Hb. apply export_phrase_rel; assumption. }
  intros r1 r2 Hr. destruct Hr as [|a1 a2 l1 l2 Ha Hl]; [apply m_rel_ret; reflexivity|].
  apply m_rel_push. split; [reflexivity|]. unfold same_but_ids. cbn.
  unfold same_but_ids in Ha. rewrite Ha, (Forall2_map_erase _ _ Hl). reflexivity.
Qed.

Lemma export_df_record_rel locale dir sub infix acc rec :
  m_rel eq (export_df_record locale dir sub infix acc rec) (export_df_record locale dir sub infix acc rec).
Proof.
  unfold export_df_record.
  apply (m_rel_bind eq); [apply m_rel_lift, rrel_eq_refl|]. intros sv _ <-.
  apply (m_rel_bind eq).
  { destruct (truthy sv); [|apply m_rel_ret; reflexivity].
    apply (m_rel_bind eq); [apply m_rel_push, file_rel_refl|]. intros _ _ _.
    apply m_rel_ret. reflexivity. }
  intros r _ <-. apply (m_rel_bind eq); [apply m_rel_push, file_rel_refl|]. intros _ _ _.
  apply m_rel_ret. reflexivity.
Qed.

Lemma export_escape_hatch_rel locale key sub infix :
  m_rel eq (export_escape_hatch locale key sub infix) (export_escape_hatch locale key sub infix).
Proof.
  unfold export_escape_hatch.
  apply (m_rel_bind eq); [apply m_rel_get_model|]. intros m _ <-. cbv zeta.
  destruct (truthy (get_under (model_dialogflow m) (K key))); [|apply m_rel_ret; reflexivity].
  apply (m_rel_bind eq); [apply m_rel_lift, rrel_eq_refl|]. intros items _ <-.
  apply (m_rel_bind eq).
  { apply (m_rel_mfold eq); [|reflexivity]. intros b1 b2 x <-. apply export_df_record_rel. }
  intros items' _ <-.
  destruct (get_under (model_dialogflow m) (K key)); try (apply m_rel_ret; reflexivity).
  apply (m_rel_bind eq); [apply m_rel_get_model|]. intros m' _ <-. apply m_rel_put_model.
Qed.

(** C9, counterexample: two runs of the exporter on the same model and
    locale draw different identifiers and produce different file sets. *)
Lemma export_ids_differ :
  exists files1 files2 m1 m2,
    fromJovoModel (fun _ => "a") model_dotted_synonym "en-US" = Ok (files1, m1) /\
    fromJovoModel (fun _ => "b") model_dotted_synonym "en-US" = Ok (files2, m2) /\
    files1 <> files2.
Proof.
  do 4 eexists. split; [vm_compute; reflexivity|]. split; [vm_compute; reflexivity|].
  discriminate.
Qed.

(** C9 (amended): the exporter depends on its input and on the identifiers
    it draws, nothing else: two runs on the same model and locale, whatever
    identifiers they draw, both fail with the same message, or both succeed
    with the same model left behind and file lists of the same length, the
    same paths and contents equal once the string values of [id] keys are
    blanked. *)
Theorem export_deterministic_up_to_ids :
  forall (u1 u2 : nat -> string) (model : JovoModelData) (locale : string),
    match fromJovoModel u1 model locale, fromJovoModel u2 model locale with
    | Ok (files1, m1), Ok (files2, m2) => Forall2 file_rel files1 files2 /\ m1 = m2
    | Throw e1, Throw e2 => e1 = e2
    | _, _ => False
    end.
Proof.
  intros u1 u2 model locale. unfold fromJovoModel. cbv zeta.
  set (s0 := {| st_next := 0; st_model := model; st_files := [] |}).
  assert (Hrun : m_rel eq
    (_ <- mfold (export_intent u1 locale) (getIntents model) tt ;;
     _ <- export_escape_hatch locale "intents" "userSays" "_usersays_" ;;
     export_escape_hatch locale "entities" "entries" "_entries_")
    (_ <- mfold (export_intent u2 locale) (getIntents model) tt ;;
     _ <- export_escape_hatch locale "intents" "userSays" "_usersays_" ;;
     export_escape_hatch locale "entities" "entries" "_entries_")).
  { apply (m_rel_bind eq); [apply (m_rel_mfold eq); [intros b1 b2 x <-; destruct b1; apply export_intent_rel | reflexivity]|].
    intros _ _ _. apply (m_rel_bind eq); [apply export_escape_hatch_rel|]. intros _ _ _.
    apply export_escape_hatch_rel. }
  specialize (Hrun s0 s0 (conj eq_refl (conj eq_refl (Forall2_nil _)))).
  destruct (mbind (mfold (export_intent u1 locale) (getIntents model) tt) _ s0) as [[? s1]|e1],
           (mbind (mfold (export_intent u2 locale) (getIntents model) tt) _ s0) as [[? s2]|e2];
    try contradiction; [|exact Hrun].
  destruct Hrun as [_ (_ & Hm & Hf)]. split; [exact Hf | exact Hm].
Qed.

(** ** Lemmas on round trips of models *)

Lemma str_app_assoc (a b c : string) : ((a ++ b) ++ c)%string = (a ++ (b ++ c))%string.
Proof. induction a as [|x a IH]; cbn; [reflexivity|rewrite IH; reflexivity]. Qed.

Lemma str_app_length (a b : string) : String.length (a ++ b) = String.length a + String.length b.
Proof. induction a as [|x a IH]; cbn; [reflexivity|rewrite IH; reflexivity]. Qed.

Lemma str_app_cancel_r (a b t : string) : (a ++ t)%string = (b ++ t)%string -> a = b.
Proof.
  revert b. induction a as [|x a IH]; intros [|y b] H; cbn in H.
  - reflexivity.
  - apply (f_equal String.length) in H. cbn in H. rewrite str_app_length in H. lia.
  - apply (f_equal String.length) in H. cbn in H. rewrite str_app_length in H. lia.
  - injection H as -> H. rewrite (IH b H). reflexivity.
Qed.

Lemma prefix_app (p b : string) : String.prefix p (p ++ b) = true.
Proof.
  induction p as [|x p IH]; cbn; [destruct b; reflexivity|].
  destruct (Ascii.ascii_dec x x) as [_|n]; [exact IH|contradiction].
Qed.

Lemma contains_app (pat a s : string) : contains pat s = true -> contains pat (a ++ s) = true.
Proof.
  induction a as [|x a IH]; intros H; [exact H|].
  cbn. rewrite (IH H). apply Bool.orb_true_r.
Qed.

Lemma contains_prefix (pat b : string) : contains pat (pat ++ b) = true.
Proof.
  assert (E : forall s, contains pat s = (String.prefix pat s || match s with
              | EmptyString => false | String _ s' => contains pat s' end)%bool)
    by (intros []; reflexivity).
  rewrite E, prefix_app. reflexivity.
Qed.

Lemma usersays_name_contains (k locale : string) :
  contains "usersays" (k ++ "_usersays_" ++ locale ++ ".json") = true.
Proof.
  replace (k ++ "_usersays_" ++ locale ++ ".json")%string
    with ((k ++ "_") ++ ("usersays" ++ ("_" ++ locale ++ ".json")))%string
    by (rewrite str_app_assoc; reflexivity).
  apply contains_app. apply contains_prefix.
Qed.

Lemma find_file_app (fs1 fs2 : list NativeFile) (name : string) :
  find_file (fs1 ++ fs2) name =
  match find_file fs1 name with Some f => Some f | None => find_file fs2 name end.
Proof.
  unfold find_file. induction fs1 as [|f fs1 IH]; cbn [app find]; [reflexivity|].
  destruct (match nth_error (path f) 1 with Some n => String.eqb n name | None => false end);
    [reflexivity|exact IH].
Qed.

Lemma import_usersays_file_skipped files locale jm k c :
  import_intent_file files locale jm
    {| path := ["intents"; (k ++ "_usersays_" ++ locale ++ ".json")%string]; content := c |} = Ok jm.
Proof.
  unfold import_intent_file. cbn [nth_error path]. rewrite usersays_name_contains. reflexivity.
Qed.

Lemma fold_result_app {A B : Type} (f : B -> A -> result B) (l1 l2 : list A) (b : B) :
  fold_result f (l1 ++ l2) b = rbind (fold_result f l1 b) (fun b' => fold_result f l2 b').
Proof.
  unfold fold_result. rewrite fold_left_app.
  destruct (fold_left (fun acc x => let* b := acc in f b x) l1 (Ok b)) as [b'|e]; cbn [rbind];
    [reflexivity|apply fold_throw].
Qed.

Lemma assoc_set_fresh {A : Type} (k : string) (v : A) (l : list (string * A)) :
  ~ In k (map fst l) -> assoc_set k v l = l ++ [(k, v)].
Proof.
  induction l as [|[k' v'] l IH]; intros Hk; [reflexivity|].
  cbn. destruct (String.eqb_spec k k') as [->|_].
  - exfalso. apply Hk. left. reflexivity.
  - rewrite IH; [reflexivity|]. intros H. apply Hk. right. exact H.
Qed.

Lemma with_intents_twice jm a b : with_intents (with_intents jm a) b = with_intents jm b.
Proof. destruct jm; reflexivity. Qed.

Lemma str_app_nil_r (s : string) : (s ++ "")%string = s.
Proof. induction s as [|c s IH]; cbn; [reflexivity|rewrite IH; reflexivity]. Qed.

Lemma take_name_split (s n r : string) :
  take_name s = Some (n, r) -> s = (n ++ "}" ++ r)%string.
Proof.
  revert n r. induction s as [|c s IH]; intros n r H; [discriminate|].
  cbn [take_name] in H.
  destruct (c =? "}")%char eqn:Ec.
  - apply Ascii.eqb_eq in Ec. subst c. injection H as <- <-. reflexivity.
  - destruct (is_line_terminator c); [discriminate|].
    destruct (take_name s) as [[n' r']|] eqn:E; [|discriminate].
    injection H as <- <-. rewrite (IH n' r' eq_refl). reflexivity.
Qed.

Lemma next_marker_split (s pre n r : string) :
  next_marker s = Some (pre, n, r) -> s = (pre ++ "{" ++ n ++ "}" ++ r)%string.
Proof.
  revert pre n r. induction s as [|c s IH]; intros pre n r H; [discriminate|].
  cbn [next_marker] in H.
  destruct (c =? "{")%char eqn:Ec.
  - apply Ascii.eqb_eq in Ec. subst c.
    destruct (take_name s) as [[n' r']|] eqn:Et.
    + injection H as <- <- <-. rewrite (take_name_split _ _ _ Et). reflexivity.
    + destruct (next_marker s) as [[[p' n'] r']|] eqn:E; [|discriminate].
      injection H as <- <- <-. rewrite (IH p' n' r' eq_refl). reflexivity.
  - destruct (next_marker s) as [[[p' n'] r']|] eqn:E; [|discriminate].
    injection H as <- <- <-. rewrite (IH p' n' r' eq_refl). reflexivity.
Qed.

Lemma render_filter_nonempty (ps : list piece) :
  render_pieces (filter nonempty_piece ps) = render_pieces ps.
Proof.
  induction ps as [|[t|n] ps IH]; [reflexivity| |]; cbn [filter nonempty_piece].
  - destruct t; cbn; unfold render_pieces in *; rewrite IH; reflexivity.
  - cbn. unfold render_pieces in *. rewrite IH. reflexivity.
Qed.

Lemma render_segments_fuel (f : nat) (s : string) :
  String.length s < f -> render_pieces (segments_fuel f s) = s.
Proof.
  revert s. induction f as [|f IH]; intros s Hf; [lia|]. cbn [segments_fuel].
  destruct (next_marker s) as [[[pre n] r]|] eqn:E.
  - pose proof (next_marker_split _ _ _ _ E) as Hs.
    cbn [render_pieces fold_right piece_text]. unfold render_pieces in IH. rewrite IH.
    + rewrite Hs. rewrite !str_app_assoc. reflexivity.
    + rewrite Hs in Hf. rewrite !str_app_length in Hf. cbn [String.length] in Hf. lia.
  - cbn. apply str_app_nil_r.
Qed.

Lemma NoDup_assoc {A : Type} (k : string) (v : A) (l : list (string * A)) :
  NoDup (map fst l) -> In (k, v) l -> assoc k l = Some v.
Proof.
  induction l as [|[k1 v1] l IH]; intros Hnd Hin; [destruct Hin|]. cbn.
  inversion Hnd as [|? ? Hni Hnd']; subst.
  destruct Hin as [H|H].
  - injection H as -> ->. rewrite String.eqb_refl. reflexivity.
  - destruct (String.eqb_spec k k1) as [->|_].
    + exfalso. apply Hni. apply (in_map fst) in H. exact H.
    + exact (IH Hnd' H).
Qed.

Lemma phrase_pieces_render (s : string) : render_pieces (phrase_pieces s) = s.
Proof.
  unfold phrase_pieces, scan_markers.
  destruct (scan_fuel (S (String.length s)) s) eqn:E.
  - cbn. apply str_app_nil_r.
  - rewrite <- E, scan_fuel_segments, render_filter_nonempty. apply render_segments_fuel. lia.
Qed.

(** *** The export of a model with entities *)

Lemma assoc_set_same {A : Type} (k : string) (v : A) (l : list (string * A)) :
  assoc k l = Some v -> assoc_set k v l = l.
Proof.
  induction l as [|[k1 v1] l IH]; cbn; [discriminate|].
  destruct (String.eqb_spec k k1) as [->|_]; [intros [= ->]; reflexivity|].
  intros H. rewrite (IH H). reflexivity.
Qed.

Lemma setEntityTypeValues_same m n et vs :
  getEntityTypeByName m n = Some et -> values et = Some vs -> setEntityTypeValues m n vs = m.
Proof.
  unfold getEntityTypeByName, setEntityTypeValues. destruct (entityTypes m) as [l|] eqn:El; [|discriminate].
  intros Ha Hv. rewrite Ha.
  replace {| values := Some vs; et_dialogflow := et_dialogflow et |} with et
    by (destruct et; cbn in *; subst; reflexivity).
  rewrite (assoc_set_same n et l Ha). destruct m; cbn in *; subst; reflexivity.
Qed.

Lemma export_value_canonical v :
  canonical_value v -> export_value (JBool false) (JBool false) v = Ok (entry_json v, v).
Proof.
  intros (s & syns & -> & Hs & Hsyn). cbn [export_value truthy negb andb].
  destruct syns as [l|].
  - destruct Hsyn as [_ Hl].
    rewrite (map_result_map _ (fun x => x) l).
    + rewrite map_id, Hs. reflexivity.
    + intros x Hx. rewrite Forall_forall in Hl. destruct (Hl x Hx) as (t & -> & Ht & _).
      rewrite Ht. reflexivity.
  - rewrite Hs. reflexivity.
Qed.

Lemma type_cases ed :
  entity_type_name (ie_type ed) <> None ->
  (ie_type ed = Some (TName (type_name ed)) /\ is_empty_string (type_name ed) = false) \/
  (exists fs, ie_type ed = Some (TObj fs) /\ assoc "dialogflow" fs = Some (type_name ed) /\
              is_empty_string (type_name ed) = false).
Proof.
  unfold type_name. destruct (ie_type ed) as [[s|fs]|]; cbn; intros H.
  - destruct (is_empty_string s) eqn:E; [contradiction|]. left. auto.
  - destruct (assoc "dialogflow" fs) as [d|] eqn:Ed; [|contradiction].
    destruct (is_empty_string d) eqn:E; [contradiction|]. right. exists fs. auto.
  - contradiction.
Qed.

Lemma get1_entity_obj n e k :
  get1 (JObj (assoc_set "name" (JStr n) (assoc_set "id" (JStr e) DIALOGFLOW_LM_ENTITY))) (PKey k) =
  get1 (JObj [("isOverridable", JBool true); ("isEnum", JBool false); ("automatedExpansion", JBool false);
              ("isRegexp", JBool false); ("allowFuzzyExtraction", JBool false);
              ("id", JStr e); ("name", JStr n)]) (PKey k).
Proof. reflexivity. Qed.

Lemma export_entity_rt u locale k acc ek ed c m fs ps :
  rt_entity_ok m ps (ek, ed) ->
  export_entity u locale k acc (ek, ed) {| st_next := c; st_model := m; st_files := fs |} =
  Ok (acc ++ [param_json ek (data_type ed)],
      {| st_next := if is_custom ed then S c else c; st_model := m;
         st_files := fs ++ if is_custom ed then ent_block locale m (type_name ed) (u c) else [] |}).
Proof.
  intros (Hdf & Hty & Hcu & _).
  assert (Hfirst : forall (B : Type) (g : string -> M B) s,
    mbind (match ie_type ed with
           | None => mthrow ("Invalid entity type in intent " ++ quoted k)
           | Some (TName s) =>
               if is_empty_string s then mthrow ("Invalid entity type in intent " ++ quoted k)
               else mret s
           | Some (TObj fs) =>
               match assoc "dialogflow" fs with
               | Some d => if is_empty_string d
                           then mthrow ("Please add a dialogflow property for entity " ++ quoted ek)
                           else mret d
               | None => mthrow ("Please add a dialogflow property for entity " ++ quoted ek)
               end
           end) g s = g (type_name ed) s).
  { intros B g s. destruct (type_cases ed Hty) as [[-> ->]|(fs' & -> & -> & ->)]; reflexivity. }
  unfold export_entity. rewrite Hfirst. clear Hfirst.
  unfold data_type, is_custom in *. set (n := type_name ed) in *.
  destruct (startsWith n "@sys.") eqn:Hsys; cbn [negb] in *.
  - unfold mbind, mret. rewrite Hdf. cbn. rewrite app_nil_r. reflexivity.
  - destruct (Hcu eq_refl) as (et & Het & Hetdf & _ & Hcan).
    assert (Hh : hasEntityTypes m = true).
    { unfold hasEntityTypes. unfold getEntityTypeByName in Het. destruct (entityTypes m); [reflexivity|discriminate]. }
    cbv beta delta [mbind get_model mret uuid push_file put_model lift] iota.
    cbn [st_model st_next st_files]. rewrite Hh, Het. cbn [negb]. rewrite Hetdf.
    unfold ent_block, vals. rewrite Het.
    destruct (values et) as [[|v vs]|] eqn:Hv; cbn [default].
    + rewrite Hdf. cbn. reflexivity.
    + rewrite !get1_entity_obj. cbn [get1 assoc String.eqb Ascii.eqb Bool.eqb default].
      rewrite (map_result_map _ (fun v => (entry_json v, v)) (v :: vs)).
      2: { intros x Hx. apply export_value_canonical. cbn in Hcan. rewrite Forall_forall in Hcan. auto. }
      cbn [st_next st_model st_files].
      rewrite map_map, map_map. cbn [snd fst]. rewrite map_id.
      rewrite (setEntityTypeValues_same m n et (v :: vs) Het Hv). rewrite Hdf. cbn.
      rewrite <- !app_assoc. reflexivity.
    + rewrite Hdf. cbn. reflexivity.
Qed.

Lemma export_entities_rt u locale k m ps es : forall acc c fs,
  Forall (rt_entity_ok m ps) es ->
  mfold (export_entity u locale k) es acc {| st_next := c; st_model := m; st_files := fs |} =
  Ok (acc ++ rt_params es,
      {| st_next := c + n_custom es; st_model := m; st_files := fs ++ rt_entity_files u locale m c es |}).
Proof.
  induction es as [|[ek ed] es IH]; intros acc c fs Hes.
  - cbn. rewrite !app_nil_r, <- plus_n_O. reflexivity.
  - inversion Hes as [|? ? Hok Hes']; subst. cbn [mfold]. unfold mbind at 1.
    rewrite (export_entity_rt u locale k acc ek ed c m fs ps Hok). rewrite IH by exact Hes'.
    unfold rt_params, n_custom. cbn [map rt_entity_files filter length].
    destruct (is_custom ed); cbn [length]; rewrite <- !app_assoc; f_equal; f_equal; f_equal; lia || reflexivity.
Qed.

Lemma fold_text_assoc es n : NoDup (map fst es) -> forall t0,
  fold_left (fun t '(ek, ed) => if String.eqb ek n && truthy_opt (ie_text ed)
                               then default JUndef (ie_text ed) else t) es t0 =
  match assoc n es with
  | Some ed => if truthy_opt (ie_text ed) then default JUndef (ie_text ed) else t0
  | None => t0
  end.
Proof.
  induction es as [|[ek ed] es IH]; intros Hnd t0; [reflexivity|].
  inversion Hnd as [|? ? Hni Hnd']; subst. cbn [fold_left assoc].
  rewrite IH by exact Hnd'. rewrite String.eqb_sym.
  destruct (String.eqb_spec n ek) as [->|_]; cbn [andb].
  - assert (assoc ek es = None) as ->.
    { clear -Hni. induction es as [|[k1 v1] es IH]; [reflexivity|]. cbn.
      destruct (String.eqb_spec ek k1) as [->|_]; [exfalso; apply Hni; left; reflexivity|].
      apply IH. intros H; apply Hni; right; exact H. }
    reflexivity.
  - destruct (assoc n es); reflexivity.
Qed.

Lemma fold_params_assoc es n : NoDup (map fst es) -> forall am0,
  fold_result (fun am item =>
                 let* nm := prop item "name" in
                 if strict_eq nm (JStr n)
                 then Ok (Some (nm, get1 item (PKey "dataType"))) else Ok am) (rt_params es) am0 =
  Ok (match assoc n es with Some ed => Some (JStr n, JStr (data_type ed)) | None => am0 end).
Proof.
  induction es as [|[ek ed] es IH]; intros Hnd am0; [reflexivity|].
  inversion Hnd as [|? ? Hni Hnd']; subst. unfold rt_params. cbn [map]. rewrite fold_result_cons.
  cbv beta.
  change (prop (param_json ek (data_type ed)) "name") with (Ok (JStr ek) : result json).
  change (get1 (param_json ek (data_type ed)) (PKey "dataType")) with (JStr (data_type ed)).
  cbn [rbind strict_eq].
  change (map _ es) with (rt_params es).
  rewrite String.eqb_sym. cbn [assoc].
  destruct (String.eqb_spec n ek) as [->|_].
  - rewrite IH by exact Hnd'.
    assert (assoc ek es = None) as ->.
    { clear -Hni. induction es as [|[k1 v1] es IH]; [reflexivity|]. cbn.
      destruct (String.eqb_spec ek k1) as [->|_]; [exfalso; apply Hni; left; reflexivity|].
      apply IH. intros H; apply Hni; right; exact H. }
    reflexivity.
  - apply IH. exact Hnd'.
Qed.

Lemma assoc_None_notin {A : Type} (n : string) (l : list (string * A)) :
  assoc n l = None -> ~ In n (map fst l).
Proof.
  induction l as [|[k1 v1] l IH]; cbn; [auto|].
  destruct (String.eqb_spec n k1) as [->|N]; [discriminate|].
  intros Ha [H|H]; [exact (N (eq_sym H))|exact (IH Ha H)].
Qed.

Lemma entity_piece_rt m k id es n :
  getEntities m k = es -> NoDup (map fst es) -> In n (map fst es) ->
  entity_piece m k (intent_json id k es) n = Ok (piece_data es (Mark n)).
Proof.
  intros Hg Hnd Hn. unfold entity_piece.
  assert (Hents : (if hasEntities m k then getEntities m k else []) = es).
  { unfold hasEntities. rewrite Hg. destruct es; reflexivity. }
  rewrite Hents, (fold_text_assoc es n Hnd).
  destruct es as [|e es']; [destruct Hn|].
  change (get_path (intent_json id k (e :: es')) (R0 "parameters")) with (JArr (rt_params (e :: es'))).
  cbn [truthy]. rewrite (fold_params_assoc _ n Hnd). cbn [rbind].
  unfold piece_data, entity_text.
  destruct (assoc n (e :: es')) as [ed|] eqn:Ha.
  - reflexivity.
  - exfalso. exact (assoc_None_notin _ _ Ha Hn).
Qed.

Lemma piece_json_rt m k id es pcs :
  getEntities m k = es -> NoDup (map fst es) -> Forall (marker_ok es) pcs ->
  map_result (piece_json m k (intent_json id k es)) pcs = Ok (map (piece_data es) pcs).
Proof.
  intros Hg Hnd Hp. apply map_result_map. intros [t|n] Hin; [reflexivity|].
  rewrite Forall_forall in Hp. destruct (Hp _ Hin) as [_ Hn].
  apply entity_piece_rt; assumption.
Qed.

Lemma export_phrase_rt u locale k id m es acc p c fs :
  getEntities m k = es -> NoDup (map fst es) -> Forall (marker_ok es) (phrase_pieces p) ->
  export_phrase u locale k (intent_json id k es) acc p {| st_next := c; st_model := m; st_files := fs |} =
  Ok (acc ++ [usersay_json locale (u c) es p], {| st_next := S c; st_model := m; st_files := fs |}).
Proof.
  intros Hg Hnd Hp.
  cbv beta delta [mbind export_phrase get_model lift uuid mret] iota. cbn [st_model st_next st_files].
  rewrite (piece_json_rt m k id es _ Hg Hnd Hp). reflexivity.
Qed.

Lemma export_phrases_rt u locale k id m es ps : forall acc c fs,
  getEntities m k = es -> NoDup (map fst es) ->
  Forall (fun p => Forall (marker_ok es) (phrase_pieces p)) ps ->
  mfold (export_phrase u locale k (intent_json id k es)) ps acc
    {| st_next := c; st_model := m; st_files := fs |} =
  Ok (acc ++ usersays_json u locale es c ps, {| st_next := c + length ps; st_model := m; st_files := fs |}).
Proof.
  induction ps as [|p ps IH]; intros acc c fs Hg Hnd Hps.
  - cbn. rewrite app_nil_r, <- plus_n_O. reflexivity.
  - apply Forall_cons_iff in Hps as [Hp Hps']. cbn [mfold]. unfold mbind at 1.
    rewrite (export_phrase_rt u locale k id m es acc p c fs Hg Hnd Hp).
    rewrite IH by assumption. cbn [usersays_json length]. rewrite <- app_assoc, <- plus_n_Sm. reflexivity.
Qed.
Lemma mbind_ok {A B : Type} (c : M A) (f : A -> M B) s a s' :
  c s = Ok (a, s') -> mbind c f s = f a s'.
Proof. intros H. unfold mbind. rewrite H. reflexivity. Qed.

Lemma export_intent_rt u locale k i c m fs :
  rt_intent_ok m (k, i) -> getEntities m k = default [] (entities i) ->
  export_intent u locale tt (k, i) {| st_next := c; st_model := m; st_files := fs |} =
  Ok (tt, {| st_next := c + intent_ids i; st_model := m;
             st_files := fs ++ rt_entity_files u locale m (S c) (default [] (entities i)) ++ intent_block u locale c k i |}).
Proof.
  intros (Hc & Hd & Hnd & Hes & Hps) Hg.
  unfold export_intent. unfold mbind at 1, uuid. cbn [st_next st_model st_files].
  unfold mbind at 1, get_model. cbn [st_next st_model st_files].
  unfold hasEntities. rewrite Hg. rewrite Hd. cbn [truthy_opt].
  unfold intent_block, intent_ids. rewrite <- Hg. rewrite <- Hg in Hnd, Hes, Hps.
  revert Hnd Hes Hps. destruct (getEntities m k) as [|e es'] eqn:He; intros Hnd Hes Hps.
  - unfold mbind at 1, mret. unfold mbind at 1, push_file. cbn [st_next st_model st_files].
    change (JObj _) with (intent_json (u c) k []).
    unfold mbind at 1. rewrite (export_phrases_rt u locale k (u c) m [] _ [] (S c) _ He Hnd Hps).
    cbn [app n_custom rt_entity_files filter length].
    destruct (default [] (phrases i)) as [|p ps]; cbn [usersays_json app].
    + unfold mret. f_equal. f_equal. f_equal. cbn [length]. lia.
    + unfold push_file. cbn [st_next st_model st_files]. rewrite <- app_assoc, <- !plus_n_O.
      f_equal. f_equal. f_equal. cbn [length]. lia.
  - erewrite mbind_ok;
      [|erewrite mbind_ok; [reflexivity|exact (export_entities_rt u locale k m (default [] (phrases i)) (e :: es') [] (S c) fs Hes)]].
    cbv beta iota. unfold mbind at 1, push_file. cbn [st_next st_model st_files app].
    change (JObj _) with (intent_json (u c) k (e :: es')).
    unfold mbind at 1. rewrite (export_phrases_rt u locale k (u c) m (e :: es') _ [] _ _ He Hnd Hps).
    cbn [app].
    destruct (default [] (phrases i)) as [|p ps]; cbn [usersays_json app].
    + unfold mret. rewrite <- !app_assoc. f_equal. f_equal. f_equal. cbn [length]. lia.
    + unfold push_file. cbn [st_next st_model st_files]. rewrite <- !app_assoc. f_equal. f_equal. f_equal. cbn [length]. lia.
Qed.

Lemma export_intents_rt u locale m ints0 ints : forall c fs,
  intents m = Some ints0 -> NoDup (map fst ints0) -> incl ints ints0 ->
  Forall (rt_intent_ok m) ints ->
  exists c', mfold (export_intent u locale) ints tt {| st_next := c; st_model := m; st_files := fs |}
  = Ok (tt, {| st_next := c'; st_model := m; st_files := fs ++ rt_export u locale m c ints |}).
Proof.
  induction ints as [|[k i] ints IH]; intros c fs Hm Hnd Hincl Hok.
  - exists c. cbn. rewrite app_nil_r. reflexivity.
  - apply Forall_cons_iff in Hok as [Hki Hok]. cbn [mfold]. unfold mbind at 1.
    assert (Hg : getEntities m k = default [] (entities i)).
    { unfold getEntities, getIntents. rewrite Hm. cbn [default].
      rewrite (NoDup_assoc k i ints0 Hnd (Hincl _ (or_introl eq_refl))). reflexivity. }
    rewrite (export_intent_rt u locale k i c m fs Hki Hg).
    destruct (IH (c + intent_ids i) (fs ++ rt_entity_files u locale m (S c) (default [] (entities i)) ++
                                     intent_block u locale c k i) Hm Hnd
                 (fun x H => Hincl x (or_intror H)) Hok) as [c' E].
    exists c'. rewrite E. cbn [rt_export]. rewrite <- !app_assoc. reflexivity.
Qed.

Lemma fromJovoModel_rt u locale m ints :
  intents m = Some ints -> model_dialogflow m = None -> NoDup (map fst ints) ->
  Forall (rt_intent_ok m) ints ->
  fromJovoModel u m locale = Ok (rt_export u locale m 0 ints, m).
Proof.
  intros Hm Hd Hnd Hok. unfold fromJovoModel, getIntents. rewrite Hm. cbn [default].
  destruct (export_intents_rt u locale m ints ints 0 [] Hm Hnd (fun x H => H) Hok) as [c' E].
  unfold mbind at 1. rewrite E. unfold export_escape_hatch, mbind, get_model. cbn [st_model]. rewrite Hd.
  cbn. rewrite Hd. reflexivity.
Qed.

(** *** The import of the exported files *)

Lemma backfill_undef tx (l : list (string * IntentEntity)) : backfill_text JUndef tx l = l.
Proof.
  unfold backfill_text. rewrite <- (map_id l) at 2. apply map_ext. intros [k e]. reflexivity.
Qed.

Lemma ent_state_ext es f g : (forall x, f x = g x) -> ent_state es f = ent_state es g.
Proof. intros H. unfold ent_state. apply map_ext. intros [ek ed]. rewrite H. reflexivity. Qed.

Lemma ents_opt_ext es f g : (forall x, f x = g x) -> ents_opt es f = ents_opt es g.
Proof. intros H. unfold ents_opt. destruct es; [reflexivity|]. rewrite (ent_state_ext _ f g H). reflexivity. Qed.

Lemma backfill_mark es seen n :
  strict_eq (entity_text es n) (JStr n) = false ->
  backfill_text (JStr n) (entity_text es n) (ent_state es seen) =
  ent_state es (fun x => String.eqb x n || seen x).
Proof.
  intros Hs. unfold backfill_text, ent_state. rewrite map_map. apply map_ext. intros [ek ed].
  cbn [strict_eq]. destruct (String.eqb_spec ek n) as [->|_]; cbn [orb]; [|reflexivity].
  unfold text_back. rewrite Hs. reflexivity.
Qed.

Lemma ent_state_mark_same es seen n :
  strict_eq (entity_text es n) (JStr n) = true ->
  ent_state es seen = ent_state es (fun x => String.eqb x n || seen x).
Proof.
  intros Hs. unfold ent_state. apply map_ext. intros [ek ed].
  destruct (String.eqb_spec ek n) as [->|_]; cbn [orb]; [|reflexivity].
  unfold text_back. rewrite Hs. destruct (seen n); reflexivity.
Qed.

Lemma import_usersay_rt es locale id p ph seen df :
  Forall (marker_ok es) (phrase_pieces p) ->
  import_usersay {| phrases := Some ph; entities := ents_opt es seen; intent_dialogflow := df |}
    (usersay_json locale id es p) =
  Ok {| phrases := Some (ph ++ [p]);
        entities := ents_opt es (fun x => marked (phrase_pieces p) x || seen x);
        intent_dialogflow := df |}.
Proof.
  intros Hp. unfold import_usersay.
  change (prop (usersay_json locale id es p) "data")
    with (Ok (JArr (map (piece_data es) (phrase_pieces p))) : result json).
  cbn [rbind js_iter phrases entities intent_dialogflow].
  match goal with |- context [fold_result ?F _ _] => set (step := F) end.
  assert (Hf : forall pcs s0 sn, Forall (marker_ok es) pcs ->
            fold_result step (map (piece_data es) pcs) (s0, ents_opt es sn) =
            Ok ((s0 ++ render_pieces pcs)%string, ents_opt es (fun x => marked pcs x || sn x))).
  { induction pcs as [|pc pcs IH]; intros s0 sn Hpcs.
    - cbn. rewrite str_app_nil_r. reflexivity.
    - apply Forall_cons_iff in Hpcs as [Hpc Hpcs]. cbn [map]. rewrite fold_result_cons.
      destruct pc as [t|n].
      + unfold step. cbv beta iota.
        change (prop (piece_data es (Lit t)) "alias") with (Ok JUndef : result json).
        change (get1 (piece_data es (Lit t)) (PKey "text")) with (JStr t).
        cbn [rbind truthy strict_eq negb js_to_string].
        replace (match ents_opt es sn with Some es0 => Some (backfill_text JUndef (JStr t) es0) | None => None end)
          with (ents_opt es sn) by (destruct (ents_opt es sn); rewrite ?backfill_undef; reflexivity).
        rewrite IH by exact Hpcs. cbn [render_pieces fold_right piece_text].
        rewrite str_app_assoc. reflexivity.
      + destruct Hpc as [Hne Hin]. unfold step. cbv beta iota.
        change (prop (piece_data es (Mark n)) "alias") with (Ok (JStr n) : result json).
        change (get1 (piece_data es (Mark n)) (PKey "text")) with (entity_text es n).
        cbn [rbind truthy js_to_string].
        replace (negb (is_empty_string n)) with true by (destruct n; [contradiction|reflexivity]).
        assert (Hents : (if negb (strict_eq (entity_text es n) (JStr n))
                         then match ents_opt es sn with
                              | Some es0 => Some (backfill_text (JStr n) (entity_text es n) es0)
                              | None => None end
                         else ents_opt es sn) = ents_opt es (fun x => String.eqb x n || sn x)).
        { destruct es as [|e es']; [destruct Hin|].
          destruct (strict_eq (entity_text (e :: es') n) (JStr n)) eqn:Hs; cbn [negb ents_opt].
          - rewrite (ent_state_mark_same _ sn n Hs). reflexivity.
          - rewrite backfill_mark by exact Hs. reflexivity. }
        rewrite Hents, IH by exact Hpcs. cbn [render_pieces fold_right piece_text].
        rewrite str_app_assoc. f_equal. f_equal. apply ents_opt_ext. intros x.
        unfold marked. cbn [existsb].
        destruct (String.eqb x n), (existsb _ pcs), (sn x); reflexivity. }
  rewrite (Hf _ "" seen Hp). cbn [rbind]. rewrite phrase_pieces_render. reflexivity.
Qed.

Lemma import_usersays_rt u locale es df ps :
  Forall (fun p => Forall (marker_ok es) (phrase_pieces p)) ps ->
  forall c ph seen,
  fold_result import_usersay (usersays_json u locale es c ps)
    {| phrases := Some ph; entities := ents_opt es seen; intent_dialogflow := df |} =
  Ok {| phrases := Some (ph ++ ps);
        entities := ents_opt es (fun x => existsb (fun p => marked (phrase_pieces p) x) ps || seen x);
        intent_dialogflow := df |}.
Proof.
  induction 1 as [|p ps Hp _ IH]; intros c ph seen.
  - cbn. rewrite app_nil_r. reflexivity.
  - cbn [usersays_json]. rewrite fold_result_cons, import_usersay_rt by exact Hp.
    cbv beta iota. rewrite IH, <- app_assoc. f_equal. f_equal. apply ents_opt_ext. intros x.
    cbn [existsb]. destruct (marked _ x), (existsb _ ps), (seen x); reflexivity.
Qed.

Lemma entity_text_in es ek ed :
  NoDup (map fst es) -> In (ek, ed) es ->
  entity_text es ek = if truthy_opt (ie_text ed) then default JUndef (ie_text ed) else JStr ek.
Proof. intros Hnd Hin. unfold entity_text. rewrite (NoDup_assoc ek ed es Hnd Hin). reflexivity. Qed.

Lemma marked_mark pcs n : In (Mark n) pcs -> marked pcs n = true.
Proof.
  intros H. unfold marked. apply existsb_exists. exists (Mark n). split; [exact H|].
  apply String.eqb_refl.
Qed.

Lemma ent_state_final m es ps :
  NoDup (map fst es) -> Forall (rt_entity_ok m ps) es ->
  ent_state es (fun x => existsb (fun p => marked (phrase_pieces p) x) ps || false) = map rt_entity es.
Proof.
  intros Hnd Hok. unfold ent_state. apply map_ext_in. intros [ek ed] Hin.
  rewrite Forall_forall in Hok. destruct (Hok _ Hin) as (_ & _ & _ & Ht).
  cbn [rt_entity]. f_equal. f_equal. rewrite orb_false_r.
  destruct Ht as [Hn|(t & Ht & Htr & Hne & Hex)].
  - rewrite Hn. destruct (existsb _ ps); [|reflexivity].
    unfold text_back. rewrite (entity_text_in es ek ed Hnd Hin), Hn. cbn.
    rewrite String.eqb_refl. reflexivity.
  - replace (existsb (fun p => marked (phrase_pieces p) ek) ps) with true.
    + unfold text_back. rewrite (entity_text_in es ek ed Hnd Hin), Ht. cbn [truthy_opt default].
      rewrite Htr, Hne. reflexivity.
    + symmetry. apply existsb_exists. apply Exists_exists in Hex as (p & Hp & Hm).
      exists p. split; [exact Hp|]. apply marked_mark. exact Hm.
Qed.

Lemma skip_intent_json id k es locale :
  skipDefaultIntentProps empty_intent (intent_json id k es) locale =
  Ok {| phrases := Some []; entities := None;
        intent_dialogflow := Some (JObj [("webhookUsed", JBool true)]) |}.
Proof. destruct es; reflexivity. Qed.

Lemma data_type_nonempty ed : is_empty_string (data_type ed) = false.
Proof.
  unfold data_type, is_custom.
  destruct (type_name ed) as [|c s]; cbn; [reflexivity|destruct (negb _); reflexivity].
Qed.

Lemma typed_params_fst es : map fst (typed_params es) = map fst es.
Proof. unfold typed_params. rewrite map_map. apply map_ext. intros [ek ed]. reflexivity. Qed.

Lemma declared_parameters_nodup (l acc : list (string * string)) :
  NoDup (map fst acc ++ map fst l) -> Forall (fun nd => is_empty_string (snd nd) = false) l ->
  fold_left (fun acc '(n, dt) => if is_empty_string dt then acc else assoc_set n dt acc) l acc = acc ++ l.
Proof.
  revert acc. induction l as [|[n dt] l IH]; intros acc Hnd Hne; [rewrite app_nil_r; reflexivity|].
  inversion Hne as [|? ? Hd Hne']; subst. cbn [fold_left]. cbn [snd] in Hd. rewrite Hd.
  rewrite assoc_set_fresh.
  - rewrite IH, <- app_assoc; [reflexivity| |exact Hne'].
    rewrite map_app, <- app_assoc. exact Hnd.
  - intros Hin. cbn [map fst] in Hnd. apply NoDup_remove_2 in Hnd. apply Hnd. apply in_or_app. left. exact Hin.
Qed.

Lemma rt_params_with es : Forall2 param_with (rt_params es) (typed_params es).
Proof.
  induction es as [|[ek ed] es IH]; [constructor|]. constructor; [|exact IH].
  eexists. split; [reflexivity|]. split; reflexivity.
Qed.

Lemma import_entities_intent_json id k es :
  NoDup (map fst es) ->
  import_entities (intent_json id k es) =
  Ok (match es with [] => [] | _ => decls_entities (typed_params es) end).
Proof.
  intros Hnd. destruct es as [|e es']; [reflexivity|].
  unfold intent_json. cbn [app].
  rewrite (import_entities_decls _ [JObj [("parameters", JArr (rt_params (e :: es')))]]
             [typed_params (e :: es')]); [| reflexivity | ].
  - cbn [concat]. rewrite app_nil_r. unfold declared_parameters.
    rewrite declared_parameters_nodup; [reflexivity| |].
    + cbn [map app]. rewrite typed_params_fst. exact Hnd.
    + unfold typed_params. apply Forall_map. apply Forall_forall. intros [ek ed] _. apply data_type_nonempty.
  - constructor; [|constructor]. do 2 eexists. split; [reflexivity|]. split; [reflexivity|].
    apply rt_params_with.
Qed.

Lemma ent_state_none es : ent_state es (fun _ => false) = decls_entities (typed_params es).
Proof.
  unfold ent_state, decls_entities, typed_params. rewrite map_map. apply map_ext. intros [ek ed]. reflexivity.
Qed.

Lemma intent_json_fields id k es :
  prop (intent_json id k es) "fallbackIntent" = Ok JUndef /\
  get_path (intent_json id k es) [PKey "events"; PIdx 0; PKey "name"] = JUndef /\
  js_to_string (get1 (intent_json id k es) (PKey "name")) = k.
Proof. destruct es; repeat split. Qed.

Lemma ents_opt_decls es :
  match match es with [] => [] | _ => decls_entities (typed_params es) end with
  | [] => None
  | _ :: _ => Some (match es with [] => [] | _ => decls_entities (typed_params es) end)
  end = ents_opt es (fun _ => false).
Proof. destruct es as [|e es]; [reflexivity|]. unfold ents_opt. rewrite ent_state_none. reflexivity. Qed.

Lemma import_intent_file_rt u files locale m jm l id k i c' :
  intents jm = Some l -> rt_intent_ok m (k, i) ->
  find_file files (k ++ "_usersays_" ++ locale ++ ".json") =
    match default [] (phrases i) with
    | [] => None
    | ps => Some {| path := ["intents"; (k ++ "_usersays_" ++ locale ++ ".json")%string];
                    content := JArr (usersays_json u locale (default [] (entities i)) c' ps) |}
    end ->
  import_intent_file files locale jm
    {| path := ["intents"; (k ++ ".json")%string]; content := intent_json id k (default [] (entities i)) |}
  = Ok (with_intents jm (assoc_set k (snd (rt_intent (k, i))) l)).
Proof.
  intros Hl (Hc & Hdf & Hnd & Hes & Hps) Hf. unfold import_intent_file. cbn [nth_error path content].
  rewrite Hc. cbv beta iota zeta. rewrite skip_intent_json.
  destruct (intent_json_fields id k (default [] (entities i))) as (Hfb & Hev & Hname).
  cbn [rbind]. rewrite Hfb. cbn [rbind strict_eq]. rewrite Hev. cbn [strict_eq].
  rewrite (import_entities_intent_json id k _ Hnd). cbn [rbind phrases intent_dialogflow].
  rewrite ents_opt_decls, Hname, Hf.
  destruct (default [] (phrases i)) as [|p ps] eqn:Ep.
  - cbn [rbind]. rewrite Hl. cbn [rt_intent snd]. rewrite Ep.
    do 5 f_equal. pose proof (ent_state_final m _ [] Hnd Hes) as E. cbn [existsb orb] in E.
    revert E. unfold ents_opt. destruct (default [] (entities i)); [reflexivity|].
    intros ->. reflexivity.
  - cbn [rbind content js_iter]. rewrite import_usersays_rt by exact Hps. cbn [rbind].
    rewrite Hl. cbn [rt_intent snd]. rewrite Ep. cbn [app].
    do 5 f_equal. pose proof (ent_state_final m _ _ Hnd Hes) as E.
    revert E. unfold ents_opt. destruct (default [] (entities i)); [reflexivity|].
    intros ->. reflexivity.
Qed.

Lemma find_intent_block u locale c k k' i' rest :
  contains "usersays" (k' ++ ".json") = false ->
  find_file (intent_block u locale c k' i' ++ rest) (k ++ "_usersays_" ++ locale ++ ".json") =
  if String.eqb k' k then
    match default [] (phrases i') with
    | [] => find_file rest (k ++ "_usersays_" ++ locale ++ ".json")
    | ps => Some {| path := ["intents"; (k ++ "_usersays_" ++ locale ++ ".json")%string];
                    content := JArr (usersays_json u locale (default [] (entities i'))
                                       (S c + n_custom (default [] (entities i'))) ps) |}
    end
  else find_file rest (k ++ "_usersays_" ++ locale ++ ".json").
Proof.
  intros Hc. rewrite find_file_app. unfold intent_block, find_file at 1.
  cbn [find nth_error path].
  destruct (String.eqb_spec (k' ++ ".json") (k ++ "_usersays_" ++ locale ++ ".json")) as [E|_].
  { rewrite E, usersays_name_contains in Hc. discriminate. }
  destruct (default [] (phrases i')) as [|p ps]; cbn [find nth_error path].
  - destruct (String.eqb k' k); reflexivity.
  - destruct (String.eqb_spec (k' ++ "_usersays_" ++ locale ++ ".json")
                              (k ++ "_usersays_" ++ locale ++ ".json")) as [E|N].
    + apply str_app_cancel_r in E. subst k'. rewrite String.eqb_refl. reflexivity.
    + destruct (String.eqb_spec k' k) as [->|_]; [contradiction|reflexivity].
Qed.

Lemma rt_intent_ok_name m k i : rt_intent_ok m (k, i) -> contains "usersays" (k ++ ".json") = false.
Proof. intros (Hc & _). exact Hc. Qed.

Lemma find_rt_absent u locale m k c ints :
  Forall (rt_intent_ok m) ints -> ~ In k (map fst ints) ->
  find_file (rt_intent_blocks u locale c ints) (k ++ "_usersays_" ++ locale ++ ".json") = None.
Proof.
  intros Hp. revert c. induction Hp as [|[k' i'] ints Hp _ IH]; intros c Hk; [reflexivity|].
  cbn [rt_intent_blocks]. rewrite find_intent_block by exact (rt_intent_ok_name _ _ _ Hp).
  destruct (String.eqb_spec k' k) as [->|_].
  - exfalso. apply Hk. left. reflexivity.
  - apply IH. intros H. apply Hk. right. exact H.
Qed.

Lemma find_rt_present u locale m k i c ints :
  Forall (rt_intent_ok m) ints -> NoDup (map fst ints) -> In (k, i) ints ->
  exists c', find_file (rt_intent_blocks u locale c ints) (k ++ "_usersays_" ++ locale ++ ".json") =
  match default [] (phrases i) with
  | [] => None
  | ps => Some {| path := ["intents"; (k ++ "_usersays_" ++ locale ++ ".json")%string];
                  content := JArr (usersays_json u locale (default [] (entities i)) c' ps) |}
  end.
Proof.
  intros Hp. revert c. induction Hp as [|[k' i'] ints Hp Hps IH]; intros c Hnd Hin; [destruct Hin|].
  cbn [map fst] in Hnd. inversion Hnd as [|? ? Hk Hnd']. subst.
  cbn [rt_intent_blocks]. rewrite find_intent_block by exact (rt_intent_ok_name _ _ _ Hp).
  destruct Hin as [[= -> ->]|Hin].
  - rewrite String.eqb_refl. exists (S c + n_custom (default [] (entities i))).
    destruct (default [] (phrases i)) as [|p ps]; [|reflexivity].
    apply (find_rt_absent u locale m); assumption.
  - destruct (String.eqb_spec k' k) as [->|_].
    + exfalso. apply Hk. apply (in_map fst _ _ Hin).
    + apply IH; assumption.
Qed.

Lemma import_intent_block u files locale m c jm l k i :
  intents jm = Some l -> rt_intent_ok m (k, i) -> ~ In k (map fst l) ->
  (exists c', find_file files (k ++ "_usersays_" ++ locale ++ ".json") =
    match default [] (phrases i) with
    | [] => None
    | ps => Some {| path := ["intents"; (k ++ "_usersays_" ++ locale ++ ".json")%string];
                    content := JArr (usersays_json u locale (default [] (entities i)) c' ps) |}
    end) ->
  fold_result (import_intent_file files locale) (intent_block u locale c k i) jm
  = Ok (with_intents jm (l ++ [rt_intent (k, i)])).
Proof.
  intros Hl Hok Hk [c' Hf]. unfold intent_block. cbv zeta. rewrite fold_result_cons.
  rewrite (import_intent_file_rt u files locale m jm l (u c) k i c' Hl Hok Hf).
  cbv beta iota. rewrite assoc_set_fresh by exact Hk.
  destruct (default [] (phrases i)) as [|p ps]; [reflexivity|].
  rewrite fold_result_cons, import_usersays_file_skipped. reflexivity.
Qed.

Lemma import_intent_blocks u files locale m ints :
  Forall (rt_intent_ok m) ints ->
  (forall k i, In (k, i) ints -> exists c', find_file files (k ++ "_usersays_" ++ locale ++ ".json") =
    match default [] (phrases i) with
    | [] => None
    | ps => Some {| path := ["intents"; (k ++ "_usersays_" ++ locale ++ ".json")%string];
                    content := JArr (usersays_json u locale (default [] (entities i)) c' ps) |}
    end) ->
  forall c jm l, intents jm = Some l -> NoDup (map fst l ++ map fst ints) ->
  fold_result (import_intent_file files locale) (rt_intent_blocks u locale c ints) jm
  = Ok (with_intents jm (l ++ map rt_intent ints)).
Proof.
  induction 1 as [|[k i] ints Hok Hoks IH]; intros Hf c jm l Hl Hnd.
  - cbn. rewrite app_nil_r. destruct jm; cbn in Hl |- *. rewrite Hl. reflexivity.
  - cbn [rt_intent_blocks]. rewrite fold_result_app.
    rewrite (import_intent_block u files locale m c jm l k i Hl Hok).
    + cbn [rbind]. rewrite (IH (fun k' i' H => Hf k' i' (or_intror H)) _ _ (l ++ [rt_intent (k, i)])).
      * rewrite with_intents_twice, <- app_assoc. reflexivity.
      * reflexivity.
      * cbn [rt_intent]. rewrite map_app, <- app_assoc. exact Hnd.
    + intros Hin. cbn [map fst] in Hnd. apply NoDup_remove_2 in Hnd. apply Hnd.
      apply in_or_app. left. exact Hin.
    + apply Hf. left. reflexivity.
Qed.

(** ** Files of the export by directory *)

Lemma filter_ent_block d locale m n e :
  filter (in_dir d) (ent_block locale m n e) =
  if String.eqb "entities" d then ent_block locale m n e else [].
Proof.
  unfold ent_block. destruct (vals m n); cbn [filter in_dir path entity_file entries_file];
    destruct (String.eqb "entities" d); reflexivity.
Qed.

Lemma filter_entity_files d u locale m c es :
  filter (in_dir d) (rt_entity_files u locale m c es) =
  if String.eqb "entities" d then rt_entity_files u locale m c es else [].
Proof.
  revert c. induction es as [|[ek ed] es IH]; intros c; cbn [rt_entity_files].
  - destruct (String.eqb "entities" d); reflexivity.
  - destruct (is_custom ed); [|apply IH].
    rewrite filter_app, filter_ent_block, IH. destruct (String.eqb "entities" d); reflexivity.
Qed.

Lemma filter_intent_block d u locale c k i :
  filter (in_dir d) (intent_block u locale c k i) =
  if String.eqb "intents" d then intent_block u locale c k i else [].
Proof.
  unfold intent_block. cbv zeta. destruct (default [] (phrases i));
    cbn [filter in_dir path]; destruct (String.eqb "intents" d); reflexivity.
Qed.

Lemma filter_intents_rt u locale m c ints :
  filter (in_dir "intents") (rt_export u locale m c ints) = rt_intent_blocks u locale c ints.
Proof.
  revert c. induction ints as [|[k i] ints IH]; intros c; [reflexivity|]. cbn [rt_export rt_intent_blocks].
  rewrite !filter_app, filter_entity_files, filter_intent_block, IH. reflexivity.
Qed.

Lemma filter_entities_rt u locale m c ints :
  filter (in_dir "entities") (rt_export u locale m c ints) = rt_entity_blocks u locale m c ints.
Proof.
  revert c. induction ints as [|[k i] ints IH]; intros c; [reflexivity|]. cbn [rt_export rt_entity_blocks].
  rewrite !filter_app, filter_entity_files, filter_intent_block, IH. cbn [String.eqb Ascii.eqb Bool.eqb andb app].
  reflexivity.
Qed.

(** ** The entity files *)

Lemma entity_files_refs u locale m es :
  forall c, exists refs, rt_entity_files u locale m c es = flat_map (fun '(n, e) => ent_block locale m n e) refs /\
    map fst refs = custom_names es.
Proof.
  induction es as [|[ek ed] es IH]; intros c; [exists []; split; reflexivity|].
  cbn [rt_entity_files]. unfold custom_names. cbn [filter]. destruct (is_custom ed).
  - destruct (IH (S c)) as (refs & E & N). exists ((type_name ed, u c) :: refs).
    rewrite E. split; [reflexivity|]. cbn [map fst]. rewrite N. reflexivity.
  - apply IH.
Qed.

Lemma entity_blocks_refs u locale m ints :
  forall c, exists refs, rt_entity_blocks u locale m c ints = flat_map (fun '(n, e) => ent_block locale m n e) refs /\
    map fst refs = ref_names ints.
Proof.
  induction ints as [|[k i] ints IH]; intros c; [exists []; split; reflexivity|].
  cbn [rt_entity_blocks]. destruct (entity_files_refs u locale m (default [] (entities i)) (S c)) as (r1 & E1 & N1).
  destruct (IH (c + intent_ids i)) as (r2 & E2 & N2). exists (r1 ++ r2).
  rewrite E1, E2, flat_map_app. split; [reflexivity|]. rewrite map_app, N1, N2. reflexivity.
Qed.

Lemma entries_name_contains (n locale : string) :
  contains "entries" (n ++ "_entries_" ++ locale ++ ".json") = true.
Proof.
  replace (n ++ "_entries_" ++ locale ++ ".json")%string
    with ((n ++ "_") ++ ("entries" ++ ("_" ++ locale ++ ".json")))%string
    by (rewrite str_app_assoc; reflexivity).
  apply contains_app. apply contains_prefix.
Qed.

Lemma find_ent_block locale m n n' e rest :
  contains "entries" (n' ++ ".json") = false ->
  find_file (ent_block locale m n' e ++ rest) (n ++ "_entries_" ++ locale ++ ".json") =
  if String.eqb n' n then
    match vals m n with
    | [] => find_file rest (n ++ "_entries_" ++ locale ++ ".json")
    | vs => Some (entries_file locale n vs)
    end
  else find_file rest (n ++ "_entries_" ++ locale ++ ".json").
Proof.
  intros Hc. unfold ent_block. cbn [app]. unfold find_file at 1. cbn [find nth_error path entity_file].
  destruct (String.eqb_spec (n' ++ ".json") (n ++ "_entries_" ++ locale ++ ".json")) as [E|_].
  { rewrite E, entries_name_contains in Hc. discriminate. }
  destruct (String.eqb_spec n' n) as [->|N].
  - destruct (vals m n) as [|v vs]; [reflexivity|]. cbn [app find entries_file nth_error path].
    rewrite String.eqb_refl. reflexivity.
  - destruct (vals m n') as [|v vs]; [reflexivity|]. cbn [app find entries_file nth_error path].
    destruct (String.eqb_spec (n' ++ "_entries_" ++ locale ++ ".json") (n ++ "_entries_" ++ locale ++ ".json")) as [E|_].
    + apply str_app_cancel_r in E. contradiction.
    + reflexivity.
Qed.

Lemma find_entries_refs locale m n refs :
  Forall (fun r => contains "entries" (fst r ++ ".json") = false) refs ->
  find_file (flat_map (fun '(n', e) => ent_block locale m n' e) refs) (n ++ "_entries_" ++ locale ++ ".json") =
  if existsb (String.eqb n) (map fst refs)
  then match vals m n with [] => None | vs => Some (entries_file locale n vs) end
  else None.
Proof.
  induction 1 as [|[n' e] refs Hc _ IH]; [reflexivity|].
  cbn [flat_map]. rewrite find_ent_block by exact Hc. cbn [map fst existsb].
  rewrite IH. rewrite (String.eqb_sym n n').
  destruct (String.eqb n' n); cbn [orb]; [|reflexivity].
  destruct (vals m n); [|reflexivity]. destruct (existsb _ _); reflexivity.
Qed.

Lemma filter_keep_syns s l :
  Forall (fun x => exists t, x = JStr t /\ sanitize t = t /\ t <> s) l ->
  filter (fun x => negb (strict_eq x (JStr s))) l = l.
Proof.
  induction 1 as [|x l (t & -> & _ & Ht) _ IH]; [reflexivity|].
  cbn [filter strict_eq]. destruct (String.eqb_spec t s) as [E|_]; [contradiction|].
  cbn [negb]. rewrite IH. reflexivity.
Qed.

Lemma import_entries_rt dfe vs :
  prop dfe "isEnum" = Ok (JBool false) -> prop dfe "isRegexp" = Ok (JBool false) ->
  Forall canonical_value vs ->
  forall acc, fold_result (import_entry dfe) (map entry_json vs) acc = Ok (acc ++ vs).
Proof.
  intros He Hr. induction 1 as [|v vs (s & syns & -> & _ & Hsyn) _ IH]; intros acc.
  - cbn. rewrite app_nil_r. reflexivity.
  - cbn [map]. rewrite fold_result_cons. unfold import_entry at 1.
    change (prop (entry_json (EVObj (JStr s) syns)) "value") with (Ok (JStr s) : result json).
    cbn [rbind]. rewrite He, Hr. cbn [rbind truthy negb andb].
    change (get1 (entry_json (EVObj (JStr s) syns)) (PKey "synonyms"))
      with (JArr (JStr s :: default [] syns)).
    cbn [js_iter rbind filter strict_eq]. rewrite String.eqb_refl. cbn [negb].
    destruct syns as [l|].
    + destruct Hsyn as [Hne Hl]. cbn [default]. rewrite filter_keep_syns by exact Hl.
      destruct l as [|x l]; [contradiction|]. rewrite IH, <- app_assoc. reflexivity.
    + cbn [default filter]. rewrite IH, <- app_assoc. reflexivity.
Qed.

Lemma entity_file_fields n e :
  skipDefaultEntityProps {| values := Some []; et_dialogflow := None |}
    (JObj (assoc_set "name" (JStr n) (assoc_set "id" (JStr e) DIALOGFLOW_LM_ENTITY)))
  = {| values := Some []; et_dialogflow := None |} /\
  prop (JObj (assoc_set "name" (JStr n) (assoc_set "id" (JStr e) DIALOGFLOW_LM_ENTITY))) "name" = Ok (JStr n) /\
  prop (JObj (assoc_set "name" (JStr n) (assoc_set "id" (JStr e) DIALOGFLOW_LM_ENTITY))) "isEnum" = Ok (JBool false) /\
  prop (JObj (assoc_set "name" (JStr n) (assoc_set "id" (JStr e) DIALOGFLOW_LM_ENTITY))) "isRegexp" = Ok (JBool false).
Proof. repeat split. Qed.

Lemma import_entity_file_rt files locale m jm l n e :
  entityTypes jm = Some l -> contains "entries" (n ++ ".json") = false ->
  Forall canonical_value (vals m n) ->
  find_file files (n ++ "_entries_" ++ locale ++ ".json") =
    match vals m n with [] => None | vs => Some (entries_file locale n vs) end ->
  import_entity_file files locale jm (entity_file n e) =
  Ok (with_entityTypes jm (assoc_set n (rt_entity_type m n) l)).
Proof.
  intros Hl Hc Hv Hf. unfold import_entity_file. cbn [nth_error path entity_file content]. rewrite Hc.
  destruct (entity_file_fields n e) as (Hs & Hn & He & Hr).
  cbv zeta. rewrite Hs, Hn. cbn [rbind js_to_string et_dialogflow]. rewrite Hf.
  unfold rt_entity_type. destruct (vals m n) as [|v vs].
  - cbn [rbind]. rewrite Hl. reflexivity.
  - cbn [entries_file content js_iter rbind]. rewrite (import_entries_rt _ _ He Hr Hv). cbn [rbind app].
    rewrite Hl. reflexivity.
Qed.

Lemma import_entries_file_skipped files locale jm n vs :
  import_entity_file files locale jm (entries_file locale n vs) = Ok jm.
Proof. unfold import_entity_file. cbn [nth_error path entries_file]. rewrite entries_name_contains. reflexivity. Qed.

Lemma import_entity_blocks files locale m refs :
  Forall (fun r => contains "entries" (fst r ++ ".json") = false /\ Forall canonical_value (vals m (fst r))) refs ->
  (forall n, In n (map fst refs) -> find_file files (n ++ "_entries_" ++ locale ++ ".json") =
     match vals m n with [] => None | vs => Some (entries_file locale n vs) end) ->
  forall jm l, entityTypes jm = Some l ->
  fold_result (import_entity_file files locale) (flat_map (fun '(n, e) => ent_block locale m n e) refs) jm =
  Ok (with_entityTypes jm (fold_left (fun l n => assoc_set n (rt_entity_type m n) l) (map fst refs) l)).
Proof.
  induction 1 as [|[n e] refs [Hc Hv] _ IH]; intros Hf jm l Hl.
  - cbn. destruct jm; cbn in Hl |- *. rewrite Hl. reflexivity.
  - cbn [flat_map]. rewrite fold_result_app. unfold ent_block. rewrite fold_result_cons.
    rewrite (import_entity_file_rt files locale m jm l n e Hl Hc Hv (Hf n (or_introl eq_refl))).
    cbv beta iota.
    assert (Hb : fold_result (import_entity_file files locale)
                   match vals m n with [] => [] | vs => [entries_file locale n vs] end
                   (with_entityTypes jm (assoc_set n (rt_entity_type m n) l))
                 = Ok (with_entityTypes jm (assoc_set n (rt_entity_type m n) l))).
    { destruct (vals m n) as [|v vs]; [reflexivity|].
      rewrite fold_result_cons, import_entries_file_skipped. reflexivity. }
    rewrite Hb. cbn [rbind]. rewrite (IH (fun n' H => Hf n' (or_intror H)) _ (assoc_set n (rt_entity_type m n) l)).
    + destruct jm; reflexivity.
    + reflexivity.
Qed.

Lemma assoc_set_dedup m n acc :
  assoc_set n (rt_entity_type m n) (map (fun n => (n, rt_entity_type m n)) acc) =
  map (fun n => (n, rt_entity_type m n)) (if existsb (String.eqb n) acc then acc else acc ++ [n]).
Proof.
  induction acc as [|a acc IH]; [reflexivity|]. cbn [map assoc_set existsb].
  destruct (String.eqb_spec n a) as [->|_]; [reflexivity|]. cbn [orb]. rewrite IH.
  destruct (existsb _ acc); reflexivity.
Qed.

Lemma fold_dedup m names :
  forall acc, fold_left (fun l n => assoc_set n (rt_entity_type m n) l) names
                (map (fun n => (n, rt_entity_type m n)) acc) =
  map (fun n => (n, rt_entity_type m n))
    (fold_left (fun acc n => if existsb (String.eqb n) acc then acc else acc ++ [n]) names acc).
Proof.
  induction names as [|n names IH]; intros acc; [reflexivity|]. cbn [fold_left].
  rewrite assoc_set_dedup. apply IH.
Qed.

Lemma custom_names_ok m ps es :
  Forall (rt_entity_ok m ps) es ->
  Forall (fun n => contains "entries" (n ++ ".json") = false /\ Forall canonical_value (vals m n)) (custom_names es).
Proof.
  unfold custom_names. induction 1 as [|[ek ed] es Hok _ IH]; [constructor|]. cbn [filter].
  destruct (is_custom ed) eqn:Ec; [|exact IH]. cbn [map]. constructor; [|exact IH].
  destruct Hok as (_ & _ & Hcust & _). destruct (Hcust Ec) as (et & Het & _ & Hc & Hv).
  split; [exact Hc|]. unfold vals. rewrite Het. exact Hv.
Qed.

Lemma ref_names_ok m ints :
  Forall (rt_intent_ok m) ints ->
  Forall (fun n => contains "entries" (n ++ ".json") = false /\ Forall canonical_value (vals m n)) (ref_names ints).
Proof.
  unfold ref_names. induction 1 as [|[k i] ints Hok _ IH]; [constructor|]. cbn [flat_map].
  apply Forall_app. split; [|exact IH]. destruct Hok as (_ & _ & _ & Hes & _).
  exact (custom_names_ok _ _ _ Hes).
Qed.

Lemma toJovoModel_rt u locale m ints :
  NoDup (map fst ints) -> Forall (rt_intent_ok m) ints ->
  toJovoModel (rt_export u locale m 0 ints) locale = Ok (rt_model m ints).
Proof.
  intros Hnd Hok. unfold toJovoModel. cbv zeta. rewrite filter_intents_rt.
  rewrite (import_intent_blocks u _ locale m ints Hok) with (l := []).
  - cbn [rbind]. rewrite filter_entities_rt.
    destruct (entity_blocks_refs u locale m ints 0) as (refs & E & N). rewrite E.
    assert (Hr : Forall (fun r => contains "entries" (fst r ++ ".json") = false /\
                                  Forall canonical_value (vals m (fst r))) refs).
    { apply Forall_map with (f := fst) (P := fun n => contains "entries" (n ++ ".json") = false /\
                                                      Forall canonical_value (vals m n)).
      rewrite N. apply ref_names_ok. exact Hok. }
    rewrite (import_entity_blocks _ locale m refs Hr) with (l := []).
    + rewrite N. change (@nil (string * EntityType)) with (map (fun n => (n, rt_entity_type m n)) []).
      rewrite fold_dedup. reflexivity.
    + intros n Hn. rewrite find_entries_refs.
      * destruct (existsb (String.eqb n) (map fst refs)) eqn:Ex; [reflexivity|].
        assert (existsb (String.eqb n) (map fst refs) = true) as Et
          by (apply existsb_exists; exists n; split; [exact Hn|apply String.eqb_refl]).
        rewrite Et in Ex. discriminate.
      * eapply Forall_impl; [|exact Hr]. intros r [Hc _]. exact Hc.
    + reflexivity.
  - intros k i Hin. apply (find_rt_present u locale m); assumption.
  - reflexivity.
  - exact Hnd.
Qed.

(** C1 (counterexample): exporting the one-intent model [hello_model], which
    has no escape-hatch field, and importing the files again gives the intent
    back with a [dialogflow] sub-tree [{webhookUsed: true}] that the original
    lacks (identifiers drawn as [nat_key]). *)
Lemma round_trip_adds_webhookUsed :
  rbind (fromJovoModel nat_key hello_model "en-US") (fun r => toJovoModel (fst r) "en-US") =
  Ok (imported_model
        [("HelloIntent", {| phrases := Some ["hi"]; entities := None;
                            intent_dialogflow := Some (JObj [("webhookUsed", JBool true)]) |})]).
Proof. reflexivity. Qed.

(** C1 (amended): take a model without escape hatch whose intents have
    distinct names and satisfy [rt_intent_ok], which asks only for what the
    code needs. Then the export leaves the model as it was, and importing
    the exported files gives [rt_model]: the current-schema model (version
    4.0, empty invocation) with every intent in order, its phrases (a
    missing list becoming empty) and its entities with their texts. Each
    entity gets the type the importer derives from the exported [dataType]
    ([entity_decl]), an empty entity list is omitted, and each intent gets
    the [dialogflow] sub-tree [{webhookUsed: true}]. The entity types are
    those some intent entity refers to, in the order of first reference,
    each with its values and synonyms (missing values becoming empty). *)
Theorem round_trip_canonical (u : nat -> string) (locale : string) (m : JovoModelData)
  (ints : list (string * Intent)) :
  intents m = Some ints -> model_dialogflow m = None -> NoDup (map fst ints) ->
  Forall (rt_intent_ok m) ints ->
  fromJovoModel u m locale = Ok (rt_export u locale m 0 ints, m) /\
  toJovoModel (rt_export u locale m 0 ints) locale = Ok (rt_model m ints).
Proof.
  intros Hi Hd Hnd Hok. split.
  - apply fromJovoModel_rt; assumption.
  - apply toJovoModel_rt; assumption.
Qed.

Lemma round_trip_canonical_witness :
  fromJovoModel nat_key book_model "en-US" = Ok (rt_export nat_key "en-US" book_model 0 book_intents, book_model) /\
  toJovoModel (rt_export nat_key "en-US" book_model 0 book_intents) "en-US" = Ok (rt_model book_model book_intents).
Proof.
  apply (round_trip_canonical nat_key "en-US" book_model book_intents).
  - reflexivity.
  - reflexivity.
  - repeat constructor; cbn; intuition discriminate.
  - constructor; [|constructor]. cbn. split; [reflexivity|]. split; [reflexivity|].
    split; [repeat constructor; cbn; intuition discriminate|]. split.
    + constructor; [|constructor; [|constructor]].
      * split; [reflexivity|]. split; [discriminate|]. split.
        -- intros _. eexists. split; [reflexivity|]. split; [reflexivity|]. split; [reflexivity|].
           constructor; [|constructor]. exists "Berlin", (Some [JStr "Berlin City"]).
           split; [reflexivity|]. split; [vm_compute; reflexivity|]. split; [discriminate|].
           constructor; [|constructor]. exists "Berlin City". split; [reflexivity|].
           split; [vm_compute; reflexivity|discriminate].
        -- right. exists (JStr "Berlin"). split; [reflexivity|]. split; [reflexivity|].
           split; [reflexivity|]. apply Exists_cons_hd. vm_compute. auto.
      * split; [reflexivity|]. split; [discriminate|]. split.
        -- intros H. vm_compute in H. discriminate H.
        -- left. reflexivity.
    + assert (E1 : phrase_pieces "book a {city} flight" = [Lit "book a "; Mark "city"; Lit " flight"])
        by (vm_compute; reflexivity).
      assert (E2 : phrase_pieces "fly to {city} on {date}"
                   = [Lit "fly to "; Mark "city"; Lit " on "; Mark "date"])
        by (vm_compute; reflexivity).
      constructor; [rewrite E1|constructor; [rewrite E2|constructor]];
        repeat constructor; cbn; solve [discriminate | auto].
Defined.

(** * Further properties of the code *)

(** X1: on an entity type without [dialogflow] field, [skipDefaultEntityProps] keeps its
    values and records under [dialogflow] exactly the five Dialogflow entity properties
    whose value differs from [DEFAULT_ENTITY], in the order of the property list; when
    none differs, no [dialogflow] field is added. *)
Theorem skipDefaultEntityProps_records_differences (vs : option (list EntityTypeValue)) (dfe : json) :
  skipDefaultEntityProps {| values := vs; et_dialogflow := None |} dfe =
  {| values := vs;
     et_dialogflow :=
       match map (fun k => (k, get_path dfe (K k)))
               (filter (fun k => negb (strict_eq (get_path dfe (K k)) (get_path DEFAULT_ENTITY (K k))))
                  ["isOverridable"; "isEnum"; "automatedExpansion"; "isRegexp"; "allowFuzzyExtraction"]) with
       | [] => None
       | ds => Some (JObj ds)
       end |}.
Proof.
  unfold skipDefaultEntityProps. cbn [fold_left filter map].
  repeat match goal with |- context [negb (strict_eq ?a ?b)] => destruct (negb (strict_eq a b)) end;
    reflexivity.
Qed.

Lemma fold_left_skip {A B : Type} (f : B -> A -> B) (p : A -> bool) (l : list A) (acc : B) :
  (forall b x, p x = false -> f b x = b) -> fold_left f l acc = fold_left f (filter p l) acc.
Proof.
  intros H. revert acc. induction l as [|x l IH]; intros acc; [reflexivity|].
  cbn [fold_left filter]. destruct (p x) eqn:E; cbn [fold_left]; [apply IH|].
  rewrite H by exact E. apply IH.
Qed.

(** X2: the message loop of [skipDefaultIntentProps] ignores every response message whose
    [lang] is not the locale: the result is that of the messages of the locale alone. *)
Theorem import_messages_other_locales (locale : string) (ji : Intent) (ms : list json) :
  import_messages locale ji ms =
  import_messages locale ji (filter (fun m => strict_eq (get1 m (PKey "lang")) (JStr locale)) ms).
Proof.
  unfold import_messages. apply fold_left_skip.
  intros acc m E. cbv beta. rewrite E. destruct acc; reflexivity.
Qed.

(** X3: a message of the locale whose [speech] is [null] makes the message loop of
    [skipDefaultIntentProps] throw a TypeError (reading [length] of [null]), whatever
    follows it. *)
Theorem import_messages_null_speech_throws (locale : string) (ji ji' : Intent) (pre post : list json) (m : json) :
  import_messages locale ji pre = Ok ji' ->
  strict_eq (get1 m (PKey "lang")) (JStr locale) = true ->
  get1 m (PKey "speech") = JNull ->
  import_messages locale ji (pre ++ m :: post) = Throw "TypeError".
Proof.
  intros Hpre Hl Hs. unfold import_messages in *. rewrite fold_left_app, Hpre.
  cbn [fold_left rbind]. rewrite Hl. unfold get_or, get_path, K. cbn [fold_left]. rewrite Hs.
  cbn [length_pos rbind]. apply fold_throw.
Qed.

Lemma import_messages_null_speech_throws_witness :
  import_messages "en-US" empty_intent [] = Ok empty_intent /\
  strict_eq (get1 (JObj [("lang", JStr "en-US"); ("speech", JNull)]) (PKey "lang")) (JStr "en-US") = true /\
  get1 (JObj [("lang", JStr "en-US"); ("speech", JNull)]) (PKey "speech") = JNull /\
  import_messages "en-US" empty_intent ([] ++ [JObj [("lang", JStr "en-US"); ("speech", JNull)]]) = Throw "TypeError".
Proof.
  assert (H1 : import_messages "en-US" empty_intent [] = Ok empty_intent) by reflexivity.
  assert (H2 : strict_eq (get1 (JObj [("lang", JStr "en-US"); ("speech", JNull)]) (PKey "lang")) (JStr "en-US") = true)
    by reflexivity.
  assert (H3 : get1 (JObj [("lang", JStr "en-US"); ("speech", JNull)]) (PKey "speech") = JNull) by reflexivity.
  split; [exact H1|split; [exact H2|split; [exact H3|]]].
  exact (import_messages_null_speech_throws "en-US" empty_intent empty_intent [] [] _ H1 H2 H3).
Defined.

Lemma filter_filter_imp {A : Type} (p q : A -> bool) (l : list A) :
  (forall x, p x = true -> q x = true) -> filter p (filter q l) = filter p l.
Proof.
  intros H. induction l as [|x l IH]; [reflexivity|]. cbn [filter].
  destruct (q x) eqn:Eq; cbn [filter].
  - destruct (p x); rewrite IH; reflexivity.
  - destruct (p x) eqn:Ep; [rewrite (H x Ep) in Eq; discriminate | exact IH].
Qed.

(** X4: [toJovoModel] only reads files under [intents] or [entities]: removing every other
    file does not change its result. *)
Theorem toJovoModel_ignores_other_files (files : list NativeFile) (locale : string) :
  toJovoModel files locale =
  toJovoModel (filter (fun f => in_dir "intents" f || in_dir "entities" f) files) locale.
Proof.
  unfold toJovoModel. rewrite !filter_filter_imp; [reflexivity| |];
    intros f H; rewrite H; [apply orb_true_r | reflexivity].
Qed.

(** X5: when no file lies under [intents] or [entities], [toJovoModel] returns the empty
    version 4.0 model with empty invocation, no intents and no entity types. *)
Theorem toJovoModel_no_files (files : list NativeFile) (locale : string) :
  Forall (fun f => in_dir "intents" f = false /\ in_dir "entities" f = false) files ->
  toJovoModel files locale =
  Ok {| model_is_v3 := false; version := Some "4.0"; invocation := Some "";
        intents := Some []; entityTypes := Some []; model_dialogflow := None |}.
Proof.
  intros H. rewrite toJovoModel_ignores_other_files.
  replace (filter _ files) with (@nil NativeFile); [reflexivity|].
  induction H as [|f fs [H1 H2] _ IH]; [reflexivity|]. cbn [filter]. rewrite H1, H2. exact IH.
Qed.

Lemma toJovoModel_no_files_witness :
  Forall (fun f => in_dir "intents" f = false /\ in_dir "entities" f = false)
    [{| path := ["agent.json"]; content := JObj [] |}] /\
  toJovoModel [{| path := ["agent.json"]; content := JObj [] |}] "en-US" =
  Ok {| model_is_v3 := false; version := Some "4.0"; invocation := Some "";
        intents := Some []; entityTypes := Some []; model_dialogflow := None |}.
Proof.
  split; [repeat constructor|].
  apply toJovoModel_no_files. repeat constructor.
Defined.

(** X6: splitting a phrase of an intent into text and [{entity}] markers loses nothing:
    putting the pieces back together, markers with their braces, gives the phrase. *)
Theorem phrase_pieces_lossless (s : string) : render_pieces (phrase_pieces s) = s.
Proof. exact (phrase_pieces_render s). Qed.

Lemma sanitize_idem (s : string) : sanitize (sanitize s) = sanitize s.
Proof.
  unfold sanitize. rewrite list_ascii_of_string_of_list_ascii. f_equal.
  induction (list_ascii_of_string s) as [|c l IH]; [reflexivity|]. cbn [filter].
  destruct (in_class c) eqn:E; cbn [filter]; rewrite ?E, ?IH; reflexivity.
Qed.

Lemma map_result_inv {A B : Type} (f : A -> result B) (l : list A) (l' : list B) :
  map_result f l = Ok l' -> Forall2 (fun x y => f x = Ok y) l l'.
Proof.
  unfold map_result.
  assert (forall acc r, fold_result (fun acc x => let* y := f x in Ok (acc ++ [y])) l acc = Ok r ->
                        exists l2, r = acc ++ l2 /\ Forall2 (fun x y => f x = Ok y) l l2) as H.
  { induction l as [|x l IH]; intros acc r H.
    - injection H as <-. exists []. rewrite app_nil_r. auto.
    - rewrite fold_result_cons in H. destruct (f x) as [y|e] eqn:E; [|discriminate].
      cbn [rbind] in H. destruct (IH _ _ H) as [l2 [-> H2]].
      exists (y :: l2). rewrite <- app_assoc. auto. }
  intros Hm. destruct (H [] l' Hm) as [l2 [-> H2]]. exact H2.
Qed.

(** X7: exporting an entity-type value a second time, from the value the first export stored
    back into the model, gives the same entry and the same value again. *)
Theorem export_value_stable (isEnum isRegexp : json) (v v' : EntityTypeValue) (entry : json) :
  export_value isEnum isRegexp v = Ok (entry, v') ->
  export_value isEnum isRegexp v' = Ok (entry, v').
Proof.
  destruct v as [s|val syns]; cbn [export_value].
  - intros H. injection H as <- <-. reflexivity.
  - destruct (negb (truthy isEnum) && negb (truthy isRegexp)) eqn:Ec;
      [|intros H; injection H as <- <-; cbn [export_value]; rewrite Ec; reflexivity].
    destruct val as [| | | |s| |]; try discriminate.
    destruct syns as [l|]; [|intros H; injection H as <- <-; cbn [export_value]; rewrite Ec; reflexivity].
    destruct (map_result _ l) as [l'|e] eqn:E; cbn [rbind]; [|discriminate].
    intros H. injection H as <- <-. cbn [export_value]. rewrite Ec.
    apply map_result_inv in E.
    rewrite (map_result_map _ (fun x => x)).
    + rewrite map_id. reflexivity.
    + intros x Hx. clear - E Hx. induction E as [|a b l l2 Hab _ IH]; [destruct Hx|].
      destruct Hx as [<-|Hx]; [|exact (IH Hx)].
      destruct a; try discriminate. injection Hab as <-. rewrite sanitize_idem. reflexivity.
Qed.

Lemma export_value_stable_witness :
  export_value (JBool false) (JBool false) (EVObj (JStr "New York") (Some [JStr "N.Y."]))
    = Ok (JObj [("value", JStr "New York"); ("synonyms", JArr [JStr "New York"; JStr "NY"])],
          EVObj (JStr "New York") (Some [JStr "NY"])) /\
  export_value (JBool false) (JBool false) (EVObj (JStr "New York") (Some [JStr "NY"]))
    = Ok (JObj [("value", JStr "New York"); ("synonyms", JArr [JStr "New York"; JStr "NY"])],
          EVObj (JStr "New York") (Some [JStr "NY"])).
Proof.
  assert (H : export_value (JBool false) (JBool false) (EVObj (JStr "New York") (Some [JStr "N.Y."]))
    = Ok (JObj [("value", JStr "New York"); ("synonyms", JArr [JStr "New York"; JStr "NY"])],
          EVObj (JStr "New York") (Some [JStr "NY"]))) by reflexivity.
  split; [exact H | exact (export_value_stable _ _ _ _ _ H)].
Defined.

Section Keeps.
Context {A B : Type}.
Implicit Types (Q R S : JovoModelData -> list NativeFile -> Prop).

Lemma keeps_ret Q R (a : A) : (forall mo fs, Q mo fs -> R mo fs) -> keeps Q R (mret a).
Proof. intros H s a' s' HQ E. injection E as _ <-. auto. Qed.

Lemma keeps_throw Q R e : keeps Q R (@mthrow A e).
Proof. intros s a s' _ E. discriminate. Qed.

Lemma keeps_lift Q R (r : result A) : (forall mo fs, Q mo fs -> R mo fs) -> keeps Q R (lift r).
Proof. intros H s a s' HQ E. unfold lift in E. destruct r; [injection E as _ <-; auto|discriminate]. Qed.

Lemma keeps_bind Q R S (c : M A) (f : A -> M B) :
  keeps Q R c -> (forall a, keeps R S (f a)) -> keeps Q S (mbind c f).
Proof.
  intros Hc Hf s b s' HQ E. unfold mbind in E.
  destruct (c s) as [[a s1]|] eqn:Ec; [|discriminate].
  exact (Hf a s1 b s' (Hc s a s1 HQ Ec) E).
Qed.

Lemma keeps_get Q R (f : JovoModelData -> M A) :
  (forall mo, keeps (fun mo' fs => Q mo' fs /\ mo' = mo) R (f mo)) -> keeps Q R (mbind get_model f).
Proof. intros H s a s' HQ E. exact (H (st_model s) s a s' (conj HQ eq_refl) E). Qed.

Lemma keeps_put Q R (m : JovoModelData) :
  (forall mo fs, Q mo fs -> R m fs) -> keeps Q R (put_model m).
Proof. intros H s a s' HQ E. injection E as _ <-. cbn. eauto. Qed.

Lemma keeps_push Q R (f : NativeFile) :
  (forall mo fs, Q mo fs -> R mo (fs ++ [f])) -> keeps Q R (push_file f).
Proof. intros H s a s' HQ E. injection E as _ <-. cbn. auto. Qed.

Lemma keeps_uuid Q R (u : nat -> string) : (forall mo fs, Q mo fs -> R mo fs) -> keeps Q R (uuid u).
Proof. intros H s a s' HQ E. injection E as _ <-. cbn. auto. Qed.

Lemma keeps_weaken Q Q' R (c : M A) : (forall mo fs, Q' mo fs -> Q mo fs) -> keeps Q R c -> keeps Q' R c.
Proof. intros H Hc s a s' HQ E. exact (Hc s a s' (H _ _ HQ) E). Qed.

End Keeps.

Lemma keeps_mfold {A B : Type} (P : JovoModelData -> list NativeFile -> Prop) (f : B -> A -> M B) (l : list A) (b : B) :
  (forall b x, In x l -> keeps P P (f b x)) -> keeps P P (mfold f l b).
Proof.
  revert b. induction l as [|x l IH]; intros b H; cbn [mfold].
  - apply keeps_ret. auto.
  - apply (keeps_bind _ P); [apply H; left; reflexivity|].
    intros b'. apply IH. intros b1 y Hy. apply H. right. exact Hy.
Qed.

(** A successful [mfold] ran each step from a state satisfying the invariant. *)
Lemma mfold_each {A B : Type} (P : JovoModelData -> list NativeFile -> Prop) (f : B -> A -> M B) (l : list A) :
  (forall b x, In x l -> keeps P P (f b x)) ->
  forall b s b' s', P (st_model s) (st_files s) -> mfold f l b s = Ok (b', s') ->
  forall x, In x l -> exists b1 s1 r, P (st_model s1) (st_files s1) /\ f b1 x s1 = Ok r.
Proof.
  intros Hk. induction l as [|y l IH]; intros b s b' s' HP E x Hx; [destruct Hx|].
  cbn [mfold] in E. unfold mbind in E. destruct (f b y s) as [[b1 s1]|] eqn:Ey; [|discriminate].
  destruct Hx as [<-|Hx].
  - exists b, s, (b1, s1). auto.
  - refine (IH _ b1 s1 b' s' _ E x Hx).
    + intros b2 z Hz. apply Hk. right. exact Hz.
    + exact (Hk b y (or_introl eq_refl) s b1 s1 HP Ey).
Qed.

Ltac keep_by P :=
  repeat match goal with
  | |- keeps _ _ (mbind get_model _) =>
      apply keeps_get; intro; apply (keeps_weaken P); [intros ? ? [? _]; assumption|]
  | |- keeps _ _ (mbind _ _) => apply (keeps_bind _ P); [|intro]
  | |- keeps _ _ (mret _) => apply keeps_ret; intros ? ? ?; assumption
  | |- keeps _ _ (mthrow _) => apply keeps_throw
  | |- keeps _ _ (lift _) => apply keeps_lift; intros ? ? ?; assumption
  | |- keeps _ _ (uuid _) => apply keeps_uuid; intros ? ? ?; assumption
  | |- keeps _ _ (push_file _) => apply keeps_push
  | |- keeps _ _ (put_model _) => apply keeps_put
  | |- keeps _ _ (mfold _ _ _) => apply keeps_mfold; intros ? ? ?
  | |- keeps _ _ (if ?b then _ else _) => destruct b
  | |- keeps _ _ (match ?x with _ => _ end) => destruct x
  end.

Lemma files_ok_push (d n : string) (mo : JovoModelData) (fs : list NativeFile) (c : json) :
  d = "intents" \/ d = "entities" -> files_ok mo fs -> files_ok mo (fs ++ [{| path := [d; n]; content := c |}]).
Proof.
  intros Hd H. apply Forall_app. split; [exact H|]. constructor; [|constructor].
  exists d, n. auto.
Qed.

Lemma export_entity_files u locale k acc kv : keeps files_ok files_ok (export_entity u locale k acc kv).
Proof.
  destruct kv as [ek ed]. unfold export_entity. keep_by files_ok;
    intros ? ? ?; first [assumption | apply files_ok_push; auto].
Qed.

Ltac files_leaf := intros ? ? ?; first [assumption | apply files_ok_push; auto].

Lemma export_phrase_files u locale k obj acc p : keeps files_ok files_ok (export_phrase u locale k obj acc p).
Proof. unfold export_phrase. keep_by files_ok. Qed.

Lemma export_intent_files u locale t kv : keeps files_ok files_ok (export_intent u locale t kv).
Proof.
  destruct kv as [k i]. unfold export_intent. keep_by files_ok; try files_leaf.
  - apply export_entity_files.
  - apply export_phrase_files.
Qed.

Lemma export_df_record_files locale dir sub infix acc r :
  dir = "intents" \/ dir = "entities" ->
  keeps files_ok files_ok (export_df_record locale dir sub infix acc r).
Proof. intros Hd. unfold export_df_record. keep_by files_ok; files_leaf. Qed.

Lemma export_escape_hatch_files locale key sub infix :
  key = "intents" \/ key = "entities" ->
  keeps files_ok files_ok (export_escape_hatch locale key sub infix).
Proof.
  intros Hk. unfold export_escape_hatch. keep_by files_ok; try files_leaf.
  apply export_df_record_files. exact Hk.
Qed.

(** X8: every file a successful [fromJovoModel] returns has a path of two parts whose
    directory is [intents] or [entities]. *)
Theorem fromJovoModel_file_paths (u : nat -> string) (model : JovoModelData) (locale : string)
  (files : list NativeFile) (model' : JovoModelData) :
  fromJovoModel u model locale = Ok (files, model') -> Forall exported_path files.
Proof.
  unfold fromJovoModel. cbv zeta.
  match goal with |- context [match ?r with Ok _ => _ | Throw _ => _ end] =>
    destruct r as [[x s]|e] eqn:E; [|discriminate] end.
  intros H. injection H as <- _.
  assert (Hk : keeps files_ok files_ok
    (_ <- mfold (export_intent u locale) (getIntents model) tt ;;
     _ <- export_escape_hatch locale "intents" "userSays" "_usersays_" ;;
     export_escape_hatch locale "entities" "entries" "_entries_")).
  2: exact (Hk {| st_next := 0; st_model := model; st_files := [] |} x s (Forall_nil _) E).
  keep_by files_ok.
  - apply export_intent_files.
  - apply export_escape_hatch_files. auto.
  - apply export_escape_hatch_files. auto.
Qed.

Lemma city_export_ok : fromJovoModel nat_key model_string_value "en-US" = Ok (fst city_export, snd city_export).
Proof. vm_compute. reflexivity. Qed.

Lemma fromJovoModel_file_paths_witness :
  fromJovoModel nat_key model_string_value "en-US" = Ok (fst city_export, snd city_export) /\
  Forall exported_path (fst city_export).
Proof.
  split; [exact city_export_ok|].
  exact (fromJovoModel_file_paths nat_key model_string_value "en-US" _ _ city_export_ok).
Defined.

Ltac keep_with P :=
  repeat match goal with
  | |- keeps _ _ (mbind get_model _) => apply keeps_get; intro
  | |- keeps _ _ (mbind _ _) => apply (keeps_bind _ P); [|intro]
  | |- keeps _ _ (mret _) => apply keeps_ret; intros ? ? ?
  | |- keeps _ _ (mthrow _) => apply keeps_throw
  | |- keeps _ _ (lift _) => apply keeps_lift; intros ? ? ?
  | |- keeps _ _ (uuid _) => apply keeps_uuid; intros ? ? ?
  | |- keeps _ _ (push_file _) => apply keeps_push; intros ? ? ?
  | |- keeps _ _ (put_model _) => apply keeps_put; intros ? ? ?
  | |- keeps _ _ (mfold _ _ _) =>
      apply (keeps_weaken P); [intros ? ? H; first [exact (proj1 H) | exact H] |];
      apply keeps_mfold; intros ? ? ?
  | |- keeps _ _ (if ?b then _ else _) => destruct b
  | |- keeps _ _ (match ?x with _ => _ end) => destruct x
  end;
  repeat match goal with H : _ /\ _ |- _ => destruct H end;
  try assumption.

Lemma assoc_set_other {A : Type} (k k' : string) (v : A) (l : list (string * A)) :
  k' <> k -> assoc k' (assoc_set k v l) = assoc k' l.
Proof.
  intros Hne. induction l as [|[k1 v1] l IH]; cbn.
  - destruct (String.eqb_spec k' k); [congruence|reflexivity].
  - destruct (String.eqb_spec k k1) as [->|_]; cbn.
    + destruct (String.eqb_spec k' k1); [congruence|reflexivity].
    + rewrite IH. reflexivity.
Qed.

Lemma names_kept_set m0 mo fs n vs :
  names_kept m0 mo fs -> names_kept m0 (setEntityTypeValues mo n vs) fs.
Proof.
  intros [Hi Hn]. unfold setEntityTypeValues.
  destruct (entityTypes mo) as [l|] eqn:El; [|split; assumption].
  destruct (assoc n l) as [et|] eqn:Ea; [|split; assumption].
  split; [exact Hi|]. intros n' H. apply Hn. unfold getEntityTypeByName in *. cbn in H. rewrite El.
  destruct (String.eqb_spec n' n) as [->|Hne]; [congruence|].
  rewrite assoc_set_other in H by exact Hne. exact H.
Qed.

Lemma export_entity_names u m0 locale k acc kv : keeps (names_kept m0) (names_kept m0) (export_entity u locale k acc kv).
Proof.
  destruct kv as [ek ed]. unfold export_entity. keep_with (names_kept m0).
  subst. apply names_kept_set. assumption.
Qed.

Lemma export_phrase_names u m0 locale k obj acc p : keeps (names_kept m0) (names_kept m0) (export_phrase u locale k obj acc p).
Proof. unfold export_phrase. keep_with (names_kept m0). Qed.

Lemma export_intent_names u m0 locale t kv : keeps (names_kept m0) (names_kept m0) (export_intent u locale t kv).
Proof.
  destruct kv as [k i]. unfold export_intent. keep_with (names_kept m0).
  - apply export_entity_names.
  - apply export_phrase_names.
Qed.

Lemma mbind_inv {A B : Type} (c : M A) (f : A -> M B) (s : ExportState) r :
  mbind c f s = Ok r -> exists a s1, c s = Ok (a, s1) /\ f a s1 = Ok r.
Proof. unfold mbind. destruct (c s) as [[a s1]|e]; [eauto|discriminate]. Qed.

Lemma export_entity_type_ok u locale k acc ek ed s r :
  export_entity u locale k acc (ek, ed) s = Ok r ->
  exists t, entity_type_name (ie_type ed) = Some t /\
            (startsWith t "@sys." = true \/ getEntityTypeByName (st_model s) t <> None).
Proof.
  unfold export_entity. intros H.
  apply mbind_inv in H as (d & s1 & H1 & H).
  assert (entity_type_name (ie_type ed) = Some d /\ s1 = s) as [Hd ->].
  { unfold entity_type_name. destruct (ie_type ed) as [[n|fs]|]; cbn in H1; try discriminate.
    - destruct (is_empty_string n); [discriminate|]. injection H1 as -> ->. auto.
    - destruct (assoc "dialogflow" fs) as [d'|]; [|discriminate].
      destruct (is_empty_string d'); [discriminate|]. injection H1 as -> ->. auto. }
  exists d. split; [exact Hd|].
  apply mbind_inv in H as (d' & s2 & H2 & _).
  destruct (startsWith d "@sys."); [left; reflexivity|right].
  apply mbind_inv in H2 as (m & s3 & H3 & H2). injection H3 as <- <-.
  destruct (negb (hasEntityTypes (st_model s))); [discriminate|].
  destruct (getEntityTypeByName (st_model s) d); [discriminate|].
  destruct (isJovoModelV3 (st_model s)); discriminate.
Qed.

Lemma getEntities_names m0 mo fs k : names_kept m0 mo fs -> getEntities mo k = getEntities m0 k.
Proof. intros [Hi _]. unfold getEntities. rewrite Hi. reflexivity. Qed.

Lemma export_intent_entities_ok u m0 locale t k i s r :
  names_kept m0 (st_model s) (st_files s) ->
  export_intent u locale t (k, i) s = Ok r ->
  Forall (fun '(ek, ed) => entity_type_ok m0 ed) (getEntities m0 k).
Proof.
  intros Hs H. unfold export_intent in H.
  apply mbind_inv in H as (id & s1 & H1 & H). injection H1 as _ <-.
  apply mbind_inv in H as (m & s2 & H2 & H). injection H2 as <- <-.
  apply mbind_inv in H as (params & s3 & H3 & _). cbn in Hs.
  rewrite <- (getEntities_names _ _ _ k Hs).
  unfold hasEntities in H3.
  destruct (getEntities (st_model s) k) as [|e es] eqn:Ee; [constructor|].
  rewrite <- Ee in H3 |- *.
  apply mbind_inv in H3 as (ps & s4 & H4 & _).
  apply Forall_forall. intros [ek ed] Hin.
  destruct (mfold_each (names_kept m0) _ _ (fun b x _ => export_entity_names u m0 locale k b x)
              [] {| st_next := S (st_next s); st_model := st_model s; st_files := st_files s |}
              ps s4 Hs H4 (ek, ed) Hin) as (b1 & s5 & r5 & Hs5 & H5).
  destruct (export_entity_type_ok _ _ _ _ _ _ _ _ H5) as (n & Hn & Hd).
  exists n. split; [exact Hn|]. destruct Hd as [Hd|Hd]; [left; exact Hd|right].
  exact (proj2 Hs5 n Hd).
Qed.

(** X9: when [fromJovoModel] succeeds on a model with distinct intent names, the type of every
    entity of every intent names either a built-in type (prefix [@sys.]) or an entity type
    of the model. *)
Theorem fromJovoModel_entity_types_declared (u : nat -> string) (model : JovoModelData) (locale : string)
  (r : list NativeFile * JovoModelData) :
  fromJovoModel u model locale = Ok r ->
  NoDup (map fst (getIntents model)) ->
  forall k i ek ed, In (k, i) (getIntents model) -> In (ek, ed) (default [] (entities i)) ->
  exists n, entity_type_name (ie_type ed) = Some n /\
            (startsWith n "@sys." = true \/ getEntityTypeByName model n <> None).
Proof.
  intros H Hnd k i ek ed Hki Hed.
  unfold fromJovoModel in H. cbv zeta in H.
  match type of H with context [match ?r with Ok _ => _ | Throw _ => _ end] =>
    destruct r as [[x s]|e] eqn:E; [|discriminate] end.
  apply mbind_inv in E as (t & s1 & E & _).
  assert (Hs0 : names_kept model (st_model {| st_next := 0; st_model := model; st_files := [] |}) [])
    by (split; [reflexivity|auto]).
  destruct (mfold_each (names_kept model) _ _ (fun b x _ => export_intent_names u model locale b x)
              tt _ t s1 Hs0 E (k, i) Hki) as (b1 & s2 & r2 & Hs2 & H2).
  pose proof (export_intent_entities_ok _ _ _ _ _ _ _ _ Hs2 H2) as Hf.
  unfold getEntities in Hf. rewrite (NoDup_assoc _ _ _ Hnd Hki) in Hf.
  rewrite Forall_forall in Hf. exact (Hf (ek, ed) Hed).
Qed.

Lemma fromJovoModel_entity_types_declared_witness :
  fromJovoModel nat_key model_string_value "en-US" = Ok city_export /\
  NoDup (map fst (getIntents model_string_value)) /\
  In ("CityIntent", city_intent) (getIntents model_string_value) /\
  In ("city", city_entity) (default [] (entities city_intent)) /\
  exists n, entity_type_name (ie_type city_entity) = Some n /\
            (startsWith n "@sys." = true \/ getEntityTypeByName model_string_value n <> None).
Proof.
  assert (H1 : fromJovoModel nat_key model_string_value "en-US" = Ok city_export) by (vm_compute; reflexivity).
  assert (H2 : NoDup (map fst (getIntents model_string_value))) by (vm_compute; repeat constructor; intros []).
  assert (H3 : In ("CityIntent", city_intent) (getIntents model_string_value)) by (left; reflexivity).
  assert (H4 : In ("city", city_entity) (default [] (entities city_intent))) by (left; reflexivity).
  split; [exact H1|split; [exact H2|split; [exact H3|split; [exact H4|]]]].
  exact (fromJovoModel_entity_types_declared nat_key model_string_value "en-US" _ H1 H2 _ _ _ _ H3 H4).
Defined.


Lemma map_fst_assoc_set {A : Type} (k : string) (v : A) (l : list (string * A)) :
  assoc k l <> None -> map fst (assoc_set k v l) = map fst l.
Proof.
  induction l as [|[k1 v1] l IH]; cbn; [congruence|].
  destruct (String.eqb_spec k k1) as [->|_]; cbn; [reflexivity|].
  intros H. rewrite IH by exact H. reflexivity.
Qed.

Lemma model_frame_set m0 mo fs n vs :
  model_frame m0 mo fs -> model_frame m0 (setEntityTypeValues mo n vs) fs.
Proof.
  unfold setEntityTypeValues.
  destruct (entityTypes mo) as [l|] eqn:El; [|auto].
  destruct (assoc n l) as [et|] eqn:Ea; [|auto].
  intros (H1 & H2 & H3 & H4 & H5). unfold model_frame. cbn. rewrite El in H5.
  repeat split; try assumption. rewrite <- H5. cbn. f_equal. apply map_fst_assoc_set. congruence.
Qed.

Lemma model_frame_df m0 mo fs d : model_frame m0 mo fs -> model_frame m0 (with_model_df mo d) fs.
Proof. intros H. exact H. Qed.

Lemma model_frame_files m0 mo fs f : model_frame m0 mo fs -> model_frame m0 mo (fs ++ [f]).
Proof. intros H. exact H. Qed.

Ltac frame_leaf :=
  subst; first [ apply model_frame_set; assumption | apply model_frame_df; assumption
               | apply model_frame_files; assumption ].

Lemma export_entity_frame u m0 locale k acc kv : keeps (model_frame m0) (model_frame m0) (export_entity u locale k acc kv).
Proof. destruct kv as [ek ed]. unfold export_entity. keep_with (model_frame m0); frame_leaf. Qed.

Lemma export_phrase_frame u m0 locale k obj acc p : keeps (model_frame m0) (model_frame m0) (export_phrase u locale k obj acc p).
Proof. unfold export_phrase. keep_with (model_frame m0). Qed.

Lemma export_intent_frame u m0 locale t kv : keeps (model_frame m0) (model_frame m0) (export_intent u locale t kv).
Proof.
  destruct kv as [k i]. unfold export_intent. keep_with (model_frame m0); try frame_leaf.
  - apply export_entity_frame.
  - apply export_phrase_frame.
Qed.

Lemma export_df_record_frame m0 locale dir sub infix acc r :
  keeps (model_frame m0) (model_frame m0) (export_df_record locale dir sub infix acc r).
Proof. unfold export_df_record. keep_with (model_frame m0); frame_leaf. Qed.

Lemma export_escape_hatch_frame m0 locale key sub infix :
  keeps (model_frame m0) (model_frame m0) (export_escape_hatch locale key sub infix).
Proof.
  unfold export_escape_hatch. keep_with (model_frame m0); try frame_leaf.
  apply export_df_record_frame.
Qed.

(** X10: a successful [fromJovoModel] changes neither the version, the invocation, the v3
    flag, the intents nor the names and order of the entity types of the model it returns. *)
Theorem fromJovoModel_model_frame (u : nat -> string) (model : JovoModelData) (locale : string)
  (files : list NativeFile) (model' : JovoModelData) :
  fromJovoModel u model locale = Ok (files, model') ->
  model_is_v3 model' = model_is_v3 model /\ version model' = version model /\
  invocation model' = invocation model /\ intents model' = intents model /\
  option_map (map fst) (entityTypes model') = option_map (map fst) (entityTypes model).
Proof.
  unfold fromJovoModel. cbv zeta.
  match goal with |- context [match ?r with Ok _ => _ | Throw _ => _ end] =>
    destruct r as [[x s]|e] eqn:E; [|discriminate] end.
  intros H. injection H as _ <-.
  assert (Hk : keeps (model_frame model) (model_frame model)
    (_ <- mfold (export_intent u locale) (getIntents model) tt ;;
     _ <- export_escape_hatch locale "intents" "userSays" "_usersays_" ;;
     export_escape_hatch locale "entities" "entries" "_entries_")).
  2: refine (Hk {| st_next := 0; st_model := model; st_files := [] |} x s _ E);
     repeat split; reflexivity.
  keep_with (model_frame model).
  - apply export_intent_frame.
  - apply export_escape_hatch_frame.
  - apply export_escape_hatch_frame.
Qed.

Lemma fromJovoModel_model_frame_witness :
  fromJovoModel nat_key model_string_value "en-US" = Ok (fst city_export, snd city_export) /\
  model_is_v3 (snd city_export) = model_is_v3 model_string_value /\
  version (snd city_export) = version model_string_value /\
  invocation (snd city_export) = invocation model_string_value /\
  intents (snd city_export) = intents model_string_value /\
  option_map (map fst) (entityTypes (snd city_export)) = option_map (map fst) (entityTypes model_string_value).
Proof.
  split; [exact city_export_ok|].
  exact (fromJovoModel_model_frame nat_key model_string_value "en-US" _ _ city_export_ok).
Defined.

(** X11: on a model without intents and without [dialogflow] escape hatch, [fromJovoModel]
    returns no file and the model unchanged. *)
Theorem fromJovoModel_empty_model (u : nat -> string) (model : JovoModelData) (locale : string) :
  getIntents model = [] -> model_dialogflow model = None ->
  fromJovoModel u model locale = Ok ([], model).
Proof.
  intros Hi Hd. unfold fromJovoModel. rewrite Hi. cbn.
  unfold mbind, export_escape_hatch, get_model. cbn. rewrite Hd. cbn. rewrite ?Hd. reflexivity.
Qed.

Lemma fromJovoModel_empty_model_witness :
  getIntents bare_model = [] /\ model_dialogflow bare_model = None /\
  fromJovoModel nat_key bare_model "en-US" = Ok ([], bare_model).
Proof.
  assert (H1 : getIntents bare_model = []) by reflexivity.
  assert (H2 : model_dialogflow bare_model = None) by reflexivity.
  split; [exact H1|split; [exact H2|]].
  exact (fromJovoModel_empty_model nat_key bare_model "en-US" H1 H2).
Defined.

Lemma import_entry_plain_value dfe acc entry acc' :
  truthy (get1 dfe (PKey "isEnum")) = true \/ truthy (get1 dfe (PKey "isRegexp")) = true ->
  Forall (fun v => exists x, v = EVObj x None) acc ->
  import_entry dfe acc entry = Ok acc' -> Forall (fun v => exists x, v = EVObj x None) acc'.
Proof.
  unfold import_entry. intros Hf Hacc H.
  destruct (prop entry "value") as [v|]; [|discriminate]; cbn [rbind] in H.
  destruct (prop dfe "isEnum") as [ie|] eqn:Ee; [|discriminate]; cbn [rbind] in H.
  destruct (prop dfe "isRegexp") as [ir|] eqn:Er; [|discriminate]; cbn [rbind] in H.
  assert (Ht : truthy ie = true \/ truthy ir = true).
  { destruct dfe; try discriminate; cbn in Ee, Er; injection Ee as <-; injection Er as <-; exact Hf. }
  destruct Ht as [Ht|Ht]; rewrite Ht in H; [|rewrite andb_false_r in H]; cbn in H;
    injection H as <-; apply Forall_app; split; eauto.
Qed.

(** X12: importing an entity file whose [isEnum] or [isRegexp] is truthy gives the model an
    entity type of that name whose values all lack synonyms, whatever the entries file
    holds. *)
Theorem import_entity_file_enum_no_synonyms (entityFiles : list NativeFile) (locale : string)
  (jm jm' : JovoModelData) (f : NativeFile) (file : string) :
  nth_error (path f) 1 = Some file -> contains "entries" file = false ->
  truthy (get1 (content f) (PKey "isEnum")) = true \/ truthy (get1 (content f) (PKey "isRegexp")) = true ->
  import_entity_file entityFiles locale jm f = Ok jm' ->
  exists et, getEntityTypeByName jm' (js_to_string (get1 (content f) (PKey "name"))) = Some et /\
             Forall (fun v => exists x, v = EVObj x None) (default [] (values et)).
Proof.
  intros Hf Hc Ht H. unfold import_entity_file in H. rewrite Hf, Hc in H.
  destruct (prop (content f) "name") as [nm|] eqn:En; [|discriminate]; cbn [rbind] in H.
  assert (nm = get1 (content f) (PKey "name")) as ->.
  { destruct (content f); try discriminate; injection En as <-; reflexivity. }
  destruct (match find_file _ _ with Some _ => _ | None => _ end) as [vs|] eqn:Evs;
    [|discriminate]; cbn [rbind] in H.
  destruct (entityTypes jm) as [l|] eqn:El; [|discriminate]. injection H as <-.
  eexists. split; [unfold getEntityTypeByName; cbn; apply assoc_assoc_set|]. cbn.
  destruct (find_file _ _) as [ef|]; [|injection Evs as <-; constructor].
  destruct (js_iter (content ef)) as [es|]; [|discriminate]; cbn [rbind] in Evs.
  refine (fold_result_inv (Forall (fun v => exists x, v = EVObj x None)) (import_entry (content f)) _ es [] vs _ Evs).
  - intros b x b'. apply import_entry_plain_value. exact Ht.
  - constructor.
Qed.

Lemma import_entity_file_enum_no_synonyms_witness :
  nth_error (path color_file) 1 = Some "Color.json" /\
  contains "entries" "Color.json" = false /\
  (truthy (get1 (content color_file) (PKey "isEnum")) = true \/
   truthy (get1 (content color_file) (PKey "isRegexp")) = true) /\
  import_entity_file [color_file; color_entries_file] "en-US" (imported_model []) color_file = Ok color_model /\
  exists et, getEntityTypeByName color_model (js_to_string (get1 (content color_file) (PKey "name"))) = Some et /\
             Forall (fun v => exists x, v = EVObj x None) (default [] (values et)).
Proof.
  assert (H1 : nth_error (path color_file) 1 = Some "Color.json") by reflexivity.
  assert (H2 : contains "entries" "Color.json" = false) by reflexivity.
  assert (H3 : truthy (get1 (content color_file) (PKey "isEnum")) = true \/
               truthy (get1 (content color_file) (PKey "isRegexp")) = true) by (left; reflexivity).
  assert (H4 : import_entity_file [color_file; color_entries_file] "en-US" (imported_model []) color_file
               = Ok color_model) by (vm_compute; reflexivity).
  split; [exact H1|split; [exact H2|split; [exact H3|split; [exact H4|]]]].
  exact (import_entity_file_enum_no_synonyms _ _ _ _ _ _ H1 H2 H3 H4).
Defined.

